(** * The CBOR reader and writer of Contiki-NG (os/lib/cbor.c, os/lib/cbor.h)

    A shallow embedding of the prepend-only CBOR writer and of the forward
    CBOR reader, and the properties of both that the design document states.

    Conventions of the embedding.
    - C integers are mathematical integers ([Z]); every conversion to a
      fixed-width type is written out ([to_uint8], [to_uint64], [to_size_t]).
    - The width of [size_t] and [CBOR_MAX_NESTING] are parameters of the
      development: the former is fixed by the platform, the latter by
      [CBOR_CONF_MAX_NESTING] (8 when the project does not configure it).
    - A pointer is an address; [NULL] is the address 0.  Memory maps every
      address to the byte stored there.
    - A C function that receives [cbor_writer_state_t *state] takes the
      state (and memory, if it touches the buffer) and returns the updated
      ones next to its result.
    - [cbor.c] has two variants of the loops that copy the argument of a
      header, selected by [__BIG_ENDIAN__]; this is the variant of
      little-endian targets ([! __BIG_ENDIAN__]). *)

From Stdlib Require Import ZArith Lia Bool.
From stdpp Require Import base numbers list.

Local Open Scope Z_scope.

(** ** <stdint.h> *)

Definition UINT8_MAX : Z := 255.
Definition UINT16_MAX : Z := 65535.
Definition UINT32_MAX : Z := 4294967295.
Definition UINT64_MAX : Z := 18446744073709551615.

Definition to_uint8 (z : Z) : Z := z mod 2 ^ 8.
Definition to_uint64 (z : Z) : Z := z mod 2 ^ 64.

(** ** Memory *)

Definition mem := Z -> Z.

Definition NULL : Z := 0.

Definition load8 (m : mem) (a : Z) : Z := to_uint8 (m a).

Definition store8 (m : mem) (a v : Z) : mem :=
  fun x => if x =? a then to_uint8 v else m x.

(** [memcpy(dst, src, n)] for regions that do not overlap. *)
Definition memcpy (m : mem) (dst src n : Z) : mem :=
  fun x => if (dst <=? x) && (x <? dst + n) then m (src + (x - dst)) else m x.

(** The [n] bytes stored from address [a] on. *)
Definition load_bytes (m : mem) (a : Z) (n : nat) : list Z :=
  (fun i => load8 m (a + Z.of_nat i)) <$> seq 0 n.

(** ** cbor.h: enumerations and macros *)

Definition CBOR_MAJOR_TYPE_NONE : Z := -1.
Definition CBOR_MAJOR_TYPE_UNSIGNED : Z := 0x00.
Definition CBOR_MAJOR_TYPE_BYTE_STRING : Z := 0x40.
Definition CBOR_MAJOR_TYPE_TEXT_STRING : Z := 0x60.
Definition CBOR_MAJOR_TYPE_ARRAY : Z := 0x80.
Definition CBOR_MAJOR_TYPE_MAP : Z := 0xA0.
Definition CBOR_MAJOR_TYPE_SIMPLE : Z := 0xE0.

Definition CBOR_SIMPLE_VALUE_NONE : Z := -1.
Definition CBOR_SIMPLE_VALUE_FALSE : Z := 0xF4.
Definition CBOR_SIMPLE_VALUE_TRUE : Z := 0xF5.
Definition CBOR_SIMPLE_VALUE_NULL : Z := 0xF6.
Definition CBOR_SIMPLE_VALUE_UNDEFINED : Z := 0xF7.

Definition CBOR_SIZE_NONE : Z := -1.
Definition CBOR_SIZE_1 : Z := 0x18.
Definition CBOR_SIZE_2 : Z := 0x19.
Definition CBOR_SIZE_4 : Z := 0x1A.
Definition CBOR_SIZE_8 : Z := 0x1B.

Definition CBOR_UNSIGNED_SIZE (uint : Z) : Z :=
  if uint <? CBOR_SIZE_1 then 1
  else if uint <=? UINT8_MAX then 1 + 1
  else if uint <=? UINT16_MAX then 1 + 2
  else if uint <=? UINT32_MAX then 1 + 4
  else 1 + 8.

Definition CBOR_BYTE_STRING_SIZE (bytes : Z) : Z :=
  CBOR_UNSIGNED_SIZE bytes + bytes.

Record cbor_writer_state_t := {
  buffer : Z;
  buffer_size : Z;
  nesting_depth : Z;
  objects : list Z
}.

Record cbor_reader_state_t := {
  cbor : Z;
  cbor_size : Z
}.

(** Assignments to one field. *)

Definition set_buffer (state : cbor_writer_state_t) (v : Z) :=
  {| buffer := v; buffer_size := buffer_size state;
     nesting_depth := nesting_depth state; objects := objects state |}.

Definition set_buffer_size (state : cbor_writer_state_t) (v : Z) :=
  {| buffer := buffer state; buffer_size := v;
     nesting_depth := nesting_depth state; objects := objects state |}.

Definition set_nesting_depth (state : cbor_writer_state_t) (v : Z) :=
  {| buffer := buffer state; buffer_size := buffer_size state;
     nesting_depth := v; objects := objects state |}.

(** [state->objects[i] = v] *)
Definition set_object (state : cbor_writer_state_t) (i v : Z) :=
  {| buffer := buffer state; buffer_size := buffer_size state;
     nesting_depth := nesting_depth state;
     objects := <[Z.to_nat i := v]> (objects state) |}.

(** [state->objects[i]] *)
Definition object (state : cbor_writer_state_t) (i : Z) : Z :=
  objects state !!! Z.to_nat i.

Definition set_cbor (state : cbor_reader_state_t) (v : Z) :=
  {| cbor := v; cbor_size := cbor_size state |}.

Definition set_cbor_size (state : cbor_reader_state_t) (v : Z) :=
  {| cbor := cbor state; cbor_size := v |}.

(** The loop of [prepend_unsigned]:
    [while(length_to_copy--) { state->buffer--; *state->buffer = value; value >>= 8; }].
    It returns the final [state->buffer] and the memory. *)
Fixpoint prepend_unsigned_loop (length_to_copy : nat) (p value : Z) (m : mem)
  : Z * mem :=
  match length_to_copy with
  | O => (p, m)
  | S n =>
      let p := p - 1 in
      let m := store8 m p value in
      prepend_unsigned_loop n p (Z.shiftr value 8) m
  end.

(** The loop of [cbor_read_unsigned]:
    [while(bytes_to_read--) { *value <<= 8; *value += *state->cbor++; }].
    It returns the final [state->cbor] and [*value]. *)
Fixpoint cbor_read_unsigned_loop (bytes_to_read : nat) (p value : Z) (m : mem)
  : Z * Z :=
  match bytes_to_read with
  | O => (p, value)
  | S n =>
      let value := to_uint64 (Z.shiftl value 8) in
      let value := to_uint64 (value + load8 m p) in
      cbor_read_unsigned_loop n (p + 1) value m
  end.

(** ** Concrete inputs

    The native test platform has a 64-bit [size_t]; the default
    [CBOR_MAX_NESTING] is 8. *)

Definition native_size_bits : Z := 64.
Definition default_max_nesting : Z := 8.

(** A writer state before [cbor_init_writer], a reader state before
    [cbor_init_reader], and a memory with the bytes 0x0A 0x0B 0x0C at
    address 5000. *)
Definition blank_writer : cbor_writer_state_t :=
  {| buffer := 0; buffer_size := 0; nesting_depth := 0;
     objects := replicate 8 0 |}.

Definition blank_reader : cbor_reader_state_t :=
  {| cbor := 0; cbor_size := 0 |}.

Definition foo_memory : mem :=
  fun a => if a =? 5000 then 0x0A
           else if a =? 5001 then 0x0B
           else if a =? 5002 then 0x0C
           else 0.

(** A memory that holds 0x58 (byte string, length in the next byte) at
    address 16 and 0x63 (text string of 3 bytes) at address 32. *)
Definition truncated_memory : mem :=
  fun a => if a =? 16 then 0x58 else if a =? 32 then 0x63 else 0.

(** Writer states: a poisoned one; two with a container open at depth 7
    that holds 1 and 2 items, with 100 free bytes below address 1100; one
    with an open container and no free byte. *)
Definition poisoned_writer : cbor_writer_state_t :=
  {| buffer := NULL; buffer_size := 0; nesting_depth := 8;
     objects := replicate 8 0 |}.

Definition odd_map_writer : cbor_writer_state_t :=
  {| buffer := 1100; buffer_size := 100; nesting_depth := 7;
     objects := [0; 0; 0; 0; 0; 0; 0; 1] |}.

Definition even_map_writer : cbor_writer_state_t :=
  {| buffer := 1100; buffer_size := 100; nesting_depth := 7;
     objects := [0; 0; 0; 0; 0; 0; 0; 2] |}.

Definition full_writer : cbor_writer_state_t :=
  {| buffer := 1000; buffer_size := 0; nesting_depth := 7;
     objects := [0; 0; 0; 0; 0; 0; 0; 3] |}.

(** A memory that holds 0xF9 (a half-precision float) at address 16, 0xC0
    (tag 0) at address 17, 0x05 (the unsigned integer 5) at address 18 and
    0x18 0x05 (the same in two bytes) at address 32. *)
Definition peek_memory : mem :=
  fun a => if a =? 16 then 0xF9
           else if a =? 17 then 0xC0
           else if a =? 18 then 0x05
           else if a =? 32 then 0x18
           else if a =? 33 then 0x05
           else 0.

(** A memory that holds the byte string h'0A0B0C' (0x43 and the bytes) at
    address 16 and the text string "abc" (0x63 and the characters) at
    address 32. *)
Definition strings_memory : mem :=
  fun a => if a =? 16 then 0x43
           else if a =? 17 then 0x0A
           else if a =? 18 then 0x0B
           else if a =? 19 then 0x0C
           else if a =? 32 then 0x63
           else if a =? 33 then 0x61
           else if a =? 34 then 0x62
           else if a =? 35 then 0x63
           else 0.

(** A memory that holds 0xFF (low five bits 31, reserved in a header) at
    address 16 and 0x19 0x01 (an unsigned integer with a two-byte argument,
    of which only the first byte is there) at address 32. *)
Definition malformed_memory : mem :=
  fun a => if a =? 16 then 0xFF
           else if a =? 32 then 0x19
           else if a =? 33 then 0x01
           else 0.

(** A memory that holds 0x98 0x19 (the header of an array of 25 elements)
    at address 16 and 0xA1 (the header of a map of one pair) at
    address 32. *)
Definition headers_memory : mem :=
  fun a => if a =? 16 then 0x98
           else if a =? 17 then 0x19
           else if a =? 32 then 0xA1
           else 0.

Section Cbor.

(** Width of [size_t] in bits. *)
Variable SIZE_BITS : Z.

Variable CBOR_MAX_NESTING : Z.

Definition SIZE_MAX : Z := 2 ^ SIZE_BITS - 1.

Definition to_size_t (z : Z) : Z := z mod 2 ^ SIZE_BITS.

(** ** cbor.c: the writer *)

Definition cbor_init_writer (state : cbor_writer_state_t)
    (buffer0 buffer_size0 : Z) : cbor_writer_state_t :=
  let state := set_buffer state (buffer0 + buffer_size0) in
  let state := set_buffer_size state buffer_size0 in
  set_nesting_depth state CBOR_MAX_NESTING.

Definition cbor_stop_writer (state : cbor_writer_state_t)
  : Z * cbor_writer_state_t :=
  (if nesting_depth state =? CBOR_MAX_NESTING then buffer state else NULL,
   state).

Definition increment (state : cbor_writer_state_t) : cbor_writer_state_t :=
  if nesting_depth state =? CBOR_MAX_NESTING then state
  else
    set_object state (nesting_depth state)
      (to_size_t (object state (nesting_depth state) + 1)).

Definition prepend_object (state : cbor_writer_state_t) (m : mem)
    (object0 object_size : Z) : cbor_writer_state_t * mem :=
  if object_size =? 0 then (state, m)
  else if buffer_size state <? object_size then
    let state := set_buffer state NULL in
    let state := set_buffer_size state 0 in
    (state, m)
  else
    let state := set_buffer state (buffer state - object_size) in
    let state := set_buffer_size state
                   (to_size_t (buffer_size state - object_size)) in
    (state, memcpy m (buffer state) object0 object_size).

Definition cbor_prepend_object (state : cbor_writer_state_t) (m : mem)
    (object0 object_size : Z) : cbor_writer_state_t * mem :=
  let '(state, m) := prepend_object state m object0 object_size in
  (increment state, m).

Definition prepend_unsigned (state : cbor_writer_state_t) (m : mem)
    (value : Z) : cbor_writer_state_t * mem :=
  (* determine size *)
  let '(length_to_copy, jump_byte) :=
    if value <? CBOR_SIZE_1 then (0, to_uint8 value)
    else if value <=? UINT8_MAX then (1, CBOR_SIZE_1)
    else if value <=? UINT16_MAX then (2, CBOR_SIZE_2)
    else if value <=? UINT32_MAX then (4, CBOR_SIZE_4)
    else (8, CBOR_SIZE_8) in
  (* write unsigned value *)
  if buffer_size state <=? length_to_copy then
    let state := set_buffer state NULL in
    let state := set_buffer_size state 0 in
    (state, m)
  else
    let state := set_buffer_size state
                   (to_size_t (buffer_size state - length_to_copy)) in
    let '(p, m) :=
      prepend_unsigned_loop (Z.to_nat length_to_copy) (buffer state) value m in
    let state := set_buffer state p in
    let state := set_buffer state (buffer state - 1) in
    let state := set_buffer_size state (to_size_t (buffer_size state - 1)) in
    (state, store8 m (buffer state) jump_byte).

Definition cbor_prepend_unsigned (state : cbor_writer_state_t) (m : mem)
    (value : Z) : cbor_writer_state_t * mem :=
  let '(state, m) := prepend_unsigned state m value in
  (increment state, m).

(** [*state->buffer |= major_type] *)
Definition or_major_type (state : cbor_writer_state_t) (m : mem)
    (major_type : Z) : mem :=
  store8 m (buffer state) (Z.lor (load8 m (buffer state)) major_type).

Definition cbor_wrap_data (state : cbor_writer_state_t) (m : mem)
    (data_size : Z) : cbor_writer_state_t * mem :=
  let '(state, m) := cbor_prepend_unsigned state m data_size in
  if buffer state =? NULL then (state, m)
  else (state, or_major_type state m CBOR_MAJOR_TYPE_BYTE_STRING).

Definition cbor_prepend_data (state : cbor_writer_state_t) (m : mem)
    (data data_size : Z) : cbor_writer_state_t * mem :=
  let '(state, m) := prepend_object state m data data_size in
  cbor_wrap_data state m data_size.

Definition cbor_prepend_text (state : cbor_writer_state_t) (m : mem)
    (text text_size : Z) : cbor_writer_state_t * mem :=
  let '(state, m) := prepend_object state m text text_size in
  let '(state, m) := cbor_prepend_unsigned state m text_size in
  if buffer state =? NULL then (state, m)
  else (state, or_major_type state m CBOR_MAJOR_TYPE_TEXT_STRING).

Definition cbor_open_array (state : cbor_writer_state_t)
  : Z * cbor_writer_state_t :=
  if nesting_depth state =? 0 then
    let state := set_buffer state NULL in
    let state := set_buffer_size state 0 in
    (NULL, state)
  else
    let state := set_nesting_depth state
                   (to_size_t (nesting_depth state - 1)) in
    let state := set_object state (nesting_depth state) 0 in
    (buffer state, state).

Definition cbor_wrap_array (state : cbor_writer_state_t) (m : mem)
  : Z * cbor_writer_state_t * mem :=
  if nesting_depth state =? CBOR_MAX_NESTING then
    let state := set_buffer state NULL in
    let state := set_buffer_size state 0 in
    (NULL, state, m)
  else
    let '(state, m) :=
      prepend_unsigned state m (object state (nesting_depth state)) in
    if buffer state =? NULL then (NULL, state, m)
    else
      let m := or_major_type state m CBOR_MAJOR_TYPE_ARRAY in
      let state := set_nesting_depth state
                     (to_size_t (nesting_depth state + 1)) in
      let state :=
        if negb (nesting_depth state =? CBOR_MAX_NESTING) then
          set_object state (nesting_depth state)
            (to_size_t (object state (nesting_depth state) + 1))
        else state in
      (buffer state, state, m).

Definition cbor_open_map (state : cbor_writer_state_t)
  : Z * cbor_writer_state_t :=
  cbor_open_array state.

Definition cbor_wrap_map (state : cbor_writer_state_t) (m : mem)
  : Z * cbor_writer_state_t * mem :=
  if (nesting_depth state =? CBOR_MAX_NESTING)
     || negb (Z.land (object state (nesting_depth state)) 1 =? 0) then
    let state := set_buffer state NULL in
    let state := set_buffer_size state 0 in
    (NULL, state, m)
  else
    let '(state, m) :=
      prepend_unsigned state m
        (Z.shiftr (object state (nesting_depth state)) 1) in
    if buffer state =? NULL then (NULL, state, m)
    else
      let m := or_major_type state m CBOR_MAJOR_TYPE_MAP in
      let state := set_nesting_depth state
                     (to_size_t (nesting_depth state + 1)) in
      let state :=
        if negb (nesting_depth state =? CBOR_MAX_NESTING) then
          set_object state (nesting_depth state)
            (to_size_t (object state (nesting_depth state) + 1))
        else state in
      (buffer state, state, m).

Definition prepend_simple (state : cbor_writer_state_t) (m : mem)
    (value : Z) : cbor_writer_state_t * mem :=
  if buffer_size state =? 0 then (set_buffer state NULL, m)
  else
    let state := set_buffer state (buffer state - 1) in
    let state := set_buffer_size state (to_size_t (buffer_size state - 1)) in
    let m := store8 m (buffer state) value in
    (increment state, m).

Definition cbor_prepend_null (state : cbor_writer_state_t) (m : mem) :=
  prepend_simple state m CBOR_SIMPLE_VALUE_NULL.

Definition cbor_prepend_undefined (state : cbor_writer_state_t) (m : mem) :=
  prepend_simple state m CBOR_SIMPLE_VALUE_UNDEFINED.

Definition cbor_prepend_bool (state : cbor_writer_state_t) (m : mem)
    (boolean : Z) :=
  prepend_simple state m
    (if negb (boolean =? 0) then CBOR_SIMPLE_VALUE_TRUE
     else CBOR_SIMPLE_VALUE_FALSE).

(** ** cbor.c: the reader *)

Definition cbor_init_reader (state : cbor_reader_state_t)
    (cbor0 cbor_size0 : Z) : cbor_reader_state_t :=
  let state := set_cbor state cbor0 in
  set_cbor_size state cbor_size0.

Definition cbor_read_next (state : cbor_reader_state_t) (m : mem)
  : Z * cbor_reader_state_t :=
  if cbor_size state =? 0 then (CBOR_MAJOR_TYPE_NONE, state)
  else (Z.land (load8 m (cbor state)) 0xE0, state).

Definition cbor_stop_reader (state : cbor_reader_state_t)
  : Z * cbor_reader_state_t :=
  (cbor state, state).

(** The [switch] of [cbor_read_unsigned]; [None] is its [default]. *)
Definition bytes_to_read_of (size : Z) : option Z :=
  if size =? CBOR_SIZE_1 then Some 1
  else if size =? CBOR_SIZE_2 then Some 2
  else if size =? CBOR_SIZE_4 then Some 4
  else if size =? CBOR_SIZE_8 then Some 8
  else None.

(** [value] is the content of [*value] before the call; the third
    component of the result is its content after the call. *)
Definition cbor_read_unsigned (state : cbor_reader_state_t) (m : mem)
    (value : Z) : Z * cbor_reader_state_t * Z :=
  if cbor_size state =? 0 then (CBOR_SIZE_NONE, state, value)
  else
    let size := Z.land (load8 m (cbor state)) (Z.lnot 0xE0) in
    let state := set_cbor state (cbor state + 1) in
    let state := set_cbor_size state (to_size_t (cbor_size state - 1)) in
    if size <? CBOR_SIZE_1 then (CBOR_SIZE_1, state, size)
    else
      match bytes_to_read_of size with
      | None => (CBOR_SIZE_NONE, state, value)
      | Some bytes_to_read =>
          if cbor_size state <? bytes_to_read then
            (CBOR_SIZE_NONE, state, value)
          else
            let state := set_cbor_size state
                           (to_size_t (cbor_size state - bytes_to_read)) in
            let '(p, value) :=
              cbor_read_unsigned_loop (Z.to_nat bytes_to_read)
                (cbor state) 0 m in
            (size, set_cbor state p, value)
      end.

(** [size] is the content of [*size] before the call.  The local [value]
    is not initialised in the source; it is read only after
    [cbor_read_unsigned] has assigned it. *)
Definition read_byte_or_text_string (state : cbor_reader_state_t) (m : mem)
    (size : Z) : Z * cbor_reader_state_t * Z :=
  let '(r, state, value) := cbor_read_unsigned state m 0 in
  if (CBOR_SIZE_NONE =? r)
     || (SIZE_MAX <? value)
     || (cbor_size state <? value) then (NULL, state, size)
  else
    let size := to_size_t value in
    let beginning := cbor state in
    let state := set_cbor state (cbor state + size) in
    let state := set_cbor_size state (to_size_t (cbor_size state - size)) in
    (beginning, state, size).

Definition cbor_read_data (state : cbor_reader_state_t) (m : mem)
    (data_size : Z) : Z * cbor_reader_state_t * Z :=
  let '(next, state) := cbor_read_next state m in
  if negb (next =? CBOR_MAJOR_TYPE_BYTE_STRING) then (NULL, state, data_size)
  else read_byte_or_text_string state m data_size.

Definition cbor_read_text (state : cbor_reader_state_t) (m : mem)
    (text_size : Z) : Z * cbor_reader_state_t * Z :=
  let '(next, state) := cbor_read_next state m in
  if negb (next =? CBOR_MAJOR_TYPE_TEXT_STRING) then (NULL, state, text_size)
  else read_byte_or_text_string state m text_size.

Definition read_array_or_map (state : cbor_reader_state_t) (m : mem)
  : Z * cbor_reader_state_t :=
  let '(r, state, value) := cbor_read_unsigned state m 0 in
  if (CBOR_SIZE_NONE =? r) || (SIZE_MAX <=? value) then (SIZE_MAX, state)
  else (to_size_t value, state).

Definition cbor_read_array (state : cbor_reader_state_t) (m : mem)
  : Z * cbor_reader_state_t :=
  let '(next, state) := cbor_read_next state m in
  if negb (next =? CBOR_MAJOR_TYPE_ARRAY) then (SIZE_MAX, state)
  else read_array_or_map state m.

Definition cbor_read_map (state : cbor_reader_state_t) (m : mem)
  : Z * cbor_reader_state_t :=
  let '(next, state) := cbor_read_next state m in
  if negb (next =? CBOR_MAJOR_TYPE_MAP) then (SIZE_MAX, state)
  else read_array_or_map state m.

Definition cbor_read_simple (state : cbor_reader_state_t) (m : mem)
  : Z * cbor_reader_state_t :=
  if cbor_size state =? 0 then (CBOR_SIMPLE_VALUE_NONE, state)
  else
    let state' := set_cbor_size state (to_size_t (cbor_size state - 1)) in
    (load8 m (cbor state), set_cbor state' (cbor state + 1)).

(** ** Writer sessions

    A session is a sequence of calls of the writer's API on one state. *)

Inductive writer_op :=
| op_prepend_object (object0 object_size : Z)
| op_prepend_unsigned (value : Z)
| op_wrap_data (data_size : Z)
| op_prepend_data (data data_size : Z)
| op_prepend_text (text text_size : Z)
| op_open_array
| op_wrap_array
| op_open_map
| op_wrap_map
| op_prepend_null
| op_prepend_undefined
| op_prepend_bool (boolean : Z).

Definition run_op (op : writer_op) (w : cbor_writer_state_t * mem)
  : cbor_writer_state_t * mem :=
  let '(state, m) := w in
  match op with
  | op_prepend_object object0 object_size =>
      cbor_prepend_object state m object0 object_size
  | op_prepend_unsigned value => cbor_prepend_unsigned state m value
  | op_wrap_data data_size => cbor_wrap_data state m data_size
  | op_prepend_data data data_size => cbor_prepend_data state m data data_size
  | op_prepend_text text text_size => cbor_prepend_text state m text text_size
  | op_open_array => (snd (cbor_open_array state), m)
  | op_wrap_array =>
      let '(_, state, m) := cbor_wrap_array state m in (state, m)
  | op_open_map => (snd (cbor_open_map state), m)
  | op_wrap_map =>
      let '(_, state, m) := cbor_wrap_map state m in (state, m)
  | op_prepend_null => cbor_prepend_null state m
  | op_prepend_undefined => cbor_prepend_undefined state m
  | op_prepend_bool boolean => cbor_prepend_bool state m boolean
  end.

Definition run_ops (ops : list writer_op) (w : cbor_writer_state_t * mem)
  : cbor_writer_state_t * mem :=
  fold_left (fun w op => run_op op w) ops w.

(** The arguments of a call are in the range of their C types
    ([size_t] for sizes, [uint64_t] for values). *)
Definition op_typed (op : writer_op) : bool :=
  match op with
  | op_prepend_object _ n | op_wrap_data n
  | op_prepend_data _ n | op_prepend_text _ n =>
      (0 <=? n) && (n <=? SIZE_MAX)
  | op_prepend_unsigned v => (0 <=? v) && (v <=? UINT64_MAX)
  | _ => true
  end.

(** The calls that prepend one item, with arguments in the range of their
    C types, and the number of bytes each of them emits.  An item has at
    least one byte. *)
Definition item_size (op : writer_op) : option Z :=
  match op with
  | op_prepend_object _ object_size =>
      if (0 <? object_size) && (object_size <=? SIZE_MAX)
      then Some object_size else None
  | op_prepend_unsigned value =>
      if (0 <=? value) && (value <=? UINT64_MAX)
      then Some (CBOR_UNSIGNED_SIZE value) else None
  | op_prepend_data _ n | op_prepend_text _ n =>
      if (0 <=? n) && (n <=? SIZE_MAX)
      then Some (CBOR_BYTE_STRING_SIZE n) else None
  | op_prepend_null | op_prepend_undefined | op_prepend_bool _ => Some 1
  | _ => None
  end.

(** Total size of a sequence of item-producing calls; [None] if some call
    is not one. *)
Fixpoint items_size (ops : list writer_op) : option Z :=
  match ops with
  | [] => Some 0
  | op :: ops =>
      match item_size op, items_size ops with
      | Some a, Some b => Some (a + b)
      | _, _ => None
      end
  end.

(** [init; open_array; ops; wrap_array; stop]: the result of [stop] and the
    final memory. *)
Definition array_session (state : cbor_writer_state_t) (m : mem)
    (buffer0 buffer_size0 : Z) (ops : list writer_op) : Z * mem :=
  let state := cbor_init_writer state buffer0 buffer_size0 in
  let '(_, state) := cbor_open_array state in
  let '(state, m) := run_ops ops (state, m) in
  let '(_, state, m) := cbor_wrap_array state m in
  (fst (cbor_stop_writer state), m).

(** [init; open_map; ops; wrap_map; stop] *)
Definition map_session (state : cbor_writer_state_t) (m : mem)
    (buffer0 buffer_size0 : Z) (ops : list writer_op) : Z * mem :=
  let state := cbor_init_writer state buffer0 buffer_size0 in
  let '(_, state) := cbor_open_map state in
  let '(state, m) := run_ops ops (state, m) in
  let '(_, state, m) := cbor_wrap_map state m in
  (fst (cbor_stop_writer state), m).

(** The reader a caller sets up on the output of a writer whose buffer was
    [buffer_size0] bytes at [buffer0] and whose [stop] returned
    [cbor_start]. *)
Definition reader_on (state : cbor_reader_state_t)
    (buffer0 buffer_size0 cbor_start : Z) : cbor_reader_state_t :=
  cbor_init_reader state cbor_start (buffer_size0 - (cbor_start - buffer0)).

(** ** State predicates *)

(** The latched error state of the writer. *)
Definition poisoned (state : cbor_writer_state_t) : Prop :=
  buffer state = NULL /\ buffer_size state = 0.

(** The fields of a writer state are in the range of [size_t], the depth
    is at most [CBOR_MAX_NESTING], and [objects] has [CBOR_MAX_NESTING]
    slots. *)
Definition writer_wf (state : cbor_writer_state_t) : Prop :=
  0 <= buffer_size state <= SIZE_MAX /\
  0 <= nesting_depth state <= CBOR_MAX_NESTING /\
  length (objects state) = Z.to_nat CBOR_MAX_NESTING /\
  Forall (fun c => 0 <= c <= SIZE_MAX) (objects state).

(** A writer in good standing on the buffer at [base], [free] bytes of
    which are free, whose innermost open container is at depth [nd] and
    holds [count] items. *)
Definition in_container (base nd count free : Z)
    (state : cbor_writer_state_t) : Prop :=
  buffer state = base + free /\
  buffer_size state = free /\
  nesting_depth state = nd /\
  length (objects state) = Z.to_nat CBOR_MAX_NESTING /\
  object state nd = count.

(** The initial byte of the header of [value], without the major type. *)
Definition jump_byte_of (value : Z) : Z :=
  if value <? CBOR_SIZE_1 then value
  else if value <=? UINT8_MAX then CBOR_SIZE_1
  else if value <=? UINT16_MAX then CBOR_SIZE_2
  else if value <=? UINT32_MAX then CBOR_SIZE_4
  else CBOR_SIZE_8.

(** Memory [m] holds at [p] the header of major type [major_type] and
    argument [value]. *)
Definition header_at (m : mem) (p major_type value : Z) : Prop :=
  load8 m p = Z.lor (jump_byte_of value) major_type /\
  (CBOR_SIZE_1 <= value ->
   cbor_read_unsigned_loop (Z.to_nat (CBOR_UNSIGNED_SIZE value - 1))
     (p + 1) 0 m = (p + CBOR_UNSIGNED_SIZE value, value)).

(** The second half of [prepend_unsigned], below the comment
    "write unsigned value", as a function of the size it determined. *)
Definition write_unsigned_value (state : cbor_writer_state_t) (m : mem)
    (value length_to_copy jump_byte : Z) : cbor_writer_state_t * mem :=
  if buffer_size state <=? length_to_copy then
    let state := set_buffer state NULL in
    let state := set_buffer_size state 0 in
    (state, m)
  else
    let state := set_buffer_size state
                   (to_size_t (buffer_size state - length_to_copy)) in
    let '(p, m) :=
      prepend_unsigned_loop (Z.to_nat length_to_copy) (buffer state) value m in
    let state := set_buffer state p in
    let state := set_buffer state (buffer state - 1) in
    let state := set_buffer_size state (to_size_t (buffer_size state - 1)) in
    (state, store8 m (buffer state) jump_byte).

(** The major types whose items start with a header that carries an
    argument and that this writer emits. *)
Definition header_major_types : list Z :=
  [CBOR_MAJOR_TYPE_UNSIGNED; CBOR_MAJOR_TYPE_BYTE_STRING;
   CBOR_MAJOR_TYPE_TEXT_STRING; CBOR_MAJOR_TYPE_ARRAY; CBOR_MAJOR_TYPE_MAP].

(** [cbor_prepend_data] (with [cbor_wrap_data] unfolded) and
    [cbor_prepend_text] differ in the major type only. *)
Definition prepend_string (major_type : Z) (state : cbor_writer_state_t)
    (m : mem) (string0 string_size : Z) : cbor_writer_state_t * mem :=
  let '(state, m) := prepend_object state m string0 string_size in
  let '(state, m) := cbor_prepend_unsigned state m string_size in
  if buffer state =? NULL then (state, m)
  else (state, or_major_type state m major_type).

(** [cbor_read_data] and [cbor_read_text] differ in the major type they
    require only. *)
Definition read_string (major_type : Z) (state : cbor_reader_state_t)
    (m : mem) (size : Z) : Z * cbor_reader_state_t * Z :=
  let '(next, state) := cbor_read_next state m in
  if negb (next =? major_type) then (NULL, state, size)
  else read_byte_or_text_string state m size.

(** What a failed [cbor_read_data] or [cbor_read_text] does to the reader:
    either the next major type is not [major_type] and the state is
    untouched, or it is and the bytes of the header that were read stay
    consumed, the initial byte and [a] argument bytes. *)
Definition string_read_error_outcome (major_type : Z)
    (state state' : cbor_reader_state_t) (m : mem) : Prop :=
  (fst (cbor_read_next state m) <> major_type /\ state' = state) \/
  (fst (cbor_read_next state m) = major_type /\
   exists a, In a [0; 1; 2; 4; 8] /\
             cbor state' = cbor state + (1 + a) /\
             cbor_size state' = cbor_size state - (1 + a)).

(** What [cbor_wrap_array] and [cbor_wrap_map] do once their first check
    has passed, as a function of the major type and of the argument of the
    header. *)
Definition wrap_container (major_type argument : Z)
    (state : cbor_writer_state_t) (m : mem)
  : Z * cbor_writer_state_t * mem :=
  let '(state, m) := prepend_unsigned state m argument in
  if buffer state =? NULL then (NULL, state, m)
  else
    let m := or_major_type state m major_type in
    let state := set_nesting_depth state
                   (to_size_t (nesting_depth state + 1)) in
    let state :=
      if negb (nesting_depth state =? CBOR_MAX_NESTING) then
        set_object state (nesting_depth state)
          (to_size_t (object state (nesting_depth state) + 1))
      else state in
    (buffer state, state, m).

(** The shortest-form table of the design document. *)
Definition shortest_form_size (v : Z) : Z :=
  if v <? 24 then 1
  else if v <=? 0xFF then 2
  else if v <=? 0xFFFF then 3
  else if v <=? 0xFFFFFFFF then 5
  else 9.

(** The writer is poisoned, or it is in good standing on the buffer of
    [size] bytes at [base]: [buffer_size] bytes are free, and they lie
    between [base] and the cursor. *)
Definition writer_on (base size : Z) (state : cbor_writer_state_t) : Prop :=
  poisoned state \/
  (buffer state = base + buffer_size state /\
   0 <= buffer_size state <= size).

(** Memory [m'] holds what [m] holds at every address outside [[lo, hi)]. *)
Definition same_outside (lo hi : Z) (m m' : mem) : Prop :=
  forall a, a < lo \/ hi <= a -> load8 m' a = load8 m a.

(** By how much a call changes the number of open containers when it
    succeeds. *)
Definition opens_of (op : writer_op) : Z :=
  match op with
  | op_open_array | op_open_map => 1
  | op_wrap_array | op_wrap_map => -1
  | _ => 0
  end.

(** Opens minus wraps over a sequence of calls. *)
Fixpoint net_opens (ops : list writer_op) : Z :=
  match ops with
  | [] => 0
  | op :: ops => opens_of op + net_opens ops
  end.

Definition is_open (op : writer_op) : bool :=
  match op with
  | op_open_array | op_open_map => true
  | _ => false
  end.

(** ** Reader sessions

    A sequence of calls of the reader's API on one state and one input. *)

Inductive reader_op :=
| rop_next
| rop_unsigned
| rop_data
| rop_text
| rop_array
| rop_map
| rop_simple.

Definition run_reader_op (op : reader_op) (state : cbor_reader_state_t)
    (m : mem) : cbor_reader_state_t :=
  match op with
  | rop_next => snd (cbor_read_next state m)
  | rop_unsigned => snd (fst (cbor_read_unsigned state m 0))
  | rop_data => snd (fst (cbor_read_data state m 0))
  | rop_text => snd (fst (cbor_read_text state m 0))
  | rop_array => snd (cbor_read_array state m)
  | rop_map => snd (cbor_read_map state m)
  | rop_simple => snd (cbor_read_simple state m)
  end.

Definition run_reader_ops (ops : list reader_op) (state : cbor_reader_state_t)
    (m : mem) : cbor_reader_state_t :=
  fold_left (fun state op => run_reader_op op state m) ops state.

(** The unsigned integer that a sequence of bytes denotes, the most
    significant byte first. *)
Definition big_endian (bytes : list Z) : Z :=
  fold_left (fun value byte => value * 256 + byte) bytes 0.

(** The reader has moved forward from [state] to [state'] and the end of
    the input is where it was. *)
Definition moved_forward (state state' : cbor_reader_state_t) : Prop :=
  cbor state' + cbor_size state' = cbor state + cbor_size state /\
  0 <= cbor_size state' <= cbor_size state.

(** A caller's loop over [cbor_read_unsigned]: [n] calls, collecting the
    values in the order read; [None] as soon as a call returns
    [CBOR_SIZE_NONE]. *)
Fixpoint read_unsigneds (n : nat) (state : cbor_reader_state_t) (m : mem)
  : option (list Z) * cbor_reader_state_t :=
  match n with
  | O => (Some [], state)
  | S n =>
      let '(size, state, value) := cbor_read_unsigned state m 0 in
      if size =? CBOR_SIZE_NONE then (None, state)
      else
        let '(values, state) := read_unsigneds n state m in
        (option_map (cons value) values, state)
  end.

(** The size of the encodings of [values], one after the other. *)
Fixpoint unsigneds_size (values : list Z) : Z :=
  match values with
  | [] => 0
  | v :: values => CBOR_UNSIGNED_SIZE v + unsigneds_size values
  end.

(** Memory [m] holds at [p] the encodings of [values], one after the
    other. *)
Fixpoint unsigneds_at (m : mem) (p : Z) (values : list Z) : Prop :=
  match values with
  | [] => True
  | v :: values =>
      header_at m p CBOR_MAJOR_TYPE_UNSIGNED v /\
      unsigneds_at m (p + CBOR_UNSIGNED_SIZE v) values
  end.

(** ** Assumptions on the parameters

    [size_t] has at least 16 bits (C99, 7.18.3) and is not wider than
    [uint64_t]; [objects] has at least one slot and its indices are values
    of [size_t]. *)

Definition size_t_fits : Prop := 16 <= SIZE_BITS <= 64.

Definition max_nesting_fits : Prop := 0 < CBOR_MAX_NESTING <= SIZE_MAX.

Hypothesis SIZE_BITS_range : size_t_fits.
Hypothesis CBOR_MAX_NESTING_range : max_nesting_fits.

(** ** Fixed-width arithmetic *)

Lemma SIZE_MAX_bounds : UINT16_MAX <= SIZE_MAX <= UINT64_MAX.
Proof.
  pose proof SIZE_BITS_range as Hbits. unfold size_t_fits in Hbits.
  unfold SIZE_MAX, UINT16_MAX, UINT64_MAX.
  assert (2 ^ 16 <= 2 ^ SIZE_BITS) by (apply Z.pow_le_mono_r; lia).
  assert (2 ^ SIZE_BITS <= 2 ^ 64) by (apply Z.pow_le_mono_r; lia).
  lia.
Qed.

Lemma to_size_t_id z : 0 <= z <= SIZE_MAX -> to_size_t z = z.
Proof. unfold to_size_t, SIZE_MAX. intros Hz. apply Z.mod_small. lia. Qed.

Lemma to_uint8_id z : 0 <= z <= UINT8_MAX -> to_uint8 z = z.
Proof. unfold to_uint8, UINT8_MAX. intros Hz. apply Z.mod_small. lia. Qed.

Lemma to_uint8_range z : 0 <= to_uint8 z <= UINT8_MAX.
Proof.
  unfold to_uint8, UINT8_MAX.
  pose proof (Z.mod_pos_bound z (2 ^ 8) eq_refl). lia.
Qed.

Lemma to_uint64_id z : 0 <= z <= UINT64_MAX -> to_uint64 z = z.
Proof. unfold to_uint64, UINT64_MAX. intros Hz. apply Z.mod_small. lia. Qed.

(** ** Memory *)

Lemma load8_range m a : 0 <= load8 m a <= UINT8_MAX.
Proof. apply to_uint8_range. Qed.

Lemma load8_store8_eq m a v : load8 (store8 m a v) a = to_uint8 v.
Proof.
  unfold load8, store8. rewrite Z.eqb_refl.
  apply to_uint8_id, to_uint8_range.
Qed.

Lemma load8_store8_ne m a b v : b <> a -> load8 (store8 m a v) b = load8 m b.
Proof.
  intros Hne. unfold load8, store8.
  destruct (Z.eqb_spec b a); [contradiction | reflexivity].
Qed.

Lemma load8_memcpy_in m dst src n i :
  0 <= i < n -> load8 (memcpy m dst src n) (dst + i) = load8 m (src + i).
Proof.
  intros Hi. unfold load8, memcpy.
  replace ((dst <=? dst + i) && (dst + i <? dst + n)) with true
    by (symmetry; apply andb_true_iff; lia).
  do 2 f_equal. lia.
Qed.

Lemma load8_memcpy_out m dst src n a :
  a < dst \/ dst + n <= a -> load8 (memcpy m dst src n) a = load8 m a.
Proof.
  intros Ha. unfold load8, memcpy.
  replace ((dst <=? a) && (a <? dst + n)) with false; [reflexivity |].
  symmetry. apply andb_false_iff. lia.
Qed.

(** ** The loops that write and read the argument of a header *)

Lemma prepend_unsigned_loop_fst n : forall p v m,
  fst (prepend_unsigned_loop n p v m) = p - Z.of_nat n.
Proof.
  induction n as [|n IH]; intros p v m; cbn [prepend_unsigned_loop].
  - simpl. lia.
  - rewrite IH. lia.
Qed.

Lemma prepend_unsigned_loop_out n : forall p v m a,
  a < p - Z.of_nat n \/ p <= a ->
  snd (prepend_unsigned_loop n p v m) a = m a.
Proof.
  induction n as [|n IH]; intros p v m a Ha; cbn [prepend_unsigned_loop].
  - reflexivity.
  - rewrite IH by lia. unfold store8.
    destruct (Z.eqb_spec a (p - 1)); [lia | reflexivity].
Qed.

Lemma cbor_read_unsigned_loop_ext n : forall p acc m m',
  (forall a, p <= a < p + Z.of_nat n -> load8 m' a = load8 m a) ->
  cbor_read_unsigned_loop n p acc m' = cbor_read_unsigned_loop n p acc m.
Proof.
  induction n as [|n IH]; intros p acc m m' Hagree;
    cbn [cbor_read_unsigned_loop]; [reflexivity |].
  rewrite (Hagree p) by lia. apply IH. intros a Ha. apply Hagree. lia.
Qed.

Lemma cbor_read_unsigned_loop_last n : forall p acc m,
  cbor_read_unsigned_loop (S n) p acc m =
  let '(q, a) := cbor_read_unsigned_loop n p acc m in
  (q + 1, to_uint64 (to_uint64 (Z.shiftl a 8) + load8 m q)).
Proof.
  induction n as [|n IH]; intros p acc m.
  - reflexivity.
  - cbn [cbor_read_unsigned_loop] in *. apply IH.
Qed.

Lemma be_step v k :
  0 <= v -> 0 <= k -> k + 8 <= 64 ->
  to_uint64 (to_uint64 (Z.shiftl (Z.shiftr v 8 mod 2 ^ k) 8) + to_uint8 v)
  = v mod 2 ^ (k + 8).
Proof.
  intros Hv Hk Hk8.
  rewrite Z.shiftl_mul_pow2, Z.shiftr_div_pow2 by lia.
  unfold to_uint8.
  assert (Hsplit : v mod 2 ^ (k + 8)
                   = v mod 2 ^ 8 + 2 ^ 8 * ((v / 2 ^ 8) mod 2 ^ k)).
  { rewrite Z.add_comm, Z.pow_add_r by lia. apply Z.rem_mul_r; lia. }
  assert (Hlt : 0 <= v mod 2 ^ (k + 8) < 2 ^ 64).
  { pose proof (Z.mod_pos_bound v (2 ^ (k + 8)) ltac:(lia)).
    assert (2 ^ (k + 8) <= 2 ^ 64) by (apply Z.pow_le_mono_r; lia). lia. }
  pose proof (Z.mod_pos_bound v (2 ^ 8) eq_refl).
  pose proof (Z.mod_pos_bound (v / 2 ^ 8) (2 ^ k) ltac:(lia)).
  unfold to_uint64.
  rewrite (Z.mod_small ((v / 2 ^ 8) mod 2 ^ k * 2 ^ 8)) by lia.
  rewrite Z.mod_small by lia. lia.
Qed.

(** Reading back what the writer's loop wrote gives the low [8 * n] bits of
    the value, the most significant byte first. *)
Lemma loop_roundtrip n : forall p v m m',
  (n <= 8)%nat -> 0 <= v ->
  (forall a, p - Z.of_nat n <= a < p ->
     load8 m' a = load8 (snd (prepend_unsigned_loop n p v m)) a) ->
  cbor_read_unsigned_loop n (p - Z.of_nat n) 0 m'
  = (p, v mod 2 ^ (8 * Z.of_nat n)).
Proof.
  induction n as [|n IH]; intros p v m m' Hn Hv Hagree.
  - cbn [cbor_read_unsigned_loop]. rewrite Z.mod_1_r. f_equal. lia.
  - rewrite cbor_read_unsigned_loop_last.
    cbn [prepend_unsigned_loop] in Hagree.
    replace (p - Z.of_nat (S n)) with (p - 1 - Z.of_nat n) by lia.
    rewrite (IH (p - 1) (Z.shiftr v 8) (store8 m (p - 1) v) m').
    + rewrite (Hagree (p - 1)) by lia.
      unfold load8 at 1. rewrite prepend_unsigned_loop_out by lia.
      fold (load8 (store8 m (p - 1) v) (p - 1)).
      rewrite load8_store8_eq.
      rewrite be_step by lia.
      f_equal; [lia | f_equal; f_equal; lia].
    + lia.
    + rewrite Z.shiftr_div_pow2 by lia. apply Z.div_pos; lia.
    + intros a Ha. apply Hagree. lia.
Qed.

(** ** Headers: [prepend_unsigned] *)

Lemma CBOR_UNSIGNED_SIZE_range v : 1 <= CBOR_UNSIGNED_SIZE v <= 9.
Proof.
  unfold CBOR_UNSIGNED_SIZE.
  repeat match goal with |- context [if ?b then _ else _] => destruct b end;
    lia.
Qed.

Lemma jump_byte_of_range v : 0 <= v -> 0 <= jump_byte_of v < 32.
Proof.
  intros Hv. unfold jump_byte_of, CBOR_SIZE_1, CBOR_SIZE_2, CBOR_SIZE_4,
    CBOR_SIZE_8.
  destruct (Z.ltb_spec v 24); [lia |].
  repeat match goal with |- context [if ?b then _ else _] => destruct b end;
    lia.
Qed.

Lemma prepend_unsigned_eq state m v :
  0 <= v ->
  prepend_unsigned state m v
  = write_unsigned_value state m v (CBOR_UNSIGNED_SIZE v - 1) (jump_byte_of v).
Proof.
  intros Hv.
  unfold prepend_unsigned, write_unsigned_value, CBOR_UNSIGNED_SIZE,
    jump_byte_of.
  destruct (Z.ltb_spec v CBOR_SIZE_1) as [Hlt|_].
  - rewrite to_uint8_id by (unfold CBOR_SIZE_1, UINT8_MAX in *; lia).
    reflexivity.
  - destruct (v <=? UINT8_MAX); [reflexivity |].
    destruct (v <=? UINT16_MAX); [reflexivity |].
    destruct (v <=? UINT32_MAX); reflexivity.
Qed.

Lemma write_unsigned_value_poison state m v len jump :
  buffer_size state <= len ->
  write_unsigned_value state m v len jump
  = (set_buffer_size (set_buffer state NULL) 0, m).
Proof.
  intros Hle. unfold write_unsigned_value.
  destruct (Z.leb_spec (buffer_size state) len); [reflexivity | lia].
Qed.

Lemma write_unsigned_value_ok state m v len jump :
  0 <= len -> len < buffer_size state <= SIZE_MAX ->
  write_unsigned_value state m v len jump
  = ({| buffer := buffer state - (len + 1);
        buffer_size := buffer_size state - (len + 1);
        nesting_depth := nesting_depth state;
        objects := objects state |},
     store8 (snd (prepend_unsigned_loop (Z.to_nat len) (buffer state) v m))
       (buffer state - (len + 1)) jump).
Proof.
  intros Hlen Hsize. unfold write_unsigned_value.
  destruct (Z.leb_spec (buffer_size state) len); [lia |].
  pose proof (prepend_unsigned_loop_fst (Z.to_nat len) (buffer state) v m)
    as Hfst.
  unfold set_buffer, set_buffer_size.
  cbn [buffer buffer_size nesting_depth objects].
  destruct (prepend_unsigned_loop (Z.to_nat len) (buffer state) v m)
    as [p m'].
  cbn [fst snd buffer buffer_size nesting_depth objects] in *. subst p.
  rewrite (to_size_t_id (buffer_size state - len)) by lia.
  rewrite to_size_t_id by lia.
  rewrite Z2Nat.id by lia.
  rewrite <- !Z.sub_add_distr. reflexivity.
Qed.

(** The value a header is chosen for fits the argument bytes of its class. *)
Lemma argument_fits v :
  CBOR_SIZE_1 <= v <= UINT64_MAX ->
  v mod 2 ^ (8 * (CBOR_UNSIGNED_SIZE v - 1)) = v.
Proof.
  intros Hv. apply Z.mod_small.
  unfold CBOR_UNSIGNED_SIZE, CBOR_SIZE_1, UINT8_MAX, UINT16_MAX, UINT32_MAX,
    UINT64_MAX in *.
  destruct (Z.ltb_spec v 24); [lia |].
  destruct (Z.leb_spec v 255); [simpl; lia |].
  destruct (Z.leb_spec v 65535); [simpl; lia |].
  destruct (Z.leb_spec v 4294967295); simpl; lia.
Qed.

(** A successful [prepend_unsigned] moves the cursor down by the size of the
    header, touches nothing but the bytes it exposes, and leaves there the
    header of a major-type-0 item. *)
Lemma prepend_unsigned_ok state m v :
  0 <= v <= UINT64_MAX ->
  CBOR_UNSIGNED_SIZE v <= buffer_size state <= SIZE_MAX ->
  exists m',
    prepend_unsigned state m v
    = ({| buffer := buffer state - CBOR_UNSIGNED_SIZE v;
          buffer_size := buffer_size state - CBOR_UNSIGNED_SIZE v;
          nesting_depth := nesting_depth state;
          objects := objects state |}, m') /\
    (forall a, a < buffer state - CBOR_UNSIGNED_SIZE v \/ buffer state <= a ->
       m' a = m a) /\
    header_at m' (buffer state - CBOR_UNSIGNED_SIZE v)
      CBOR_MAJOR_TYPE_UNSIGNED v.
Proof.
  intros Hv Hsize.
  pose proof (CBOR_UNSIGNED_SIZE_range v) as Hus.
  pose proof (jump_byte_of_range v ltac:(lia)) as Hjump.
  set (len := CBOR_UNSIGNED_SIZE v - 1).
  set (p := buffer state).
  eexists. split; [| split].
  - rewrite prepend_unsigned_eq by lia.
    rewrite write_unsigned_value_ok by lia.
    fold len. replace (len + 1) with (CBOR_UNSIGNED_SIZE v) by (unfold len; lia).
    reflexivity.
  - intros a Ha. unfold store8.
    destruct (Z.eqb_spec a (buffer state - CBOR_UNSIGNED_SIZE v)) as [->|_];
      [lia |].
    apply prepend_unsigned_loop_out. rewrite Z2Nat.id by lia. lia.
  - split.
    + rewrite load8_store8_eq, Z.lor_0_r.
      apply to_uint8_id. unfold UINT8_MAX. lia.
    + intros Hbig.
      replace (p - CBOR_UNSIGNED_SIZE v + 1) with (p - Z.of_nat (Z.to_nat len))
        by (rewrite Z2Nat.id; unfold len; lia).
      rewrite (loop_roundtrip (Z.to_nat len) p v m).
      * rewrite Z2Nat.id by (unfold len; lia).
        unfold len. rewrite argument_fits by lia.
        f_equal. lia.
      * unfold len. lia.
      * lia.
      * intros a Ha. apply load8_store8_ne.
        rewrite Z2Nat.id in Ha by (unfold len; lia). unfold len in Ha. lia.
Qed.

(** ** Initial bytes *)

Lemma forallb_seqZ (P : Z -> bool) lo n z :
  forallb P (seqZ lo n) = true -> lo <= z < lo + n -> P z = true.
Proof.
  intros Hall Hz. rewrite forallb_forall in Hall. apply Hall.
  apply list_elem_of_In, elem_of_seqZ. exact Hz.
Qed.

Lemma initial_byte_split mt j :
  In mt header_major_types -> 0 <= j < 32 ->
  to_uint8 (Z.lor j mt) = Z.lor j mt /\
  Z.land (Z.lor j mt) 0xE0 = mt /\
  Z.land (Z.lor j mt) (Z.lnot 0xE0) = j.
Proof.
  intros Hmt Hj.
  pose (check := fun mt j =>
    (to_uint8 (Z.lor j mt) =? Z.lor j mt)
    && (Z.land (Z.lor j mt) 0xE0 =? mt)
    && (Z.land (Z.lor j mt) (Z.lnot 0xE0) =? j)).
  assert (Hall : forallb (fun mt => forallb (check mt) (seqZ 0 32))
                   header_major_types = true) by (vm_compute; reflexivity).
  rewrite forallb_forall in Hall. specialize (Hall mt Hmt).
  pose proof (forallb_seqZ _ _ _ j Hall ltac:(lia)) as Hc.
  unfold check in Hc. rewrite !andb_true_iff, !Z.eqb_eq in Hc. tauto.
Qed.

Lemma low_bits_of_byte b :
  0 <= b <= UINT8_MAX ->
  Z.land b (Z.lnot 0xE0) = Z.land b 0x1F /\ 0 <= Z.land b 0x1F < 32.
Proof.
  intros Hb.
  pose (check := fun b =>
    (Z.land b (Z.lnot 0xE0) =? Z.land b 0x1F)
    && (0 <=? Z.land b 0x1F) && (Z.land b 0x1F <? 32)).
  assert (Hall : forallb check (seqZ 0 256) = true)
    by (vm_compute; reflexivity).
  pose proof (forallb_seqZ _ _ _ b Hall ltac:(unfold UINT8_MAX in Hb; lia))
    as Hc.
  unfold check in Hc.
  rewrite !andb_true_iff, Z.eqb_eq, Z.leb_le, Z.ltb_lt in Hc. tauto.
Qed.

Lemma bytes_to_read_of_jump v :
  CBOR_SIZE_1 <= v ->
  bytes_to_read_of (jump_byte_of v) = Some (CBOR_UNSIGNED_SIZE v - 1) /\
  CBOR_SIZE_1 <= jump_byte_of v.
Proof.
  intros Hv. unfold jump_byte_of, CBOR_UNSIGNED_SIZE.
  destruct (Z.ltb_spec v CBOR_SIZE_1); [lia |].
  destruct (v <=? UINT8_MAX); [split; [reflexivity | vm_compute; discriminate] |].
  destruct (v <=? UINT16_MAX); [split; [reflexivity | vm_compute; discriminate] |].
  destruct (v <=? UINT32_MAX); split;
    solve [reflexivity | vm_compute; discriminate].
Qed.

(** ** Headers: the reader *)

(** [*p |= major_type] on the header of an unsigned integer gives the header
    of an item of that major type. *)
Lemma header_at_or m p mt v :
  In mt header_major_types -> 0 <= v ->
  header_at m p CBOR_MAJOR_TYPE_UNSIGNED v ->
  header_at (store8 m p (Z.lor (load8 m p) mt)) p mt v.
Proof.
  intros Hmt Hv [Hfirst Hrest].
  pose proof (CBOR_UNSIGNED_SIZE_range v).
  split.
  - rewrite load8_store8_eq, Hfirst, Z.lor_0_r.
    apply initial_byte_split; [exact Hmt | apply jump_byte_of_range; lia].
  - intros Hbig. rewrite <- (Hrest Hbig).
    apply cbor_read_unsigned_loop_ext. intros a Ha.
    apply load8_store8_ne. lia.
Qed.

(** What the reader makes of a header. *)
Lemma header_read m p mt v state value :
  In mt header_major_types -> 0 <= v <= UINT64_MAX ->
  header_at m p mt v ->
  cbor state = p ->
  CBOR_UNSIGNED_SIZE v <= cbor_size state <= SIZE_MAX ->
  cbor_read_next state m = (mt, state) /\
  cbor_read_unsigned state m value
  = (if v <? CBOR_SIZE_1 then CBOR_SIZE_1 else jump_byte_of v,
     {| cbor := p + CBOR_UNSIGNED_SIZE v;
        cbor_size := cbor_size state - CBOR_UNSIGNED_SIZE v |},
     v).
Proof.
  intros Hmt Hv [Hfirst Hrest] Hp Hsize.
  pose proof (CBOR_UNSIGNED_SIZE_range v) as Hus.
  pose proof (jump_byte_of_range v ltac:(lia)) as Hjump.
  destruct (initial_byte_split mt (jump_byte_of v) Hmt Hjump)
    as (_ & Hhigh & Hlow).
  unfold cbor_read_next, cbor_read_unsigned.
  destruct (Z.eqb_spec (cbor_size state) 0) as [Hz|_]; [lia |].
  rewrite Hp, Hfirst, Hhigh, Hlow. split; [reflexivity |].
  unfold set_cbor, set_cbor_size. cbn [cbor cbor_size].
  rewrite to_size_t_id by lia.
  destruct (Z.ltb_spec v CBOR_SIZE_1) as [Hsmall|Hbig].
  - unfold jump_byte_of, CBOR_UNSIGNED_SIZE.
    destruct (Z.ltb_spec v CBOR_SIZE_1); [| lia].
    destruct (Z.ltb_spec v CBOR_SIZE_1); [| lia]. reflexivity.
  - destruct (bytes_to_read_of_jump v Hbig) as [Hswitch Hge].
    destruct (Z.ltb_spec (jump_byte_of v) CBOR_SIZE_1); [lia |].
    rewrite Hswitch.
    destruct (Z.ltb_spec (cbor_size state - 1) (CBOR_UNSIGNED_SIZE v - 1));
      [lia |].
    rewrite (Hrest Hbig). cbn [cbor cbor_size].
    rewrite to_size_t_id by lia.
    do 2 f_equal. f_equal. lia.
Qed.

(** ** The counters *)

Lemma increment_fields state :
  buffer (increment state) = buffer state /\
  buffer_size (increment state) = buffer_size state /\
  nesting_depth (increment state) = nesting_depth state /\
  length (objects (increment state)) = length (objects state).
Proof.
  unfold increment.
  destruct (nesting_depth state =? CBOR_MAX_NESTING); cbn;
    rewrite ?length_insert; auto.
Qed.

Lemma increment_top state :
  nesting_depth state = CBOR_MAX_NESTING -> increment state = state.
Proof.
  intros Htop. unfold increment. rewrite Htop, Z.eqb_refl. reflexivity.
Qed.

Lemma shortest_form_size_eq v : shortest_form_size v = CBOR_UNSIGNED_SIZE v.
Proof. reflexivity. Qed.

(** ** Round trip of unsigned integers *)

(** C1. For every unsigned [v] in [[0, 2^64)]: a writer initialised on a
    buffer of at least 9 bytes, one [cbor_prepend_unsigned(v)] and
    [cbor_stop_writer] produce bytes on which [cbor_read_unsigned] succeeds
    and yields [v]; the number of bytes produced is the entry of the
    shortest-form table (1 byte if [v < 24], 2 if [v <= 0xFF], 3 if
    [v <= 0xFFFF], 5 if [v <= 0xFFFFFFFF], 9 otherwise), and the read
    consumes all of them. *)
Theorem unsigned_round_trip state rstate m buffer0 buffer_size0 v value0 :
  0 <= v < 2 ^ 64 ->
  NULL < buffer0 ->
  9 <= buffer_size0 <= SIZE_MAX ->
  let '(state', m') :=
    cbor_prepend_unsigned (cbor_init_writer state buffer0 buffer_size0) m v in
  let cbor_start := fst (cbor_stop_writer state') in
  let produced := buffer_size0 - (cbor_start - buffer0) in
  let '(r, rstate', value) :=
    cbor_read_unsigned (cbor_init_reader rstate cbor_start produced) m'
      value0 in
  cbor_start <> NULL /\
  r <> CBOR_SIZE_NONE /\
  value = v /\
  produced = shortest_form_size v /\
  cbor_size rstate' = 0.
Proof.
  intros Hv Hbase Hsize.
  pose proof (CBOR_UNSIGNED_SIZE_range v) as Hus.
  assert (Hv' : 0 <= v <= UINT64_MAX) by (unfold UINT64_MAX; lia).
  set (state0 := cbor_init_writer state buffer0 buffer_size0).
  destruct (prepend_unsigned_ok state0 m v Hv') as (m' & Heq & _ & Hhdr);
    [cbn; lia |].
  unfold cbor_prepend_unsigned. rewrite Heq. clear Heq.
  rewrite increment_top by reflexivity.
  unfold cbor_stop_writer. cbn [nesting_depth buffer fst state0 cbor_init_writer
    set_nesting_depth set_buffer_size set_buffer buffer_size] in *.
  rewrite Z.eqb_refl.
  set (cbor_start := buffer0 + buffer_size0 - CBOR_UNSIGNED_SIZE v) in *.
  set (rstate0 := cbor_init_reader rstate cbor_start
                    (buffer_size0 - (cbor_start - buffer0))).
  destruct (header_read m' cbor_start CBOR_MAJOR_TYPE_UNSIGNED v rstate0 value0)
    as [_ Hread]; [left; reflexivity | exact Hv' | exact Hhdr | reflexivity
                  | cbn; unfold cbor_start; lia |].
  cbv zeta. rewrite Hread. cbn [cbor_size rstate0 cbor_init_reader set_cbor_size].
  rewrite shortest_form_size_eq.
  pose proof (jump_byte_of_range v ltac:(lia)).
  repeat split; try (unfold cbor_start, NULL in *; lia).
  unfold CBOR_SIZE_NONE, CBOR_SIZE_1.
  destruct (v <? 24); lia.
Qed.

(** ** Poisoning *)

Lemma poisoned_set state : poisoned (set_buffer_size (set_buffer state NULL) 0).
Proof. split; reflexivity. Qed.

Lemma poisoned_increment state : poisoned state -> poisoned (increment state).
Proof.
  intros [Hb Hs]. destruct (increment_fields state) as (Hb' & Hs' & _).
  split; congruence.
Qed.

Lemma prepend_unsigned_poison state m v :
  0 <= v -> buffer_size state < CBOR_UNSIGNED_SIZE v ->
  prepend_unsigned state m v = (set_buffer_size (set_buffer state NULL) 0, m).
Proof.
  intros Hv Hs. rewrite prepend_unsigned_eq by lia.
  apply write_unsigned_value_poison. lia.
Qed.

(** ** Byte and text strings *)

Lemma cbor_prepend_data_eq state m data data_size :
  cbor_prepend_data state m data data_size
  = prepend_string CBOR_MAJOR_TYPE_BYTE_STRING state m data data_size.
Proof. reflexivity. Qed.

Lemma cbor_prepend_text_eq state m text text_size :
  cbor_prepend_text state m text text_size
  = prepend_string CBOR_MAJOR_TYPE_TEXT_STRING state m text text_size.
Proof. reflexivity. Qed.

Lemma prepend_object_ok state m object0 n :
  0 <= n <= buffer_size state -> buffer_size state <= SIZE_MAX ->
  exists m',
    prepend_object state m object0 n
    = ({| buffer := buffer state - n;
          buffer_size := buffer_size state - n;
          nesting_depth := nesting_depth state;
          objects := objects state |}, m') /\
    (forall a, a < buffer state - n \/ buffer state <= a ->
       load8 m' a = load8 m a) /\
    (forall i, 0 <= i < n ->
       load8 m' (buffer state - n + i) = load8 m (object0 + i)).
Proof.
  intros Hn Hs. unfold prepend_object.
  destruct (Z.eqb_spec n 0) as [->|Hnz].
  - exists m. rewrite !Z.sub_0_r. destruct state. cbn.
    split; [reflexivity |]. split; [reflexivity | intros; lia].
  - destruct (Z.ltb_spec (buffer_size state) n); [lia |].
    eexists. split; [| split].
    + unfold set_buffer, set_buffer_size.
      cbn [buffer buffer_size nesting_depth objects].
      rewrite to_size_t_id by lia. reflexivity.
    + intros a Ha. apply load8_memcpy_out. lia.
    + intros i Hi. apply load8_memcpy_in. lia.
Qed.

Lemma prepend_string_ok mt state m string0 n :
  In mt header_major_types ->
  0 <= n ->
  CBOR_BYTE_STRING_SIZE n <= buffer_size state <= SIZE_MAX ->
  NULL < buffer state - buffer_size state ->
  exists m',
    prepend_string mt state m string0 n
    = (increment
         {| buffer := buffer state - CBOR_BYTE_STRING_SIZE n;
            buffer_size := buffer_size state - CBOR_BYTE_STRING_SIZE n;
            nesting_depth := nesting_depth state;
            objects := objects state |}, m') /\
    (forall a, a < buffer state - CBOR_BYTE_STRING_SIZE n \/ buffer state <= a ->
       load8 m' a = load8 m a) /\
    header_at m' (buffer state - CBOR_BYTE_STRING_SIZE n) mt n /\
    (forall i, 0 <= i < n ->
       load8 m' (buffer state - n + i) = load8 m (string0 + i)).
Proof.
  intros Hmt Hn Hs Hbase.
  pose proof (CBOR_UNSIGNED_SIZE_range n) as Hus.
  pose proof SIZE_MAX_bounds as Hmax.
  unfold CBOR_BYTE_STRING_SIZE in *.
  destruct (prepend_object_ok state m string0 n) as (m1 & Heq1 & Hout1 & Hin1);
    [lia | lia |].
  unfold prepend_string. rewrite Heq1. clear Heq1.
  set (state1 := {| buffer := buffer state - n |}).
  destruct (prepend_unsigned_ok state1 m1 n) as (m2 & Heq2 & Hout2 & Hhdr);
    [lia | cbn; lia |].
  unfold cbor_prepend_unsigned. rewrite Heq2. clear Heq2.
  cbn [buffer buffer_size nesting_depth objects state1] in *.
  destruct (increment_fields
    {| buffer := buffer state - n - CBOR_UNSIGNED_SIZE n;
       buffer_size := buffer_size state - n - CBOR_UNSIGNED_SIZE n;
       nesting_depth := nesting_depth state;
       objects := objects state |}) as (Hb & _).
  cbn [buffer] in Hb. unfold or_major_type. rewrite Hb.
  destruct (Z.eqb_spec (buffer state - n - CBOR_UNSIGNED_SIZE n) NULL);
    [unfold NULL in *; lia |].
  replace (buffer state - (CBOR_UNSIGNED_SIZE n + n))
    with (buffer state - n - CBOR_UNSIGNED_SIZE n) by lia.
  replace (buffer_size state - (CBOR_UNSIGNED_SIZE n + n))
    with (buffer_size state - n - CBOR_UNSIGNED_SIZE n) by lia.
  eexists. split; [reflexivity |]. split; [| split].
  - intros a Ha. rewrite load8_store8_ne by lia.
    unfold load8 at 1. rewrite Hout2 by lia. apply Hout1. lia.
  - apply header_at_or; [exact Hmt | lia | exact Hhdr].
  - intros i Hi. rewrite load8_store8_ne by lia.
    unfold load8 at 1. rewrite Hout2 by lia. apply Hin1. lia.
Qed.

Lemma prepend_string_poison mt state m string0 n :
  0 <= n ->
  0 <= buffer_size state <= SIZE_MAX ->
  buffer_size state < CBOR_BYTE_STRING_SIZE n ->
  poisoned (fst (prepend_string mt state m string0 n)).
Proof.
  intros Hn Hs Hshort.
  pose proof (CBOR_UNSIGNED_SIZE_range n) as Hus.
  unfold CBOR_BYTE_STRING_SIZE in *.
  assert (Hpoison : forall state1 m1,
    buffer_size state1 < CBOR_UNSIGNED_SIZE n ->
    poisoned (fst (let '(state, m) := cbor_prepend_unsigned state1 m1 n in
                   if buffer state =? NULL then (state, m)
                   else (state, or_major_type state m mt)))).
  { intros state1 m1 Hlt. unfold cbor_prepend_unsigned.
    rewrite prepend_unsigned_poison by lia.
    pose proof (poisoned_increment _ (poisoned_set state1)) as Hp.
    destruct Hp as [Hb Hz]. rewrite Hb. cbn. split; assumption. }
  unfold prepend_string.
  destruct (Z.lt_ge_cases (buffer_size state) n) as [Hlt|Hge].
  - unfold prepend_object.
    destruct (Z.eqb_spec n 0); [lia |].
    destruct (Z.ltb_spec (buffer_size state) n); [| lia].
    apply Hpoison. cbn. lia.
  - destruct (prepend_object_ok state m string0 n) as (m1 & Heq1 & _);
      [lia | lia |].
    rewrite Heq1. apply Hpoison. cbn. lia.
Qed.

Lemma load_bytes_ext m m' p q n :
  (forall i, 0 <= i < Z.of_nat n -> load8 m' (p + i) = load8 m (q + i)) ->
  load_bytes m' p n = load_bytes m q n.
Proof.
  intros Hagree. unfold load_bytes. apply list_fmap_ext.
  intros i x Hx. apply lookup_seq in Hx as [-> Hlt].
  apply Hagree. lia.
Qed.

Lemma length_load_bytes m p n : length (load_bytes m p n) = n.
Proof. unfold load_bytes. rewrite length_fmap. apply length_seq. Qed.

(** C5. For every byte sequence of length [n] (the [n] bytes stored at
    [data]): [cbor_prepend_data(data, n)] on a writer whose buffer holds at
    least [CBOR_BYTE_STRING_SIZE(n)] bytes, followed by [cbor_stop_writer],
    produces output on which [cbor_read_data] returns a non-[NULL] pointer
    to [n] bytes equal to the original ones and reports the size [n]. *)
Theorem byte_string_round_trip state rstate m buffer0 buffer_size0 data n
    data_size0 :
  NULL < buffer0 ->
  0 <= n ->
  CBOR_BYTE_STRING_SIZE n <= buffer_size0 <= SIZE_MAX ->
  let '(state', m') :=
    cbor_prepend_data (cbor_init_writer state buffer0 buffer_size0) m data n in
  let cbor_start := fst (cbor_stop_writer state') in
  let '(p, rstate', data_size) :=
    cbor_read_data (reader_on rstate buffer0 buffer_size0 cbor_start) m'
      data_size0 in
  cbor_start <> NULL /\
  p <> NULL /\
  data_size = n /\
  length (load_bytes m' p (Z.to_nat n)) = Z.to_nat n /\
  load_bytes m' p (Z.to_nat n) = load_bytes m data (Z.to_nat n) /\
  cbor rstate' = p + n /\
  cbor_size rstate' = 0.
Proof.
  intros Hbase Hn Hsize.
  pose proof (CBOR_UNSIGNED_SIZE_range n) as Hus.
  pose proof SIZE_MAX_bounds as Hmax.
  set (state0 := cbor_init_writer state buffer0 buffer_size0).
  rewrite cbor_prepend_data_eq.
  destruct (prepend_string_ok CBOR_MAJOR_TYPE_BYTE_STRING state0 m data n)
    as (m' & Heq & _ & Hhdr & Hpayload);
    [right; left; reflexivity | lia | cbn; lia | cbn; lia |].
  rewrite Heq. clear Heq. rewrite increment_top by reflexivity.
  unfold cbor_stop_writer, reader_on.
  cbn [nesting_depth buffer buffer_size fst state0 cbor_init_writer
    set_nesting_depth set_buffer_size set_buffer] in *.
  rewrite Z.eqb_refl.
  set (cbor_start := buffer0 + buffer_size0 - CBOR_BYTE_STRING_SIZE n) in *.
  set (rstate0 := cbor_init_reader rstate cbor_start
                    (buffer_size0 - (cbor_start - buffer0))).
  unfold CBOR_BYTE_STRING_SIZE in *.
  destruct (header_read m' cbor_start CBOR_MAJOR_TYPE_BYTE_STRING n rstate0 0)
    as [Hnext Hread];
    [right; left; reflexivity | lia | exact Hhdr | reflexivity
    | cbn; unfold cbor_start; lia |].
  cbv zeta. unfold cbor_read_data, read_byte_or_text_string.
  rewrite Hnext, Z.eqb_refl. cbn [negb]. rewrite Hread.
  cbn [cbor cbor_size rstate0 cbor_init_reader set_cbor set_cbor_size].
  pose proof (jump_byte_of_range n Hn) as Hjump.
  replace (CBOR_SIZE_NONE =? _) with false
    by (symmetry; apply Z.eqb_neq; unfold CBOR_SIZE_NONE, CBOR_SIZE_1;
        destruct (n <? 24); lia).
  destruct (Z.ltb_spec SIZE_MAX n); [lia |].
  match goal with |- context [?a <? n] =>
    destruct (Z.ltb_spec a n); [unfold cbor_start in *; lia |] end.
  cbn [orb]. rewrite !to_size_t_id by (unfold cbor_start; lia).
  rewrite length_load_bytes.
  cbn [cbor cbor_size set_cbor set_cbor_size].
  repeat split; try (unfold cbor_start, NULL in *; lia).
  apply load_bytes_ext. intros i Hi. rewrite <- Hpayload by lia.
  f_equal. unfold cbor_start. lia.
Qed.

(** C6. Exact fit and off-by-one exhaustion.  A writer whose buffer has
    exactly [CBOR_UNSIGNED_SIZE(v)] bytes accepts [cbor_prepend_unsigned(v)]
    and [cbor_stop_writer] returns the base of the buffer; with one byte
    less the call poisons the writer and [cbor_stop_writer] returns [NULL].
    The same holds of [cbor_prepend_data] and [CBOR_BYTE_STRING_SIZE(n)]. *)
Theorem exact_fit_and_off_by_one state m buffer0 v data n :
  NULL < buffer0 ->
  0 <= v <= UINT64_MAX ->
  0 <= n ->
  CBOR_BYTE_STRING_SIZE n <= SIZE_MAX ->
  let unsigned_into size :=
    fst (cbor_prepend_unsigned (cbor_init_writer state buffer0 size) m v) in
  let data_into size :=
    fst (cbor_prepend_data (cbor_init_writer state buffer0 size) m data n) in
  fst (cbor_stop_writer (unsigned_into (CBOR_UNSIGNED_SIZE v))) = buffer0 /\
  poisoned (unsigned_into (CBOR_UNSIGNED_SIZE v - 1)) /\
  fst (cbor_stop_writer (unsigned_into (CBOR_UNSIGNED_SIZE v - 1))) = NULL /\
  fst (cbor_stop_writer (data_into (CBOR_BYTE_STRING_SIZE n))) = buffer0 /\
  poisoned (data_into (CBOR_BYTE_STRING_SIZE n - 1)) /\
  fst (cbor_stop_writer (data_into (CBOR_BYTE_STRING_SIZE n - 1))) = NULL.
Proof.
  intros Hbase Hv Hn Hfit. cbv zeta.
  pose proof (CBOR_UNSIGNED_SIZE_range v) as Husv.
  pose proof (CBOR_UNSIGNED_SIZE_range n) as Husn.
  pose proof SIZE_MAX_bounds as Hmax. unfold UINT16_MAX in Hmax.
  assert (Hstop : forall state', nesting_depth state' = CBOR_MAX_NESTING ->
            fst (cbor_stop_writer state') = buffer state').
  { intros state' Htop. unfold cbor_stop_writer. rewrite Htop, Z.eqb_refl.
    reflexivity. }
  assert (Hpoison_u :
    poisoned (fst (cbor_prepend_unsigned
      (cbor_init_writer state buffer0 (CBOR_UNSIGNED_SIZE v - 1)) m v))).
  { unfold cbor_prepend_unsigned.
    rewrite prepend_unsigned_poison by (cbn; lia).
    apply poisoned_increment, poisoned_set. }
  assert (Hpoison_d :
    poisoned (fst (cbor_prepend_data
      (cbor_init_writer state buffer0 (CBOR_BYTE_STRING_SIZE n - 1)) m data n))).
  { rewrite cbor_prepend_data_eq. apply prepend_string_poison;
      unfold CBOR_BYTE_STRING_SIZE in *; cbn; lia. }
  repeat split.
  - destruct (prepend_unsigned_ok
      (cbor_init_writer state buffer0 (CBOR_UNSIGNED_SIZE v)) m v)
      as (m' & Heq & _); [lia | cbn; lia |].
    unfold cbor_prepend_unsigned. rewrite Heq. cbn [fst].
    rewrite increment_top by reflexivity.
    rewrite Hstop by reflexivity. cbn. lia.
  - apply Hpoison_u.
  - apply Hpoison_u.
  - unfold cbor_stop_writer. cbn [fst]. destruct Hpoison_u as [-> _].
    destruct (_ =? _); reflexivity.
  - rewrite cbor_prepend_data_eq.
    destruct (prepend_string_ok CBOR_MAJOR_TYPE_BYTE_STRING
      (cbor_init_writer state buffer0 (CBOR_BYTE_STRING_SIZE n)) m data n)
      as (m' & Heq & _);
      [right; left; reflexivity | lia | cbn; lia | cbn; lia |].
    rewrite Heq. cbn [fst]. rewrite increment_top by reflexivity.
    rewrite Hstop by reflexivity. cbn. lia.
  - apply Hpoison_d.
  - apply Hpoison_d.
  - unfold cbor_stop_writer. cbn [fst]. destruct Hpoison_d as [-> _].
    destruct (_ =? _); reflexivity.
Qed.

(** ** The poisoned state is absorbing *)

Lemma prepend_unsigned_poisoned state m v :
  poisoned state ->
  prepend_unsigned state m v = (set_buffer_size (set_buffer state NULL) 0, m).
Proof.
  intros [_ Hs]. unfold prepend_unsigned. rewrite Hs.
  destruct (v <? CBOR_SIZE_1); [reflexivity |].
  destruct (v <=? UINT8_MAX); [reflexivity |].
  destruct (v <=? UINT16_MAX); [reflexivity |].
  destruct (v <=? UINT32_MAX); reflexivity.
Qed.

Lemma cbor_prepend_unsigned_poisoned state m v :
  poisoned state -> poisoned (fst (cbor_prepend_unsigned state m v)).
Proof.
  intros Hp. unfold cbor_prepend_unsigned.
  rewrite prepend_unsigned_poisoned by exact Hp.
  apply poisoned_increment, poisoned_set.
Qed.

Lemma prepend_object_poisoned state m object0 n :
  0 <= n -> poisoned state -> poisoned (fst (prepend_object state m object0 n)).
Proof.
  intros Hn Hp. unfold prepend_object.
  destruct (Z.eqb_spec n 0); [exact Hp |].
  destruct Hp as [Hb Hs]. rewrite Hs.
  destruct (Z.ltb_spec 0 n); [apply poisoned_set | lia].
Qed.

Lemma cbor_prepend_object_poisoned state m object0 n :
  0 <= n -> poisoned state ->
  poisoned (fst (cbor_prepend_object state m object0 n)).
Proof.
  intros Hn Hp. unfold cbor_prepend_object.
  pose proof (prepend_object_poisoned state m object0 n Hn Hp) as Hp'.
  destruct (prepend_object state m object0 n) as [state' m'].
  apply poisoned_increment, Hp'.
Qed.

Lemma cbor_wrap_data_poisoned state m n :
  poisoned state -> poisoned (fst (cbor_wrap_data state m n)).
Proof.
  intros Hp. unfold cbor_wrap_data.
  pose proof (cbor_prepend_unsigned_poisoned state m n Hp) as Hp'.
  destruct (cbor_prepend_unsigned state m n) as [state' m'].
  destruct (buffer state' =? NULL); exact Hp'.
Qed.

Lemma prepend_string_poisoned mt state m string0 n :
  0 <= n -> poisoned state ->
  poisoned (fst (prepend_string mt state m string0 n)).
Proof.
  intros Hn Hp. unfold prepend_string.
  pose proof (prepend_object_poisoned state m string0 n Hn Hp) as Hp1.
  destruct (prepend_object state m string0 n) as [state1 m1].
  pose proof (cbor_prepend_unsigned_poisoned state1 m1 n Hp1) as Hp2.
  destruct (cbor_prepend_unsigned state1 m1 n) as [state2 m2].
  destruct (buffer state2 =? NULL); exact Hp2.
Qed.

Lemma cbor_open_array_poisoned state :
  poisoned state -> poisoned (snd (cbor_open_array state)).
Proof.
  intros Hp. unfold cbor_open_array.
  destruct (nesting_depth state =? 0); [apply poisoned_set | exact Hp].
Qed.

Lemma cbor_wrap_array_poisoned state m :
  poisoned state ->
  fst (fst (cbor_wrap_array state m)) = NULL /\
  poisoned (snd (fst (cbor_wrap_array state m))).
Proof.
  intros Hp. unfold cbor_wrap_array.
  destruct (nesting_depth state =? CBOR_MAX_NESTING);
    [split; [reflexivity | apply poisoned_set] |].
  rewrite prepend_unsigned_poisoned by exact Hp. cbn.
  split; [reflexivity | apply poisoned_set].
Qed.

Lemma cbor_wrap_map_poisoned state m :
  poisoned state ->
  fst (fst (cbor_wrap_map state m)) = NULL /\
  poisoned (snd (fst (cbor_wrap_map state m))).
Proof.
  intros Hp. unfold cbor_wrap_map.
  destruct (_ || _); [split; [reflexivity | apply poisoned_set] |].
  rewrite prepend_unsigned_poisoned by exact Hp. cbn.
  split; [reflexivity | apply poisoned_set].
Qed.

Lemma prepend_simple_poisoned state m value :
  poisoned state -> poisoned (fst (prepend_simple state m value)).
Proof.
  intros [Hb Hs]. unfold prepend_simple. rewrite Hs. cbn.
  split; [reflexivity | exact Hs].
Qed.

Lemma run_op_poisoned op state m :
  op_typed op = true -> poisoned state -> poisoned (fst (run_op op (state, m))).
Proof.
  intros Htyped Hp.
  destruct op; cbn [run_op op_typed] in *;
    try apply andb_true_iff in Htyped as [Hlo%Z.leb_le _].
  - apply cbor_prepend_object_poisoned; assumption.
  - apply cbor_prepend_unsigned_poisoned; assumption.
  - apply cbor_wrap_data_poisoned; assumption.
  - rewrite cbor_prepend_data_eq. apply prepend_string_poisoned; assumption.
  - rewrite cbor_prepend_text_eq. apply prepend_string_poisoned; assumption.
  - apply cbor_open_array_poisoned; assumption.
  - pose proof (cbor_wrap_array_poisoned state m Hp) as [_ Hp'].
    destruct (cbor_wrap_array state m) as [[r state'] m']. exact Hp'.
  - apply cbor_open_array_poisoned; assumption.
  - pose proof (cbor_wrap_map_poisoned state m Hp) as [_ Hp'].
    destruct (cbor_wrap_map state m) as [[r state'] m']. exact Hp'.
  - apply prepend_simple_poisoned; assumption.
  - apply prepend_simple_poisoned; assumption.
  - apply prepend_simple_poisoned; assumption.
Qed.

Lemma run_ops_poisoned ops : forall state m,
  forallb op_typed ops = true -> poisoned state ->
  poisoned (fst (run_ops ops (state, m))).
Proof.
  induction ops as [|op ops IH]; intros state m Htyped Hp; [exact Hp |].
  cbn [forallb] in Htyped. apply andb_true_iff in Htyped as [Hop Hops].
  unfold run_ops. cbn [fold_left].
  pose proof (run_op_poisoned op state m Hop Hp) as Hp'.
  destruct (run_op op (state, m)) as [state' m']. apply IH; assumption.
Qed.

Lemma cbor_stop_writer_poisoned state :
  poisoned state -> fst (cbor_stop_writer state) = NULL.
Proof.
  intros [Hb _]. unfold cbor_stop_writer. cbn [fst]. rewrite Hb.
  destruct (_ =? _); reflexivity.
Qed.

(** C4. Poison monotonicity: from a poisoned writer state ([buffer] is
    [NULL] and [buffer_size] is 0), after every finite sequence of calls of
    the writer's operations, the state is still poisoned and
    [cbor_stop_writer] returns [NULL]. *)
Theorem poison_monotonicity state m ops :
  poisoned state ->
  forallb op_typed ops = true ->
  poisoned (fst (run_ops ops (state, m))) /\
  fst (cbor_stop_writer (fst (run_ops ops (state, m)))) = NULL.
Proof.
  intros Hp Htyped.
  pose proof (run_ops_poisoned ops state m Htyped Hp) as Hp'.
  split; [exact Hp' | apply cbor_stop_writer_poisoned, Hp'].
Qed.

(** ** The reader on its own *)

Lemma cbor_read_unsigned_loop_fst n : forall p acc m,
  fst (cbor_read_unsigned_loop n p acc m) = p + Z.of_nat n.
Proof.
  induction n as [|n IH]; intros p acc m; cbn [cbor_read_unsigned_loop].
  - simpl. lia.
  - rewrite IH. lia.
Qed.

(** C9. With at least one byte remaining and a next byte whose low five
    bits [f] are below 24, [cbor_read_unsigned] consumes exactly one byte,
    stores [f] and returns [CBOR_SIZE_1]; on an item whose field is 24
    followed by one argument byte it consumes two bytes, stores the argument
    byte and returns [CBOR_SIZE_1] as well: the returned size class does not
    tell the two encodings apart. *)
Theorem immediate_reads_as_size_1 state m value0 state2 m2 value2 :
  1 <= cbor_size state <= SIZE_MAX ->
  Z.land (load8 m (cbor state)) 0x1F < 24 ->
  2 <= cbor_size state2 <= SIZE_MAX ->
  Z.land (load8 m2 (cbor state2)) 0x1F = 24 ->
  cbor_read_unsigned state m value0
  = (CBOR_SIZE_1,
     {| cbor := cbor state + 1; cbor_size := cbor_size state - 1 |},
     Z.land (load8 m (cbor state)) 0x1F) /\
  cbor_read_unsigned state2 m2 value2
  = (CBOR_SIZE_1,
     {| cbor := cbor state2 + 2; cbor_size := cbor_size state2 - 2 |},
     load8 m2 (cbor state2 + 1)) /\
  fst (fst (cbor_read_unsigned state m value0))
  = fst (fst (cbor_read_unsigned state2 m2 value2)).
Proof.
  intros Hs Hf Hs2 Hf2.
  destruct (low_bits_of_byte _ (load8_range m (cbor state))) as [Hlow _].
  destruct (low_bits_of_byte _ (load8_range m2 (cbor state2))) as [Hlow2 _].
  assert (H1 : cbor_read_unsigned state m value0
    = (CBOR_SIZE_1,
       {| cbor := cbor state + 1; cbor_size := cbor_size state - 1 |},
       Z.land (load8 m (cbor state)) 0x1F)).
  { unfold cbor_read_unsigned.
    destruct (Z.eqb_spec (cbor_size state) 0); [lia |].
    rewrite Hlow.
    destruct (Z.ltb_spec (Z.land (load8 m (cbor state)) 31) CBOR_SIZE_1);
      [| unfold CBOR_SIZE_1 in *; lia].
    unfold set_cbor, set_cbor_size. cbn [cbor cbor_size].
    rewrite to_size_t_id by lia. reflexivity. }
  assert (H2 : cbor_read_unsigned state2 m2 value2
    = (CBOR_SIZE_1,
       {| cbor := cbor state2 + 2; cbor_size := cbor_size state2 - 2 |},
       load8 m2 (cbor state2 + 1))).
  { unfold cbor_read_unsigned.
    destruct (Z.eqb_spec (cbor_size state2) 0); [lia |].
    rewrite Hlow2, Hf2.
    unfold set_cbor, set_cbor_size. cbn [cbor cbor_size].
    rewrite to_size_t_id by lia.
    change (24 <? CBOR_SIZE_1) with false. cbv iota.
    change (bytes_to_read_of 24) with (Some 1). cbv beta iota.
    destruct (Z.ltb_spec (cbor_size state2 - 1) 1); [lia |].
    rewrite to_size_t_id by lia.
    change (Z.to_nat 1) with 1%nat. cbn [cbor_read_unsigned_loop].
    change (to_uint64 (Z.shiftl 0 8)) with 0. rewrite Z.add_0_l.
    pose proof (load8_range m2 (cbor state2 + 1)) as Hb.
    rewrite to_uint64_id by (unfold UINT8_MAX, UINT64_MAX in *; lia).
    do 2 f_equal. f_equal; lia. }
  rewrite H1, H2. repeat split; reflexivity.
Qed.

(** C8, as the code has it.  [cbor_read_next] never changes the reader
    state; it reports [CBOR_MAJOR_TYPE_NONE] when zero bytes remain and
    [CBOR_MAJOR_TYPE_SIMPLE] when the next byte is 0xF9, 0xFA or 0xFB.  When
    the next byte is a tag initial byte (0xC0 to 0xDF) it reports the
    value 0xC0: that is not the [CBOR_MAJOR_TYPE_NONE] sentinel, and it is
    none of the enumerated major types either. *)
Theorem read_next_on_unsupported (empty float tag : cbor_reader_state_t) m :
  cbor_size empty = 0 ->
  cbor_size float <> 0 ->
  In (load8 m (cbor float)) [0xF9; 0xFA; 0xFB] ->
  cbor_size tag <> 0 ->
  0xC0 <= load8 m (cbor tag) <= 0xDF ->
  (forall state, snd (cbor_read_next state m) = state) /\
  fst (cbor_read_next empty m) = CBOR_MAJOR_TYPE_NONE /\
  fst (cbor_read_next float m) = CBOR_MAJOR_TYPE_SIMPLE /\
  fst (cbor_read_next tag m) = 0xC0 /\
  fst (cbor_read_next tag m) <> CBOR_MAJOR_TYPE_NONE /\
  ~ In (fst (cbor_read_next tag m))
      [CBOR_MAJOR_TYPE_UNSIGNED; CBOR_MAJOR_TYPE_BYTE_STRING;
       CBOR_MAJOR_TYPE_TEXT_STRING; CBOR_MAJOR_TYPE_ARRAY;
       CBOR_MAJOR_TYPE_MAP; CBOR_MAJOR_TYPE_SIMPLE].
Proof.
  intros Hempty Hfloat Hbyte Htag Hrange.
  assert (Htag0 : fst (cbor_read_next tag m) = 0xC0).
  { unfold cbor_read_next.
    destruct (Z.eqb_spec (cbor_size tag) 0); [contradiction |]. cbn [fst].
    assert (Hall : forallb (fun b => Z.land b 0xE0 =? 0xC0) (seqZ 0xC0 32)
                   = true) by (vm_compute; reflexivity).
    apply Z.eqb_eq. apply (forallb_seqZ _ _ _ _ Hall). lia. }
  split; [| split; [| split; [| split; [| split]]]].
  - intros state. unfold cbor_read_next.
    destruct (cbor_size state =? 0); reflexivity.
  - unfold cbor_read_next. rewrite Hempty. reflexivity.
  - unfold cbor_read_next.
    destruct (Z.eqb_spec (cbor_size float) 0); [contradiction |]. cbn [fst].
    destruct Hbyte as [<-|[<-|[<-|[]]]]; reflexivity.
  - exact Htag0.
  - rewrite Htag0. discriminate.
  - rewrite Htag0. intros [H|[H|[H|[H|[H|[H|[]]]]]]]; discriminate H.
Qed.

Lemma cbor_read_unsigned_advance state m value0 :
  1 <= cbor_size state <= SIZE_MAX ->
  exists a,
    In a [0; 1; 2; 4; 8] /\
    1 + a <= cbor_size state /\
    cbor (snd (fst (cbor_read_unsigned state m value0)))
    = cbor state + (1 + a) /\
    cbor_size (snd (fst (cbor_read_unsigned state m value0)))
    = cbor_size state - (1 + a).
Proof.
  intros Hs. unfold cbor_read_unsigned.
  destruct (Z.eqb_spec (cbor_size state) 0); [lia |].
  unfold set_cbor, set_cbor_size. cbn [cbor cbor_size].
  rewrite to_size_t_id by lia.
  set (size := Z.land (load8 m (cbor state)) (Z.lnot 224)).
  assert (Hnone : exists a, In a [0; 1; 2; 4; 8] /\ 1 + a <= cbor_size state /\
            cbor state + 1 = cbor state + (1 + a) /\
            cbor_size state - 1 = cbor_size state - (1 + a)).
  { exists 0. split; [left; reflexivity | lia]. }
  destruct (size <? CBOR_SIZE_1); [exact Hnone |].
  assert (Hsome : forall k, In k [1; 2; 4; 8] ->
    exists a, In a [0; 1; 2; 4; 8] /\ 1 + a <= cbor_size state /\
      cbor (snd (fst
        (if cbor_size state - 1 <? k
         then (CBOR_SIZE_NONE,
               {| cbor := cbor state + 1; cbor_size := cbor_size state - 1 |},
               value0)
         else
           let '(p, value) :=
             cbor_read_unsigned_loop (Z.to_nat k) (cbor state + 1) 0 m in
           (size,
            {| cbor := p; cbor_size := to_size_t (cbor_size state - 1 - k) |},
            value))))
      = cbor state + (1 + a) /\
      cbor_size (snd (fst
        (if cbor_size state - 1 <? k
         then (CBOR_SIZE_NONE,
               {| cbor := cbor state + 1; cbor_size := cbor_size state - 1 |},
               value0)
         else
           let '(p, value) :=
             cbor_read_unsigned_loop (Z.to_nat k) (cbor state + 1) 0 m in
           (size,
            {| cbor := p; cbor_size := to_size_t (cbor_size state - 1 - k) |},
            value))))
      = cbor_size state - (1 + a)).
  { intros k Hk.
    assert (0 < k) by (cbn in Hk; lia).
    destruct (Z.ltb_spec (cbor_size state - 1) k); [exact Hnone |].
    pose proof (cbor_read_unsigned_loop_fst (Z.to_nat k) (cbor state + 1) 0 m)
      as Hfst.
    destruct (cbor_read_unsigned_loop (Z.to_nat k) (cbor state + 1) 0 m)
      as [p value].
    cbn [fst snd cbor cbor_size] in *. rewrite to_size_t_id by lia.
    exists k. split; [right; exact Hk |]. rewrite Z2Nat.id in Hfst by lia.
    lia. }
  unfold bytes_to_read_of.
  destruct (size =? CBOR_SIZE_1); [apply Hsome; cbn; tauto |].
  destruct (size =? CBOR_SIZE_2); [apply Hsome; cbn; tauto |].
  destruct (size =? CBOR_SIZE_4); [apply Hsome; cbn; tauto |].
  destruct (size =? CBOR_SIZE_8); [apply Hsome; cbn; tauto |].
  exact Hnone.
Qed.

Lemma cbor_read_data_eq state m data_size :
  cbor_read_data state m data_size
  = read_string CBOR_MAJOR_TYPE_BYTE_STRING state m data_size.
Proof. reflexivity. Qed.

Lemma cbor_read_text_eq state m text_size :
  cbor_read_text state m text_size
  = read_string CBOR_MAJOR_TYPE_TEXT_STRING state m text_size.
Proof. reflexivity. Qed.

Lemma read_string_error mt state m size0 :
  mt <> CBOR_MAJOR_TYPE_NONE ->
  NULL < cbor state ->
  0 <= cbor_size state <= SIZE_MAX ->
  fst (fst (read_string mt state m size0)) = NULL ->
  string_read_error_outcome mt state
    (snd (fst (read_string mt state m size0))) m /\
  snd (read_string mt state m size0) = size0.
Proof.
  intros Hmt Hcbor Hs. unfold read_string, string_read_error_outcome.
  destruct (cbor_read_next state m) as [next state1] eqn:Hnext.
  assert (state1 = state) as ->.
  { unfold cbor_read_next in Hnext.
    destruct (cbor_size state =? 0); congruence. }
  cbn [fst].
  destruct (Z.eqb_spec next mt) as [->|Hne]; cbn [negb].
  - assert (Hpos : 1 <= cbor_size state).
    { unfold cbor_read_next in Hnext.
      destruct (Z.eqb_spec (cbor_size state) 0); [congruence | lia]. }
    unfold read_byte_or_text_string.
    destruct (cbor_read_unsigned_advance state m 0 ltac:(lia))
      as (a & Ha & Hfit & Hc & Hcs).
    destruct (cbor_read_unsigned state m 0) as [[r state2] value].
    cbn [fst snd] in Hc, Hcs.
    destruct (_ || _).
    + intros _. cbn [fst snd]. split; [| reflexivity].
      right. split; [reflexivity |]. exists a. auto.
    + cbn [fst snd]. intros Hnull.
      assert (0 <= a) by (cbn in Ha; lia). unfold NULL in *. lia.
  - intros _. cbn [fst snd]. split; [| reflexivity]. left. auto.
Qed.

(** C3, as the code has it.  When [cbor_read_data] (respectively
    [cbor_read_text]) returns [NULL] because the next major type is not byte
    string (respectively text string), which includes the case that no byte
    remains, the cursor and the remaining-byte count are what they were
    before the call.  When it returns [NULL] on an item of the requested
    major type (argument bytes missing, reserved size field, length larger
    than what remains), the header bytes that were read stay consumed: the
    cursor has advanced by [1 + a] bytes and the remaining-byte count has
    dropped by [1 + a], with [a] in 0, 1, 2, 4, 8.  [*data_size] is not
    written in either case. *)
Theorem string_read_error_state dstate tstate m data_size0 text_size0 :
  NULL < cbor dstate ->
  0 <= cbor_size dstate <= SIZE_MAX ->
  fst (fst (cbor_read_data dstate m data_size0)) = NULL ->
  NULL < cbor tstate ->
  0 <= cbor_size tstate <= SIZE_MAX ->
  fst (fst (cbor_read_text tstate m text_size0)) = NULL ->
  (string_read_error_outcome CBOR_MAJOR_TYPE_BYTE_STRING dstate
     (snd (fst (cbor_read_data dstate m data_size0))) m /\
   snd (cbor_read_data dstate m data_size0) = data_size0) /\
  (string_read_error_outcome CBOR_MAJOR_TYPE_TEXT_STRING tstate
     (snd (fst (cbor_read_text tstate m text_size0))) m /\
   snd (cbor_read_text tstate m text_size0) = text_size0).
Proof.
  intros Hd Hds Hdnull Ht Hts Htnull.
  rewrite cbor_read_data_eq in *. rewrite cbor_read_text_eq in *.
  split; apply read_string_error; try assumption; discriminate.
Qed.

(** ** Zero-length fragments *)

(** C10. [cbor_prepend_object] with [object_size] 0 leaves the cursor, the
    free-byte count and the memory as they are, whatever the state (so it
    never poisons, also with zero free bytes), and still counts as one
    item: if a container is open, the counter of the innermost one is
    incremented ([size_t] arithmetic: [SIZE_MAX] wraps to 0) and no other
    counter changes; at top level no counter changes. *)
Theorem zero_length_object_counts state m object0 :
  writer_wf state ->
  let '(state', m') := cbor_prepend_object state m object0 0 in
  buffer state' = buffer state /\
  buffer_size state' = buffer_size state /\
  m' = m /\
  nesting_depth state' = nesting_depth state /\
  ((nesting_depth state = CBOR_MAX_NESTING /\ objects state' = objects state)
   \/
   (nesting_depth state < CBOR_MAX_NESTING /\
    object state' (nesting_depth state)
    = (if object state (nesting_depth state) =? SIZE_MAX then 0
       else object state (nesting_depth state) + 1) /\
    objects state'
    = <[Z.to_nat (nesting_depth state) :=
          object state' (nesting_depth state)]> (objects state))).
Proof.
  intros (Hs & Hnd & Hlen & Hobj).
  unfold cbor_prepend_object, prepend_object. cbn [Z.eqb].
  destruct (increment_fields state) as (Hb' & Hs' & Hnd' & _).
  repeat (split; [solve [assumption | reflexivity] |]).
  unfold increment.
  destruct (Z.eqb_spec (nesting_depth state) CBOR_MAX_NESTING) as [Htop|Hopen].
  - left. split; [exact Htop | reflexivity].
  - right. split; [lia |].
    assert (Hidx : (Z.to_nat (nesting_depth state) < length (objects state))%nat)
      by lia.
    unfold object, set_object. cbn [objects].
    rewrite list_lookup_total_insert_eq by exact Hidx.
    split; [| reflexivity].
    set (c := objects state !!! Z.to_nat (nesting_depth state)).
    assert (Hc : 0 <= c <= SIZE_MAX).
    { rewrite Forall_forall in Hobj. apply Hobj.
      apply list_elem_of_lookup_total_2, Hidx. }
    unfold to_size_t. unfold SIZE_MAX in *.
    destruct (Z.eqb_spec c (2 ^ SIZE_BITS - 1)) as [->|Hne].
    + replace (2 ^ SIZE_BITS - 1 + 1) with (2 ^ SIZE_BITS) by lia.
      apply Z.mod_same. lia.
    + apply Z.mod_small. lia.
Qed.

(** ** Closing a container *)

Lemma cbor_wrap_array_eq state m :
  cbor_wrap_array state m
  = if nesting_depth state =? CBOR_MAX_NESTING
    then (NULL, set_buffer_size (set_buffer state NULL) 0, m)
    else wrap_container CBOR_MAJOR_TYPE_ARRAY
           (object state (nesting_depth state)) state m.
Proof. reflexivity. Qed.

Lemma cbor_wrap_map_eq state m :
  cbor_wrap_map state m
  = if (nesting_depth state =? CBOR_MAX_NESTING)
       || negb (Z.land (object state (nesting_depth state)) 1 =? 0)
    then (NULL, set_buffer_size (set_buffer state NULL) 0, m)
    else wrap_container CBOR_MAJOR_TYPE_MAP
           (Z.shiftr (object state (nesting_depth state)) 1) state m.
Proof. reflexivity. Qed.

Lemma wrap_container_ok mt argument state m :
  In mt header_major_types ->
  0 <= argument <= UINT64_MAX ->
  CBOR_UNSIGNED_SIZE argument <= buffer_size state <= SIZE_MAX ->
  NULL < buffer state - buffer_size state ->
  0 <= nesting_depth state < CBOR_MAX_NESTING ->
  exists state' m',
    wrap_container mt argument state m
    = (buffer state - CBOR_UNSIGNED_SIZE argument, state', m') /\
    buffer state' = buffer state - CBOR_UNSIGNED_SIZE argument /\
    buffer_size state' = buffer_size state - CBOR_UNSIGNED_SIZE argument /\
    nesting_depth state' = nesting_depth state + 1 /\
    header_at m' (buffer state') mt argument /\
    (forall a,
       a < buffer state - CBOR_UNSIGNED_SIZE argument \/ buffer state <= a ->
       load8 m' a = load8 m a).
Proof.
  pose proof CBOR_MAX_NESTING_range as Hmaxn. unfold max_nesting_fits in Hmaxn.
  intros Hmt Harg Hs Hbase Hnd.
  pose proof (CBOR_UNSIGNED_SIZE_range argument) as Hus.
  destruct (prepend_unsigned_ok state m argument Harg Hs)
    as (m1 & Heq & Hout & Hhdr).
  unfold wrap_container. rewrite Heq. clear Heq.
  cbn [buffer]. unfold or_major_type. cbn [buffer].
  destruct (Z.eqb_spec (buffer state - CBOR_UNSIGNED_SIZE argument) NULL);
    [unfold NULL in *; lia |].
  unfold set_nesting_depth, set_object, object.
  cbn [nesting_depth buffer buffer_size objects].
  rewrite !(to_size_t_id (nesting_depth state + 1)) by lia.
  assert (Hm : forall a,
    a < buffer state - CBOR_UNSIGNED_SIZE argument \/ buffer state <= a ->
    load8 (store8 m1 (buffer state - CBOR_UNSIGNED_SIZE argument)
             (Z.lor (load8 m1 (buffer state - CBOR_UNSIGNED_SIZE argument)) mt))
      a = load8 m a).
  { intros a Ha. rewrite load8_store8_ne by lia.
    unfold load8. rewrite Hout by lia. reflexivity. }
  pose proof (header_at_or m1 _ mt argument Hmt ltac:(lia) Hhdr) as Hhdr'.
  destruct (negb (nesting_depth state + 1 =? CBOR_MAX_NESTING));
    cbn [nesting_depth buffer buffer_size objects];
    (eexists _, _; split; [reflexivity |]);
    cbn [nesting_depth buffer buffer_size objects];
    repeat (split; [reflexivity |]); (split; [exact Hhdr' | exact Hm]).
Qed.

Lemma land_1_odd c : Z.land c 1 = if Z.odd c then 1 else 0.
Proof.
  change 1 with (Z.ones 1) at 1. rewrite Z.land_ones by lia.
  apply Zmod_odd.
Qed.

(** The count that a reader finds behind an array or map header. *)
Lemma read_container_count mt m p k state :
  mt = CBOR_MAJOR_TYPE_ARRAY \/ mt = CBOR_MAJOR_TYPE_MAP ->
  0 <= k < SIZE_MAX ->
  header_at m p mt k ->
  cbor state = p ->
  CBOR_UNSIGNED_SIZE k <= cbor_size state <= SIZE_MAX ->
  (if mt =? CBOR_MAJOR_TYPE_ARRAY then cbor_read_array state m
   else cbor_read_map state m)
  = (k, {| cbor := p + CBOR_UNSIGNED_SIZE k;
           cbor_size := cbor_size state - CBOR_UNSIGNED_SIZE k |}).
Proof.
  intros Hmt Hk Hhdr Hp Hs.
  pose proof SIZE_MAX_bounds as Hmax.
  pose proof (jump_byte_of_range k ltac:(lia)) as Hjump.
  destruct (header_read m p mt k state 0) as [Hnext Hread];
    [destruct Hmt as [-> | ->]; cbn; tauto | lia | exact Hhdr | exact Hp
    | exact Hs |].
  assert (Hcount : read_array_or_map state m
    = (k, {| cbor := p + CBOR_UNSIGNED_SIZE k;
             cbor_size := cbor_size state - CBOR_UNSIGNED_SIZE k |})).
  { unfold read_array_or_map. rewrite Hread.
    replace (CBOR_SIZE_NONE =? _) with false
      by (symmetry; apply Z.eqb_neq; unfold CBOR_SIZE_NONE, CBOR_SIZE_1;
          destruct (k <? 24); lia).
    destruct (Z.leb_spec SIZE_MAX k); [lia |]. cbn [orb].
    rewrite to_size_t_id by lia. reflexivity. }
  destruct Hmt as [-> | ->]; cbn [Z.eqb CBOR_MAJOR_TYPE_ARRAY
    CBOR_MAJOR_TYPE_MAP Pos.eqb];
    unfold cbor_read_array, cbor_read_map; rewrite Hnext;
    cbn [negb Z.eqb CBOR_MAJOR_TYPE_ARRAY CBOR_MAJOR_TYPE_MAP Pos.eqb];
    exact Hcount.
Qed.

(** C7. Map parity.  [cbor_wrap_map] on a state whose innermost open
    container holds an odd number of items returns [NULL] and poisons the
    writer, so that [cbor_stop_writer] returns [NULL] after any further
    calls.  On a writer in good standing whose innermost open container
    holds [2 * k] items, with room for the header, it returns the new
    cursor, where it has written a map header with argument [k]:
    [cbor_read_map] on these bytes returns [k]. *)
Theorem map_parity_enforcement odd even m ops k :
  0 <= nesting_depth odd < CBOR_MAX_NESTING ->
  Z.odd (object odd (nesting_depth odd)) = true ->
  forallb op_typed ops = true ->
  writer_wf even ->
  NULL < buffer even - buffer_size even ->
  0 <= nesting_depth even < CBOR_MAX_NESTING ->
  object even (nesting_depth even) = 2 * k ->
  CBOR_UNSIGNED_SIZE k <= buffer_size even ->
  (let '(r, odd', m') := cbor_wrap_map odd m in
   r = NULL /\ poisoned odd' /\
   fst (cbor_stop_writer odd') = NULL /\
   fst (cbor_stop_writer (fst (run_ops ops (odd', m')))) = NULL) /\
  (let '(r, even', m') := cbor_wrap_map even m in
   r <> NULL /\
   r = buffer even - CBOR_UNSIGNED_SIZE k /\
   buffer even' = r /\
   buffer_size even' = buffer_size even - CBOR_UNSIGNED_SIZE k /\
   nesting_depth even' = nesting_depth even + 1 /\
   header_at m' r CBOR_MAJOR_TYPE_MAP k /\
   cbor_read_map {| cbor := r; cbor_size := CBOR_UNSIGNED_SIZE k |} m'
   = (k, {| cbor := r + CBOR_UNSIGNED_SIZE k; cbor_size := 0 |})).
Proof.
  intros Hnd_odd Hodd Htyped (Hs & _ & Hlen & Hobj) Hbase Hnd Hcount Hroom.
  pose proof SIZE_MAX_bounds as Hmax.
  pose proof (CBOR_UNSIGNED_SIZE_range k) as Hus.
  split.
  - rewrite cbor_wrap_map_eq, land_1_odd, Hodd.
    rewrite orb_true_r.
    pose proof (poisoned_set odd) as Hp.
    split; [reflexivity |]. split; [exact Hp |].
    split; [apply cbor_stop_writer_poisoned, Hp |].
    apply cbor_stop_writer_poisoned, run_ops_poisoned; assumption.
  - assert (Hc : 0 <= 2 * k <= SIZE_MAX).
    { rewrite <- Hcount. rewrite Forall_forall in Hobj. apply Hobj.
      apply list_elem_of_lookup_total_2. lia. }
    rewrite cbor_wrap_map_eq, land_1_odd, Hcount.
    replace (Z.odd (2 * k)) with false
      by (symmetry; rewrite Z.odd_mul; reflexivity).
    destruct (Z.eqb_spec (nesting_depth even) CBOR_MAX_NESTING); [lia |].
    cbn [orb negb Z.eqb].
    replace (Z.shiftr (2 * k) 1) with k
      by (rewrite Z.shiftr_div_pow2 by lia; symmetry;
          rewrite Z.mul_comm; apply Z.div_mul; discriminate).
    destruct (wrap_container_ok CBOR_MAJOR_TYPE_MAP k even m)
      as (even' & m' & Heq & Hb & Hbs & Hn & Hhdr & _);
      [cbn; tauto | lia | lia | exact Hbase | exact Hnd |].
    rewrite Heq. rewrite Hb in Hhdr.
    split; [unfold NULL in *; lia |].
    repeat (split; [solve [reflexivity | assumption] |]).
    pose proof (read_container_count CBOR_MAJOR_TYPE_MAP m'
      (buffer even - CBOR_UNSIGNED_SIZE k) k
      {| cbor := buffer even - CBOR_UNSIGNED_SIZE k;
         cbor_size := CBOR_UNSIGNED_SIZE k |}) as Hread.
    cbn [Z.eqb CBOR_MAJOR_TYPE_ARRAY CBOR_MAJOR_TYPE_MAP Pos.eqb cbor cbor_size]
      in Hread.
    rewrite Hread; [| right; reflexivity | lia | exact Hhdr | reflexivity | lia].
    do 2 f_equal. lia.
Qed.

(** ** Well-formed writer states

    [cbor_init_writer] on a state whose [objects] array has
    [CBOR_MAX_NESTING] slots of type [size_t] gives a well-formed state, and
    every operation of the writer keeps the state well formed. *)

Lemma to_size_t_range z : 0 <= to_size_t z <= SIZE_MAX.
Proof.
  pose proof SIZE_BITS_range as Hbits. unfold size_t_fits in Hbits.
  unfold to_size_t, SIZE_MAX.
  pose proof (Z.mod_pos_bound z (2 ^ SIZE_BITS) ltac:(lia)). lia.
Qed.

Lemma writer_wf_intro b size nd objs :
  0 <= size <= SIZE_MAX ->
  0 <= nd <= CBOR_MAX_NESTING ->
  length objs = Z.to_nat CBOR_MAX_NESTING ->
  Forall (fun c => 0 <= c <= SIZE_MAX) objs ->
  writer_wf {| buffer := b; buffer_size := size;
               nesting_depth := nd; objects := objs |}.
Proof.
  intros Hs Hnd Hlen Hobjs. unfold writer_wf.
  cbn [buffer_size nesting_depth objects]. auto.
Qed.

Lemma zero_size_t : 0 <= 0 <= SIZE_MAX.
Proof. pose proof (to_size_t_range 0). lia. Qed.

Lemma cbor_init_writer_wf state buffer0 buffer_size0 :
  0 <= buffer_size0 <= SIZE_MAX ->
  length (objects state) = Z.to_nat CBOR_MAX_NESTING ->
  Forall (fun c => 0 <= c <= SIZE_MAX) (objects state) ->
  writer_wf (cbor_init_writer state buffer0 buffer_size0).
Proof.
  pose proof CBOR_MAX_NESTING_range as Hmaxn. unfold max_nesting_fits in Hmaxn.
  intros Hs Hlen Hobj. apply writer_wf_intro; solve [assumption | lia].
Qed.

Lemma increment_wf state : writer_wf state -> writer_wf (increment state).
Proof.
  intros Hwf. pose proof Hwf as (Hs & Hnd & Hlen & Hobj). unfold increment.
  destruct (nesting_depth state =? CBOR_MAX_NESTING); [exact Hwf |].
  apply writer_wf_intro; try assumption.
  - rewrite length_insert. exact Hlen.
  - apply Forall_insert; [exact Hobj | apply to_size_t_range].
Qed.

Lemma poison_wf state :
  writer_wf state -> writer_wf (set_buffer_size (set_buffer state NULL) 0).
Proof.
  intros (Hs & Hnd & Hlen & Hobj).
  apply writer_wf_intro; try assumption. apply zero_size_t.
Qed.

Lemma prepend_object_wf state m object0 n :
  writer_wf state -> writer_wf (fst (prepend_object state m object0 n)).
Proof.
  intros Hwf. pose proof Hwf as (Hs & Hnd & Hlen & Hobj).
  unfold prepend_object.
  destruct (n =? 0); [exact Hwf |].
  destruct (buffer_size state <? n); [apply poison_wf, Hwf |].
  apply writer_wf_intro; try assumption. apply to_size_t_range.
Qed.

Lemma prepend_unsigned_wf state m v :
  writer_wf state ->
  writer_wf (fst (prepend_unsigned state m v)) /\
  nesting_depth (fst (prepend_unsigned state m v)) = nesting_depth state.
Proof.
  intros Hwf. pose proof Hwf as (Hs & Hnd & Hlen & Hobj).
  unfold prepend_unsigned.
  destruct (if v <? CBOR_SIZE_1 then (0, to_uint8 v)
            else if v <=? UINT8_MAX then (1, CBOR_SIZE_1)
            else if v <=? UINT16_MAX then (2, CBOR_SIZE_2)
            else if v <=? UINT32_MAX then (4, CBOR_SIZE_4)
            else (8, CBOR_SIZE_8)) as [len jump].
  destruct (buffer_size state <=? len);
    [split; [apply poison_wf, Hwf | reflexivity] |].
  destruct (prepend_unsigned_loop _ _ _ _) as [p m'].
  split; [| reflexivity].
  apply writer_wf_intro; try assumption. apply to_size_t_range.
Qed.

Lemma cbor_prepend_unsigned_wf state m v :
  writer_wf state -> writer_wf (fst (cbor_prepend_unsigned state m v)).
Proof.
  intros Hwf. unfold cbor_prepend_unsigned.
  pose proof (prepend_unsigned_wf state m v Hwf) as [Hwf' _].
  destruct (prepend_unsigned state m v). apply increment_wf, Hwf'.
Qed.

Lemma prepend_string_wf mt state m string0 n :
  writer_wf state -> writer_wf (fst (prepend_string mt state m string0 n)).
Proof.
  intros Hwf. unfold prepend_string.
  pose proof (prepend_object_wf state m string0 n Hwf) as Hwf1.
  destruct (prepend_object state m string0 n) as [state1 m1].
  pose proof (cbor_prepend_unsigned_wf state1 m1 n Hwf1) as Hwf2.
  destruct (cbor_prepend_unsigned state1 m1 n) as [state2 m2].
  destruct (buffer state2 =? NULL); exact Hwf2.
Qed.

Lemma cbor_open_array_wf state :
  writer_wf state -> writer_wf (snd (cbor_open_array state)).
Proof.
  pose proof CBOR_MAX_NESTING_range as Hmaxn. unfold max_nesting_fits in Hmaxn.
  intros Hwf. pose proof Hwf as (Hs & Hnd & Hlen & Hobj).
  unfold cbor_open_array.
  destruct (Z.eqb_spec (nesting_depth state) 0); [apply poison_wf, Hwf |].
  apply writer_wf_intro; cbn [nesting_depth objects set_nesting_depth];
    try assumption.
  - rewrite to_size_t_id by lia. lia.
  - rewrite length_insert. exact Hlen.
  - apply Forall_insert; [exact Hobj | apply zero_size_t].
Qed.

Lemma wrap_container_wf mt argument state m :
  nesting_depth state <> CBOR_MAX_NESTING ->
  writer_wf state ->
  writer_wf (snd (fst (wrap_container mt argument state m))).
Proof.
  pose proof CBOR_MAX_NESTING_range as Hmaxn. unfold max_nesting_fits in Hmaxn.
  intros Hopen Hwf. unfold wrap_container.
  pose proof (prepend_unsigned_wf state m argument Hwf) as [Hwf1 Hnd1].
  destruct (prepend_unsigned state m argument) as [state1 m1].
  cbn [fst] in Hwf1, Hnd1.
  destruct (buffer state1 =? NULL); [exact Hwf1 |].
  pose proof Hwf1 as (Hs & Hnd & Hlen & Hobj).
  cbn [fst snd nesting_depth set_nesting_depth].
  rewrite to_size_t_id by lia.
  destruct (negb (nesting_depth state1 + 1 =? CBOR_MAX_NESTING)).
  - apply writer_wf_intro; cbn [nesting_depth objects set_nesting_depth];
      try assumption; try lia.
    + rewrite length_insert. exact Hlen.
    + apply Forall_insert; [exact Hobj | apply to_size_t_range].
  - apply writer_wf_intro; try assumption; lia.
Qed.

Lemma prepend_simple_wf state m value :
  writer_wf state -> writer_wf (fst (prepend_simple state m value)).
Proof.
  intros Hwf. pose proof Hwf as (Hs & Hnd & Hlen & Hobj).
  unfold prepend_simple.
  destruct (buffer_size state =? 0).
  - apply writer_wf_intro; assumption.
  - apply increment_wf.
    apply writer_wf_intro; try assumption. apply to_size_t_range.
Qed.

Lemma run_op_wf op state m :
  writer_wf state -> writer_wf (fst (run_op op (state, m))).
Proof.
  intros Hwf. destruct op; cbn [run_op].
  - unfold cbor_prepend_object.
    pose proof (prepend_object_wf state m object0 object_size Hwf) as Hwf'.
    destruct (prepend_object state m object0 object_size).
    apply increment_wf, Hwf'.
  - apply cbor_prepend_unsigned_wf, Hwf.
  - unfold cbor_wrap_data.
    pose proof (cbor_prepend_unsigned_wf state m data_size Hwf) as Hwf'.
    destruct (cbor_prepend_unsigned state m data_size) as [state' m'].
    destruct (buffer state' =? NULL); exact Hwf'.
  - rewrite cbor_prepend_data_eq. apply prepend_string_wf, Hwf.
  - rewrite cbor_prepend_text_eq. apply prepend_string_wf, Hwf.
  - apply cbor_open_array_wf, Hwf.
  - rewrite cbor_wrap_array_eq.
    destruct (Z.eqb_spec (nesting_depth state) CBOR_MAX_NESTING) as [|Hopen];
      [apply poison_wf, Hwf |].
    pose proof (wrap_container_wf CBOR_MAJOR_TYPE_ARRAY
      (object state (nesting_depth state)) state m Hopen Hwf) as Hwf'.
    destruct (wrap_container _ _ state m) as [[r state'] m']. exact Hwf'.
  - apply cbor_open_array_wf, Hwf.
  - rewrite cbor_wrap_map_eq.
    destruct (Z.eqb_spec (nesting_depth state) CBOR_MAX_NESTING) as [|Hopen];
      [apply poison_wf, Hwf |].
    destruct (negb _); cbn [orb]; [apply poison_wf, Hwf |].
    pose proof (wrap_container_wf CBOR_MAJOR_TYPE_MAP
      (Z.shiftr (object state (nesting_depth state)) 1) state m Hopen Hwf)
      as Hwf'.
    destruct (wrap_container _ _ state m) as [[r state'] m']. exact Hwf'.
  - apply prepend_simple_wf, Hwf.
  - apply prepend_simple_wf, Hwf.
  - apply prepend_simple_wf, Hwf.
Qed.

Lemma run_ops_wf ops : forall state m,
  writer_wf state -> writer_wf (fst (run_ops ops (state, m))).
Proof.
  induction ops as [|op ops IH]; intros state m Hwf; [exact Hwf |].
  unfold run_ops. cbn [fold_left].
  pose proof (run_op_wf op state m Hwf) as Hwf'.
  destruct (run_op op (state, m)) as [state' m']. apply IH, Hwf'.
Qed.

(** ** Counting the items of a container *)

Lemma item_size_pos op sz : item_size op = Some sz -> 1 <= sz.
Proof.
  destruct op; cbn [item_size]; try discriminate;
    try (intros [= <-]; lia).
  - destruct (Z.ltb_spec 0 object_size); cbn [andb]; [| discriminate].
    destruct (_ <=? _); [intros [= <-]; lia | discriminate].
  - destruct (_ && _); [intros [= <-] | discriminate].
    pose proof (CBOR_UNSIGNED_SIZE_range value). lia.
  - destruct (Z.leb_spec 0 data_size); cbn [andb]; [| discriminate].
    destruct (_ <=? _); [intros [= <-] | discriminate].
    pose proof (CBOR_UNSIGNED_SIZE_range data_size).
    unfold CBOR_BYTE_STRING_SIZE. lia.
  - destruct (Z.leb_spec 0 text_size); cbn [andb]; [| discriminate].
    destruct (_ <=? _); [intros [= <-] | discriminate].
    pose proof (CBOR_UNSIGNED_SIZE_range text_size).
    unfold CBOR_BYTE_STRING_SIZE. lia.
Qed.

Lemma items_size_length ops : forall total,
  items_size ops = Some total -> Z.of_nat (length ops) <= total.
Proof.
  induction ops as [|op ops IH]; intros total; cbn [items_size length].
  - intros [= <-]. lia.
  - destruct (item_size op) as [sz|] eqn:Hsz; [| discriminate].
    destruct (items_size ops) as [rest|]; [| discriminate].
    intros [= <-]. pose proof (item_size_pos op sz Hsz).
    specialize (IH rest eq_refl). lia.
Qed.

Lemma in_container_increment base nd c free state :
  0 <= nd < CBOR_MAX_NESTING -> 0 <= c < SIZE_MAX ->
  in_container base nd c free state ->
  in_container base nd (c + 1) free (increment state).
Proof.
  intros Hnd Hc (Hb & Hs & Hn & Hlen & Hobj).
  unfold in_container, increment. rewrite Hn.
  destruct (Z.eqb_spec nd CBOR_MAX_NESTING); [lia |].
  unfold set_object, object in *.
  cbn [buffer buffer_size nesting_depth objects].
  rewrite length_insert, list_lookup_total_insert_eq by lia.
  rewrite Hobj, to_size_t_id by lia. auto.
Qed.

Lemma in_container_moved base nd c free free' state :
  in_container base nd c free state ->
  in_container base nd c free'
    {| buffer := buffer state - (free - free');
       buffer_size := buffer_size state - (free - free');
       nesting_depth := nesting_depth state;
       objects := objects state |}.
Proof.
  intros (Hb & Hs & Hn & Hlen & Hobj). unfold in_container, object in *.
  cbn [buffer buffer_size nesting_depth objects].
  repeat split; try assumption; lia.
Qed.

(** One item-producing call in an open container: the cursor moves down by
    the size of the item and the counter goes up by one. *)
Lemma run_item op sz base nd c free state m :
  item_size op = Some sz ->
  NULL < base ->
  0 <= nd < CBOR_MAX_NESTING ->
  0 <= c < SIZE_MAX ->
  sz <= free <= SIZE_MAX ->
  in_container base nd c free state ->
  in_container base nd (c + 1) (free - sz) (fst (run_op op (state, m))).
Proof.
  intros Hsz Hbase Hnd Hc Hfree Hin.
  pose proof (item_size_pos op sz Hsz) as Hpos.
  pose proof Hin as (Hb & Hs & Hn & Hlen & Hobj).
  pose proof (in_container_moved base nd c free (free - sz) state Hin) as Hmoved.
  replace (free - (free - sz)) with sz in Hmoved by lia.
  assert (Hstring : forall mt string0 n,
    In mt header_major_types ->
    (if (0 <=? n) && (n <=? SIZE_MAX) then Some (CBOR_BYTE_STRING_SIZE n)
     else None) = Some sz ->
    in_container base nd (c + 1) (free - sz)
      (fst (prepend_string mt state m string0 n))).
  { intros mt string0 n Hmt Hsome.
    destruct (Z.leb_spec 0 n); cbn [andb] in Hsome; [| discriminate].
    destruct (Z.leb_spec n SIZE_MAX); [| discriminate].
    injection Hsome as <-.
    destruct (prepend_string_ok mt state m string0 n) as (m' & Heq & _);
      [exact Hmt | lia | lia | lia |].
    rewrite Heq. cbn [fst]. apply in_container_increment; assumption. }
  assert (Hsimple : forall value, sz = 1 ->
    in_container base nd (c + 1) (free - sz)
      (fst (prepend_simple state m value))).
  { intros value ->. unfold prepend_simple.
    destruct (Z.eqb_spec (buffer_size state) 0); [lia |].
    unfold set_buffer, set_buffer_size. cbn [fst buffer buffer_size
      nesting_depth objects].
    rewrite to_size_t_id by lia.
    apply in_container_increment; assumption. }
  destruct op; cbn [item_size] in Hsz; try discriminate; cbn [run_op].
  - destruct (Z.ltb_spec 0 object_size); cbn [andb] in Hsz; [| discriminate].
    destruct (Z.leb_spec object_size SIZE_MAX); [| discriminate].
    injection Hsz as <-.
    destruct (prepend_object_ok state m object0 object_size)
      as (m' & Heq & _); [lia | lia |].
    unfold cbor_prepend_object. rewrite Heq. cbn [fst].
    apply in_container_increment; assumption.
  - destruct (Z.leb_spec 0 value); cbn [andb] in Hsz; [| discriminate].
    destruct (Z.leb_spec value UINT64_MAX); [| discriminate].
    injection Hsz as <-.
    destruct (prepend_unsigned_ok state m value) as (m' & Heq & _);
      [lia | lia |].
    unfold cbor_prepend_unsigned. rewrite Heq. cbn [fst].
    apply in_container_increment; assumption.
  - rewrite cbor_prepend_data_eq. apply Hstring; [cbn; tauto | exact Hsz].
  - rewrite cbor_prepend_text_eq. apply Hstring; [cbn; tauto | exact Hsz].
  - apply Hsimple. congruence.
  - apply Hsimple. congruence.
  - apply Hsimple. congruence.
Qed.

Lemma run_items ops : forall total base nd c free state m,
  items_size ops = Some total ->
  NULL < base ->
  0 <= nd < CBOR_MAX_NESTING ->
  0 <= c -> c + Z.of_nat (length ops) <= SIZE_MAX ->
  total <= free <= SIZE_MAX ->
  in_container base nd c free state ->
  in_container base nd (c + Z.of_nat (length ops)) (free - total)
    (fst (run_ops ops (state, m))).
Proof.
  induction ops as [|op ops IH];
    intros total base nd c free state m Hsize Hbase Hnd Hc Hbound Hfree Hin;
    cbn [items_size length] in *.
  - injection Hsize as <-. cbn [run_ops fold_left fst].
    change (Z.of_nat 0) with 0. rewrite Z.add_0_r, Z.sub_0_r. exact Hin.
  - destruct (item_size op) as [sz|] eqn:Hsz; [| discriminate].
    destruct (items_size ops) as [rest|] eqn:Hrest; [| discriminate].
    injection Hsize as <-.
    pose proof (items_size_length ops rest Hrest) as Hlen.
    pose proof (item_size_pos op sz Hsz) as Hpos.
    pose proof (run_item op sz base nd c free state m Hsz Hbase Hnd
      ltac:(lia) ltac:(lia) Hin) as Hstep.
    unfold run_ops. cbn [fold_left].
    destruct (run_op op (state, m)) as [state1 m1]. cbn [fst] in Hstep.
    replace (c + Z.of_nat (S (length ops)))
      with ((c + 1) + Z.of_nat (length ops)) by lia.
    replace (free - (sz + rest)) with ((free - sz) - rest) by lia.
    apply (IH rest base nd (c + 1) (free - sz) state1 m1);
      solve [reflexivity | assumption | lia].
Qed.

Lemma open_container state buffer0 buffer_size0 :
  length (objects state) = Z.to_nat CBOR_MAX_NESTING ->
  in_container buffer0 (CBOR_MAX_NESTING - 1) 0 buffer_size0
    (snd (cbor_open_array (cbor_init_writer state buffer0 buffer_size0))).
Proof.
  pose proof CBOR_MAX_NESTING_range as Hmaxn. unfold max_nesting_fits in Hmaxn.
  intros Hlen. unfold cbor_open_array, cbor_init_writer.
  cbn [nesting_depth set_nesting_depth].
  destruct (Z.eqb_spec CBOR_MAX_NESTING 0); [lia |].
  rewrite to_size_t_id by lia.
  unfold in_container, object, set_object, set_nesting_depth, set_buffer_size,
    set_buffer.
  cbn [snd buffer buffer_size nesting_depth objects].
  rewrite length_insert, list_lookup_total_insert_eq by lia. auto.
Qed.

Lemma close_and_read mt argument base c free size state m rstate :
  mt = CBOR_MAJOR_TYPE_ARRAY \/ mt = CBOR_MAJOR_TYPE_MAP ->
  in_container base (CBOR_MAX_NESTING - 1) c free state ->
  NULL < base ->
  0 <= argument < SIZE_MAX ->
  CBOR_UNSIGNED_SIZE argument <= free ->
  free <= size <= SIZE_MAX ->
  let '(_, state', m') := wrap_container mt argument state m in
  let cbor_start := fst (cbor_stop_writer state') in
  cbor_start <> NULL /\
  fst (if mt =? CBOR_MAJOR_TYPE_ARRAY
       then cbor_read_array (reader_on rstate base size cbor_start) m'
       else cbor_read_map (reader_on rstate base size cbor_start) m')
  = argument.
Proof.
  pose proof CBOR_MAX_NESTING_range as Hmaxn. unfold max_nesting_fits in Hmaxn.
  intros Hmt (Hb & Hs & Hn & _) Hbase Harg Hroom Hsize.
  pose proof SIZE_MAX_bounds as Hmax.
  pose proof (CBOR_UNSIGNED_SIZE_range argument) as Hus.
  destruct (wrap_container_ok mt argument state m)
    as (state' & m' & Heq & Hb' & Hs' & Hn' & Hhdr & _);
    [destruct Hmt as [-> | ->]; cbn; tauto | lia | lia | lia | lia |].
  rewrite Heq. cbv zeta. unfold cbor_stop_writer. cbn [fst].
  replace (nesting_depth state' =? CBOR_MAX_NESTING) with true
    by (symmetry; apply Z.eqb_eq; lia).
  split; [unfold NULL in *; lia |].
  rewrite (read_container_count mt m' (buffer state') argument);
    [reflexivity | exact Hmt | lia | exact Hhdr | reflexivity |].
  unfold reader_on. cbn. lia.
Qed.

(** C2. Container item count.  A session [cbor_open_array], [k]
    item-producing prepend calls (each prepends an item of at least one
    byte, with arguments in the range of their types), [cbor_wrap_array]
    on a buffer that has room for the items and the array header succeeds,
    and [cbor_read_array] on its output returns [k].  A session
    [cbor_open_map], [2 * k] such calls, [cbor_wrap_map] succeeds as well,
    and [cbor_read_map] on its output returns [k], the number of pairs. *)
Theorem container_item_count state rstate m buffer0 buffer_size0
    items items_total pairs pairs_total (k : nat) :
  length (objects state) = Z.to_nat CBOR_MAX_NESTING ->
  NULL < buffer0 ->
  buffer_size0 <= SIZE_MAX ->
  items_size items = Some items_total ->
  CBOR_UNSIGNED_SIZE (Z.of_nat (length items)) + items_total <= buffer_size0 ->
  items_size pairs = Some pairs_total ->
  length pairs = (2 * k)%nat ->
  CBOR_UNSIGNED_SIZE (Z.of_nat k) + pairs_total <= buffer_size0 ->
  (let '(cbor_start, m') :=
     array_session state m buffer0 buffer_size0 items in
   cbor_start <> NULL /\
   fst (cbor_read_array (reader_on rstate buffer0 buffer_size0 cbor_start) m')
   = Z.of_nat (length items)) /\
  (let '(cbor_start, m') :=
     map_session state m buffer0 buffer_size0 pairs in
   cbor_start <> NULL /\
   fst (cbor_read_map (reader_on rstate buffer0 buffer_size0 cbor_start) m')
   = Z.of_nat k).
Proof.
  pose proof CBOR_MAX_NESTING_range as Hmaxn. unfold max_nesting_fits in Hmaxn.
  intros Hlen Hbase Hsize Hitems Hroom_a Hpairs Hk Hroom_m.
  pose proof (open_container state buffer0 buffer_size0 Hlen) as Hopen.
  pose proof (items_size_length items items_total Hitems) as Hlen_a.
  pose proof (items_size_length pairs pairs_total Hpairs) as Hlen_m.
  pose proof (CBOR_UNSIGNED_SIZE_range (Z.of_nat (length items))) as Hus_a.
  pose proof (CBOR_UNSIGNED_SIZE_range (Z.of_nat k)) as Hus_m.
  split.
  - unfold array_session.
    destruct (cbor_open_array (cbor_init_writer state buffer0 buffer_size0))
      as [r state1]. cbn [snd] in Hopen.
    pose proof (run_items items items_total buffer0 (CBOR_MAX_NESTING - 1) 0
      buffer_size0 state1 m Hitems Hbase ltac:(lia) ltac:(lia) ltac:(lia)
      ltac:(lia) Hopen) as Hin.
    destruct (run_ops items (state1, m)) as [state2 m2]. cbn [fst] in Hin.
    rewrite Z.add_0_l in Hin.
    pose proof Hin as (_ & _ & Hn & _ & Hc).
    rewrite cbor_wrap_array_eq, Hn, Hc.
    destruct (Z.eqb_spec (CBOR_MAX_NESTING - 1) CBOR_MAX_NESTING); [lia |].
    pose proof (close_and_read CBOR_MAJOR_TYPE_ARRAY
      (Z.of_nat (length items)) buffer0 _ _ buffer_size0 state2 m2 rstate
      (or_introl eq_refl) Hin Hbase ltac:(lia) ltac:(lia) ltac:(lia))
      as Hclose.
    destruct (wrap_container _ _ state2 m2) as [[r' state3] m3].
    exact Hclose.
  - unfold map_session, cbor_open_map.
    destruct (cbor_open_array (cbor_init_writer state buffer0 buffer_size0))
      as [r state1]. cbn [snd] in Hopen.
    pose proof (run_items pairs pairs_total buffer0 (CBOR_MAX_NESTING - 1) 0
      buffer_size0 state1 m Hpairs Hbase ltac:(lia) ltac:(lia) ltac:(lia)
      ltac:(lia) Hopen) as Hin.
    destruct (run_ops pairs (state1, m)) as [state2 m2]. cbn [fst] in Hin.
    rewrite Z.add_0_l in Hin.
    pose proof Hin as (_ & _ & Hn & _ & Hc).
    rewrite cbor_wrap_map_eq, Hn, Hc, land_1_odd.
    destruct (Z.eqb_spec (CBOR_MAX_NESTING - 1) CBOR_MAX_NESTING); [lia |].
    replace (Z.of_nat (length pairs)) with (2 * Z.of_nat k) in * by lia.
    replace (Z.odd (2 * Z.of_nat k)) with false
      by (symmetry; rewrite Z.odd_mul; reflexivity).
    cbn [orb negb Z.eqb].
    replace (Z.shiftr (2 * Z.of_nat k) 1) with (Z.of_nat k)
      by (rewrite Z.shiftr_div_pow2 by lia; symmetry;
          rewrite Z.mul_comm; apply Z.div_mul; discriminate).
    pose proof (close_and_read CBOR_MAJOR_TYPE_MAP
      (Z.of_nat k) buffer0 _ _ buffer_size0 state2 m2 rstate
      (or_intror eq_refl) Hin Hbase ltac:(lia) ltac:(lia) ltac:(lia))
      as Hclose.
    destruct (wrap_container _ _ state2 m2) as [[r' state3] m3].
    exact Hclose.
Qed.

(** ** The writer stays inside its buffer *)

Lemma same_outside_refl lo hi m : same_outside lo hi m m.
Proof. intros a _. reflexivity. Qed.

Lemma same_outside_trans lo hi lo' hi' m1 m2 m3 :
  lo <= lo' -> hi' <= hi ->
  same_outside lo hi m1 m2 -> same_outside lo' hi' m2 m3 ->
  same_outside lo hi m1 m3.
Proof.
  intros Hlo Hhi H12 H23 a Ha.
  rewrite H23 by lia. apply H12. exact Ha.
Qed.

Lemma writer_on_poisoned base size state :
  poisoned state -> writer_on base size state.
Proof. intros Hp. left. exact Hp. Qed.

Lemma writer_on_increment base size state :
  writer_on base size state -> writer_on base size (increment state).
Proof.
  destruct (increment_fields state) as (Hb & Hs & _).
  intros [[Hpb Hps] | Hlive].
  - left. split; congruence.
  - right. rewrite Hb, Hs. exact Hlive.
Qed.

(** [prepend_unsigned] either poisons and writes nothing, or it takes its
    bytes from the free space just below the cursor. *)
Lemma prepend_unsigned_frame base size state m v :
  0 <= v <= UINT64_MAX ->
  0 <= size <= SIZE_MAX ->
  writer_on base size state ->
  (poisoned (fst (prepend_unsigned state m v)) /\
   snd (prepend_unsigned state m v) = m) \/
  (buffer (fst (prepend_unsigned state m v))
   = base + buffer_size (fst (prepend_unsigned state m v)) /\
   0 <= buffer_size (fst (prepend_unsigned state m v)) < buffer_size state /\
   buffer_size state <= size /\
   same_outside base (base + buffer_size state) m
     (snd (prepend_unsigned state m v))).
Proof.
  intros Hv Hsize [Hp | (Hb & Hs)].
  - left. rewrite prepend_unsigned_poisoned by exact Hp.
    split; [apply poisoned_set | reflexivity].
  - pose proof (CBOR_UNSIGNED_SIZE_range v) as Hus.
    destruct (Z.lt_ge_cases (buffer_size state) (CBOR_UNSIGNED_SIZE v)).
    + left. rewrite prepend_unsigned_poison by lia.
      split; [apply poisoned_set | reflexivity].
    + right.
      destruct (prepend_unsigned_ok state m v Hv ltac:(lia))
        as (m' & Heq & Hout & _).
      rewrite Heq. cbn [fst snd buffer buffer_size].
      split; [lia |]. split; [lia |]. split; [lia |].
      intros a Ha. unfold load8. rewrite Hout by lia. reflexivity.
Qed.

Lemma prepend_unsigned_fields state m v :
  nesting_depth (fst (prepend_unsigned state m v)) = nesting_depth state /\
  objects (fst (prepend_unsigned state m v)) = objects state.
Proof.
  unfold prepend_unsigned.
  destruct (if v <? CBOR_SIZE_1 then (0, to_uint8 v)
            else if v <=? UINT8_MAX then (1, CBOR_SIZE_1)
            else if v <=? UINT16_MAX then (2, CBOR_SIZE_2)
            else if v <=? UINT32_MAX then (4, CBOR_SIZE_4)
            else (8, CBOR_SIZE_8)) as [len jump].
  destruct (buffer_size state <=? len); [split; reflexivity |].
  destruct (prepend_unsigned_loop _ _ _ _) as [p m']. split; reflexivity.
Qed.

(** The same for a header with a major type: [prepend_unsigned], then
    [*state->buffer |= major_type] unless the writer is poisoned. *)
Lemma prepend_header_frame base size state m v mt :
  NULL < base ->
  0 <= v <= UINT64_MAX ->
  0 <= size <= SIZE_MAX ->
  writer_on base size state ->
  let '(state1, m1) := prepend_unsigned state m v in
  let m2 := if buffer state1 =? NULL then m1
            else or_major_type state1 m1 mt in
  writer_on base size state1 /\
  buffer_size state1 <= buffer_size state /\
  same_outside base (base + buffer_size state) m m2.
Proof.
  intros Hbase Hv Hsize Hon.
  pose proof (prepend_unsigned_frame base size state m v Hv Hsize Hon)
    as Hframe.
  destruct (prepend_unsigned state m v) as [state1 m1]. cbn [fst snd] in *.
  destruct Hframe as [[Hp ->] | (Hb & Hs & Hle & Hout)].
  - pose proof Hp as [Hpb Hps]. rewrite Hpb. cbn [Z.eqb NULL].
    split; [left; exact Hp |]. split; [| apply same_outside_refl].
    destruct Hon as [[_ Hz] | (_ & Hz)]; lia.
  - destruct (Z.eqb_spec (buffer state1) NULL); [unfold NULL in *; lia |].
    split; [right; split; [exact Hb | lia] |]. split; [lia |].
    intros a Ha. unfold or_major_type.
    rewrite load8_store8_ne by lia. apply Hout. exact Ha.
Qed.

Lemma prepend_object_frame base size state m object0 n :
  0 <= n ->
  0 <= size <= SIZE_MAX ->
  writer_on base size state ->
  writer_on base size (fst (prepend_object state m object0 n)) /\
  buffer_size (fst (prepend_object state m object0 n)) <= buffer_size state /\
  nesting_depth (fst (prepend_object state m object0 n))
  = nesting_depth state /\
  objects (fst (prepend_object state m object0 n)) = objects state /\
  same_outside base (base + buffer_size state) m
    (snd (prepend_object state m object0 n)).
Proof.
  intros Hn Hsize Hon.
  assert (Hbs : 0 <= buffer_size state <= size)
    by (destruct Hon as [[_ Hz] | (_ & Hz)]; lia).
  destruct (Z.lt_ge_cases (buffer_size state) n) as [Hlt|Hge].
  - unfold prepend_object.
    destruct (Z.eqb_spec n 0); [lia |].
    destruct (Z.ltb_spec (buffer_size state) n); [| lia].
    cbn [fst snd buffer_size set_buffer_size nesting_depth objects set_buffer].
    split; [left; apply poisoned_set |]. split; [lia |].
    split; [reflexivity |]. split; [reflexivity | apply same_outside_refl].
  - destruct (prepend_object_ok state m object0 n ltac:(lia) ltac:(lia))
      as (m' & Heq & Hout & _).
    rewrite Heq. cbn [fst snd buffer buffer_size nesting_depth objects].
    split.
    { destruct Hon as [[Hpb Hps] | (Hb & _)].
      - left. assert (n = 0) as -> by lia.
        split; cbn [buffer buffer_size]; lia.
      - right. cbn [buffer buffer_size]. lia. }
    split; [lia |]. split; [reflexivity |]. split; [reflexivity |].
    intros a Ha.
    destruct Hon as [[Hpb Hps] | (Hb & _)].
    + assert (n = 0) as -> by lia.
      apply Hout. rewrite Hpb. unfold NULL. lia.
    + apply Hout. lia.
Qed.

Lemma cbor_prepend_unsigned_frame base size state m v :
  0 <= v <= UINT64_MAX ->
  0 <= size <= SIZE_MAX ->
  writer_on base size state ->
  writer_on base size (fst (cbor_prepend_unsigned state m v)) /\
  buffer_size (fst (cbor_prepend_unsigned state m v)) <= buffer_size state /\
  same_outside base (base + buffer_size state) m
    (snd (cbor_prepend_unsigned state m v)).
Proof.
  intros Hv Hsize Hon.
  assert (Hbs : 0 <= buffer_size state)
    by (destruct Hon as [[_ Hz] | (_ & Hz)]; lia).
  pose proof (prepend_unsigned_frame base size state m v Hv Hsize Hon)
    as Hframe.
  unfold cbor_prepend_unsigned.
  destruct (prepend_unsigned state m v) as [state1 m1]. cbn [fst snd] in *.
  destruct (increment_fields state1) as (Hb' & Hs' & _). rewrite Hs'.
  destruct Hframe as [[Hp ->] | (Hb & Hs & Hle & Hout)].
  - split; [apply writer_on_increment; left; exact Hp |].
    destruct Hp as [_ ->]. split; [lia | apply same_outside_refl].
  - split; [apply writer_on_increment; right; split; [exact Hb | lia] |].
    split; [lia | exact Hout].
Qed.

Lemma cbor_header_frame base size state m v mt :
  NULL < base ->
  0 <= v <= UINT64_MAX ->
  0 <= size <= SIZE_MAX ->
  writer_on base size state ->
  let '(state1, m1) := cbor_prepend_unsigned state m v in
  let m2 := if buffer state1 =? NULL then m1
            else or_major_type state1 m1 mt in
  writer_on base size state1 /\
  buffer_size state1 <= buffer_size state /\
  same_outside base (base + buffer_size state) m m2.
Proof.
  intros Hbase Hv Hsize Hon.
  pose proof (prepend_header_frame base size state m v mt Hbase Hv Hsize Hon)
    as Hframe.
  unfold cbor_prepend_unsigned.
  destruct (prepend_unsigned state m v) as [state1 m1].
  destruct (increment_fields state1) as (Hb' & Hs' & _).
  unfold or_major_type in *. rewrite Hb', Hs'.
  destruct Hframe as (Hon1 & Hle & Hout).
  split; [apply writer_on_increment, Hon1 |]. split; assumption.
Qed.

Lemma prepend_string_frame base size mt state m string0 n :
  NULL < base ->
  0 <= n <= SIZE_MAX ->
  0 <= size <= SIZE_MAX ->
  writer_on base size state ->
  writer_on base size (fst (prepend_string mt state m string0 n)) /\
  buffer_size (fst (prepend_string mt state m string0 n))
  <= buffer_size state /\
  same_outside base (base + buffer_size state) m
    (snd (prepend_string mt state m string0 n)).
Proof.
  intros Hbase Hn Hsize Hon.
  pose proof SIZE_MAX_bounds as Hmax.
  pose proof (prepend_object_frame base size state m string0 n
    ltac:(lia) Hsize Hon) as (Hon1 & Hle1 & _ & _ & Hout1).
  unfold prepend_string.
  destruct (prepend_object state m string0 n) as [state1 m1].
  cbn [fst snd] in *.
  pose proof (cbor_header_frame base size state1 m1 n mt Hbase ltac:(lia)
    Hsize Hon1) as Hframe.
  destruct (cbor_prepend_unsigned state1 m1 n) as [state2 m2].
  destruct Hframe as (Hon2 & Hle2 & Hout2).
  assert (Hbs1 : 0 <= buffer_size state1)
    by (destruct Hon1 as [[_ Hz] | (_ & Hz)]; lia).
  assert (Hgoal : forall m3,
    same_outside base (base + buffer_size state1) m1 m3 ->
    same_outside base (base + buffer_size state) m m3).
  { intros m3 H3.
    apply (same_outside_trans _ _ base (base + buffer_size state1) m m1 m3);
      solve [assumption | lia]. }
  destruct (buffer state2 =? NULL); cbn [fst snd];
    (split; [exact Hon2 |]; split; [lia | apply Hgoal, Hout2]).
Qed.

Lemma cbor_open_array_frame base size state :
  writer_on base size state ->
  writer_on base size (snd (cbor_open_array state)) /\
  buffer_size (snd (cbor_open_array state)) <= buffer_size state.
Proof.
  intros Hon.
  assert (Hbs : 0 <= buffer_size state)
    by (destruct Hon as [[_ Hz] | (_ & Hz)]; lia).
  unfold cbor_open_array.
  destruct (nesting_depth state =? 0); cbn [snd].
  - split; [left; apply poisoned_set | cbn; lia].
  - split; [exact Hon | cbn; lia].
Qed.

Lemma wrap_container_frame base size mt argument state m :
  NULL < base ->
  0 <= argument <= UINT64_MAX ->
  0 <= size <= SIZE_MAX ->
  writer_on base size state ->
  writer_on base size (snd (fst (wrap_container mt argument state m))) /\
  buffer_size (snd (fst (wrap_container mt argument state m)))
  <= buffer_size state /\
  same_outside base (base + buffer_size state) m
    (snd (wrap_container mt argument state m)).
Proof.
  intros Hbase Harg Hsize Hon.
  pose proof (prepend_header_frame base size state m argument mt Hbase Harg
    Hsize Hon) as Hframe.
  unfold wrap_container.
  destruct (prepend_unsigned state m argument) as [state1 m1].
  destruct Hframe as (Hon1 & Hle & Hout).
  destruct (buffer state1 =? NULL); cbn [fst snd].
  - auto.
  - split; [| split; [| exact Hout]].
    + destruct (negb _); exact Hon1.
    + destruct (negb _); exact Hle.
Qed.

Lemma prepend_simple_frame base size state m value :
  0 <= size <= SIZE_MAX ->
  writer_on base size state ->
  writer_on base size (fst (prepend_simple state m value)) /\
  buffer_size (fst (prepend_simple state m value)) <= buffer_size state /\
  same_outside base (base + buffer_size state) m
    (snd (prepend_simple state m value)).
Proof.
  intros Hsize Hon. unfold prepend_simple.
  destruct (Z.eqb_spec (buffer_size state) 0) as [Hz|Hnz]; cbn [fst snd].
  - split; [left; split; [reflexivity | exact Hz] |].
    split; [cbn; lia | apply same_outside_refl].
  - destruct Hon as [[_ Hz] | (Hb & Hs)]; [contradiction |].
    match goal with |- context [increment ?st] =>
      destruct (increment_fields st) as (Hb' & Hs' & _);
      split; [apply writer_on_increment; right |]
    end.
    + cbn [buffer buffer_size set_buffer set_buffer_size].
      rewrite to_size_t_id by lia. lia.
    + rewrite Hs'. cbn [buffer buffer_size set_buffer set_buffer_size].
      rewrite to_size_t_id by lia. split; [lia |].
      intros a Ha. apply load8_store8_ne. lia.
Qed.

Lemma object_range state i :
  writer_wf state -> 0 <= i < CBOR_MAX_NESTING ->
  0 <= object state i <= SIZE_MAX.
Proof.
  intros (_ & _ & Hlen & Hobj) Hi. unfold object.
  rewrite Forall_forall in Hobj. apply Hobj.
  apply list_elem_of_lookup_total_2. lia.
Qed.

(** One operation of the writer, on a well-formed state that is poisoned or
    in good standing: the state stays so, the free space does not grow, and
    memory changes at most in the free space below the cursor. *)
Lemma run_op_frame op base size state m :
  NULL < base ->
  0 <= size <= SIZE_MAX ->
  writer_wf state ->
  writer_on base size state ->
  op_typed op = true ->
  writer_on base size (fst (run_op op (state, m))) /\
  buffer_size (fst (run_op op (state, m))) <= buffer_size state /\
  same_outside base (base + buffer_size state) m
    (snd (run_op op (state, m))).
Proof.
  intros Hbase Hsize Hwf Hon Htyped.
  pose proof SIZE_MAX_bounds as Hmax.
  assert (Hbs : 0 <= buffer_size state)
    by (destruct Hon as [[_ Hz] | (_ & Hz)]; lia).
  destruct op; cbn [run_op op_typed] in *;
    try (apply andb_true_iff in Htyped as [Hlo%Z.leb_le Hhi%Z.leb_le]).
  - pose proof (prepend_object_frame base size state m object0 object_size
      Hlo Hsize Hon) as (Hon1 & Hle & _ & _ & Hout).
    unfold cbor_prepend_object.
    destruct (prepend_object state m object0 object_size) as [state1 m1].
    destruct (increment_fields state1) as (_ & Hs' & _).
    cbn [fst snd] in *. rewrite Hs'.
    split; [apply writer_on_increment, Hon1 | split; assumption].
  - apply cbor_prepend_unsigned_frame; solve [assumption | lia].
  - pose proof (cbor_header_frame base size state m data_size
      CBOR_MAJOR_TYPE_BYTE_STRING Hbase ltac:(lia) Hsize Hon) as Hframe.
    unfold cbor_wrap_data.
    destruct (cbor_prepend_unsigned state m data_size) as [state1 m1].
    destruct Hframe as (Hon1 & Hle & Hout).
    destruct (buffer state1 =? NULL); cbn [fst snd]; auto.
  - rewrite cbor_prepend_data_eq.
    apply prepend_string_frame; solve [assumption | lia].
  - rewrite cbor_prepend_text_eq.
    apply prepend_string_frame; solve [assumption | lia].
  - destruct (cbor_open_array_frame base size state Hon) as [Hon1 Hle].
    split; [exact Hon1 |]. split; [exact Hle | apply same_outside_refl].
  - rewrite cbor_wrap_array_eq.
    destruct (Z.eqb_spec (nesting_depth state) CBOR_MAX_NESTING) as [|Hopen].
    + cbn [fst snd]. split; [left; apply poisoned_set |].
      split; [cbn; lia | apply same_outside_refl].
    + pose proof Hwf as (_ & Hnd & _).
      pose proof (object_range state (nesting_depth state) Hwf ltac:(lia)).
      pose proof (wrap_container_frame base size CBOR_MAJOR_TYPE_ARRAY
        (object state (nesting_depth state)) state m Hbase ltac:(lia)
        Hsize Hon) as Hframe.
      destruct (wrap_container _ _ state m) as [[r state1] m1].
      exact Hframe.
  - destruct (cbor_open_array_frame base size state Hon) as [Hon1 Hle].
    split; [exact Hon1 |]. split; [exact Hle | apply same_outside_refl].
  - rewrite cbor_wrap_map_eq.
    destruct (Z.eqb_spec (nesting_depth state) CBOR_MAX_NESTING) as [|Hopen].
    + cbn [orb fst snd]. split; [left; apply poisoned_set |].
      split; [cbn; lia | apply same_outside_refl].
    + destruct (negb _); cbn [orb].
      * cbn [fst snd]. split; [left; apply poisoned_set |].
        split; [cbn; lia | apply same_outside_refl].
      * pose proof Hwf as (_ & Hnd & _).
        pose proof (object_range state (nesting_depth state) Hwf ltac:(lia))
          as Hc.
        assert (Harg : 0 <= Z.shiftr (object state (nesting_depth state)) 1
                       <= UINT64_MAX).
        { rewrite Z.shiftr_div_pow2 by lia. change (2 ^ 1) with 2.
          split; [apply Z.div_pos; lia |].
          assert (object state (nesting_depth state) / 2
                  <= object state (nesting_depth state))
            by (apply Z.div_le_upper_bound; lia).
          lia. }
        pose proof (wrap_container_frame base size CBOR_MAJOR_TYPE_MAP
          _ state m Hbase Harg Hsize Hon) as Hframe.
        destruct (wrap_container _ _ state m) as [[r state1] m1].
        exact Hframe.
  - apply prepend_simple_frame; assumption.
  - apply prepend_simple_frame; assumption.
  - apply prepend_simple_frame; assumption.
Qed.

Lemma run_ops_cons op ops w :
  run_ops (op :: ops) w = run_ops ops (run_op op w).
Proof. reflexivity. Qed.

Lemma run_ops_app ops1 ops2 w :
  run_ops (ops1 ++ ops2) w = run_ops ops2 (run_ops ops1 w).
Proof. apply fold_left_app. Qed.

Lemma run_ops_frame ops : forall base size state m,
  NULL < base ->
  0 <= size <= SIZE_MAX ->
  writer_wf state ->
  writer_on base size state ->
  forallb op_typed ops = true ->
  writer_wf (fst (run_ops ops (state, m))) /\
  writer_on base size (fst (run_ops ops (state, m))) /\
  buffer_size (fst (run_ops ops (state, m))) <= buffer_size state /\
  same_outside base (base + buffer_size state) m
    (snd (run_ops ops (state, m))).
Proof.
  induction ops as [|op ops IH];
    intros base size state m Hbase Hsize Hwf Hon Htyped.
  - cbn. split; [exact Hwf |]. split; [exact Hon |].
    split; [lia | apply same_outside_refl].
  - cbn [forallb] in Htyped. apply andb_true_iff in Htyped as [Hop Hops].
    pose proof (run_op_wf op state m Hwf) as Hwf1.
    pose proof (run_op_frame op base size state m Hbase Hsize Hwf Hon Hop)
      as (Hon1 & Hle1 & Hout1).
    rewrite run_ops_cons.
    destruct (run_op op (state, m)) as [state1 m1]. cbn [fst snd] in *.
    destruct (IH base size state1 m1 Hbase Hsize Hwf1 Hon1 Hops)
      as (Hwf2 & Hon2 & Hle2 & Hout2).
    split; [exact Hwf2 |]. split; [exact Hon2 |]. split; [lia |].
    apply (same_outside_trans _ _ base (base + buffer_size state1) m m1);
      solve [assumption | lia].
Qed.

(** X1. Memory safety of the writer.  From a well-formed writer in good
    standing on a buffer that starts at [base], any sequence of operations
    (arguments in the range of their types) changes memory only in the
    free space [[base, cursor)]: nothing outside the buffer is written,
    and the output already emitted at and above the cursor is never
    modified.  The free space never grows. *)
Theorem writer_writes_only_free_space base state m ops :
  NULL < base ->
  writer_wf state ->
  buffer state = base + buffer_size state ->
  forallb op_typed ops = true ->
  let '(state', m') := run_ops ops (state, m) in
  (forall a, a < base \/ buffer state <= a -> load8 m' a = load8 m a) /\
  buffer_size state' <= buffer_size state.
Proof.
  intros Hbase Hwf Hb Htyped.
  pose proof Hwf as (Hs & _).
  destruct (run_ops_frame ops base (buffer_size state) state m Hbase Hs Hwf)
    as (_ & _ & Hle & Hout); [right; split; [exact Hb | lia] | exact Htyped |].
  destruct (run_ops ops (state, m)) as [state' m']. cbn [fst snd] in *.
  split; [| exact Hle].
  intros a Ha. apply Hout. lia.
Qed.

(** X2. Invariant of writer sessions.  After [cbor_init_writer] on a
    buffer of [buffer_size0] bytes at [buffer0] and any sequence of
    operations, the state is well formed (the depth is between 0 and
    [CBOR_MAX_NESTING], so [objects] is only indexed inside its bounds),
    and the writer is either poisoned or its cursor lies in the buffer,
    [buffer_size] bytes above its base; [cbor_stop_writer] returns [NULL]
    or an address between the base and the end of the buffer. *)
Theorem writer_session_invariant state m buffer0 buffer_size0 ops :
  NULL < buffer0 ->
  0 <= buffer_size0 <= SIZE_MAX ->
  length (objects state) = Z.to_nat CBOR_MAX_NESTING ->
  Forall (fun c => 0 <= c <= SIZE_MAX) (objects state) ->
  forallb op_typed ops = true ->
  let state' :=
    fst (run_ops ops (cbor_init_writer state buffer0 buffer_size0, m)) in
  writer_wf state' /\
  (poisoned state' \/
   (buffer state' = buffer0 + buffer_size state' /\
    0 <= buffer_size state' <= buffer_size0)) /\
  (fst (cbor_stop_writer state') = NULL \/
   buffer0 <= fst (cbor_stop_writer state') <= buffer0 + buffer_size0).
Proof.
  intros Hbase Hsize Hlen Hobj Htyped. cbv zeta.
  pose proof (cbor_init_writer_wf state buffer0 buffer_size0 Hsize Hlen Hobj)
    as Hwf.
  destruct (run_ops_frame ops buffer0 buffer_size0
    (cbor_init_writer state buffer0 buffer_size0) m Hbase Hsize Hwf)
    as (Hwf' & Hon & _); [right; cbn; lia | exact Htyped |].
  split; [exact Hwf' |]. split; [exact Hon |].
  unfold cbor_stop_writer. cbn [fst].
  destruct (_ =? CBOR_MAX_NESTING); [| left; reflexivity].
  destruct Hon as [[Hpb _] | (Hb & Hs)]; [left; exact Hpb | right; lia].
Qed.

(** ** Nesting *)

Lemma prepend_object_fields state m object0 n :
  nesting_depth (fst (prepend_object state m object0 n)) = nesting_depth state /\
  objects (fst (prepend_object state m object0 n)) = objects state.
Proof.
  unfold prepend_object.
  destruct (n =? 0); [split; reflexivity |].
  destruct (buffer_size state <? n); split; reflexivity.
Qed.

Lemma cbor_prepend_unsigned_depth state m v :
  nesting_depth (fst (cbor_prepend_unsigned state m v)) = nesting_depth state.
Proof.
  unfold cbor_prepend_unsigned.
  destruct (prepend_unsigned_fields state m v) as [Hn _].
  destruct (prepend_unsigned state m v) as [state1 m1]. cbn [fst] in *.
  destruct (increment_fields state1) as (_ & _ & Hn' & _). congruence.
Qed.

Lemma prepend_string_depth mt state m string0 n :
  nesting_depth (fst (prepend_string mt state m string0 n))
  = nesting_depth state.
Proof.
  unfold prepend_string.
  destruct (prepend_object_fields state m string0 n) as [Hn _].
  destruct (prepend_object state m string0 n) as [state1 m1]. cbn [fst] in *.
  pose proof (cbor_prepend_unsigned_depth state1 m1 n) as Hn'.
  destruct (cbor_prepend_unsigned state1 m1 n) as [state2 m2]. cbn [fst] in *.
  destruct (buffer state2 =? NULL); cbn [fst]; congruence.
Qed.

Lemma prepend_simple_depth state m value :
  nesting_depth (fst (prepend_simple state m value)) = nesting_depth state.
Proof.
  unfold prepend_simple.
  destruct (buffer_size state =? 0); [reflexivity |]. cbn [fst].
  match goal with |- context [increment ?st] =>
    destruct (increment_fields st) as (_ & _ & Hn & _); rewrite Hn
  end. reflexivity.
Qed.

(** The calls that neither open nor wrap leave the depth alone. *)
Lemma run_op_same_depth op state m :
  opens_of op = 0 ->
  nesting_depth (fst (run_op op (state, m))) = nesting_depth state.
Proof.
  destruct op; cbn [opens_of run_op]; try discriminate; intros _.
  - unfold cbor_prepend_object.
    destruct (prepend_object_fields state m object0 object_size) as [Hn _].
    destruct (prepend_object state m object0 object_size) as [state1 m1].
    cbn [fst] in *.
    destruct (increment_fields state1) as (_ & _ & Hn' & _). congruence.
  - apply cbor_prepend_unsigned_depth.
  - unfold cbor_wrap_data.
    pose proof (cbor_prepend_unsigned_depth state m data_size) as Hn.
    destruct (cbor_prepend_unsigned state m data_size) as [state1 m1].
    destruct (buffer state1 =? NULL); exact Hn.
  - rewrite cbor_prepend_data_eq. apply prepend_string_depth.
  - rewrite cbor_prepend_text_eq. apply prepend_string_depth.
  - apply prepend_simple_depth.
  - apply prepend_simple_depth.
  - apply prepend_simple_depth.
Qed.

(** A call on a writer that is poisoned or in good standing either poisons
    it or changes the depth by what it opens. *)
Lemma run_op_depth op base size state m :
  NULL < base ->
  0 <= size <= SIZE_MAX ->
  writer_wf state ->
  writer_on base size state ->
  op_typed op = true ->
  poisoned (fst (run_op op (state, m))) \/
  nesting_depth (fst (run_op op (state, m)))
  = nesting_depth state - opens_of op.
Proof.
  pose proof CBOR_MAX_NESTING_range as Hmaxn. unfold max_nesting_fits in Hmaxn.
  pose proof SIZE_MAX_bounds as Hmax.
  intros Hbase Hsize Hwf Hon Htyped.
  pose proof Hwf as (_ & Hnd & _).
  assert (Hwrap : forall mt argument,
    0 <= argument <= UINT64_MAX ->
    nesting_depth state <> CBOR_MAX_NESTING ->
    poisoned (snd (fst (wrap_container mt argument state m))) \/
    nesting_depth (snd (fst (wrap_container mt argument state m)))
    = nesting_depth state + 1).
  { intros mt argument Harg Hopen. unfold wrap_container.
    pose proof (prepend_unsigned_frame base size state m argument Harg Hsize Hon)
      as Hframe.
    destruct (prepend_unsigned_fields state m argument) as [Hn _].
    destruct (prepend_unsigned state m argument) as [state1 m1].
    cbn [fst snd] in *.
    destruct Hframe as [[Hp _] | (Hb & Hs & _)].
    - pose proof Hp as [-> _]. cbn. left. exact Hp.
    - destruct (Z.eqb_spec (buffer state1) NULL); [unfold NULL in *; lia |].
      right. cbn [fst snd].
      destruct (negb _); cbn [nesting_depth set_object set_nesting_depth];
        rewrite to_size_t_id by lia; lia. }
  destruct (Z.eq_dec (opens_of op) 0) as [Hzero|Hnz].
  - right. rewrite Hzero, Z.sub_0_r. apply run_op_same_depth, Hzero.
  - assert (Hopen_case : poisoned (snd (cbor_open_array state)) \/
      nesting_depth (snd (cbor_open_array state)) = nesting_depth state - 1).
    { unfold cbor_open_array.
      destruct (Z.eqb_spec (nesting_depth state) 0);
        [left; apply poisoned_set |].
      right. cbn [snd nesting_depth set_object set_nesting_depth].
      apply to_size_t_id. lia. }
    destruct op; cbn [opens_of] in Hnz; try contradiction; cbn [run_op opens_of].
    + exact Hopen_case.
    + rewrite cbor_wrap_array_eq.
      destruct (Z.eqb_spec (nesting_depth state) CBOR_MAX_NESTING) as [|Hopen];
        [left; apply poisoned_set |].
      pose proof (object_range state (nesting_depth state) Hwf ltac:(lia)).
      pose proof (Hwrap CBOR_MAJOR_TYPE_ARRAY
        (object state (nesting_depth state)) ltac:(lia) Hopen) as Hw.
      destruct (wrap_container _ _ state m) as [[r state1] m1].
      cbn [fst snd] in *. destruct Hw; [left | right]; [assumption | lia].
    + exact Hopen_case.
    + rewrite cbor_wrap_map_eq.
      destruct (Z.eqb_spec (nesting_depth state) CBOR_MAX_NESTING) as [|Hopen];
        [left; apply poisoned_set |].
      destruct (negb _); cbn [orb]; [left; apply poisoned_set |].
      pose proof (object_range state (nesting_depth state) Hwf ltac:(lia))
        as Hc.
      assert (Harg : 0 <= Z.shiftr (object state (nesting_depth state)) 1
                     <= UINT64_MAX).
      { rewrite Z.shiftr_div_pow2 by lia. change (2 ^ 1) with 2.
        split; [apply Z.div_pos; lia |].
        assert (object state (nesting_depth state) / 2
                <= object state (nesting_depth state))
          by (apply Z.div_le_upper_bound; lia).
        lia. }
      pose proof (Hwrap CBOR_MAJOR_TYPE_MAP _ Harg Hopen) as Hw.
      destruct (wrap_container _ _ state m) as [[r state1] m1].
      cbn [fst snd] in *. destruct Hw; [left | right]; [assumption | lia].
Qed.

Lemma run_ops_depth ops : forall base size state m,
  NULL < base ->
  0 <= size <= SIZE_MAX ->
  writer_wf state ->
  writer_on base size state ->
  forallb op_typed ops = true ->
  poisoned (fst (run_ops ops (state, m))) \/
  nesting_depth (fst (run_ops ops (state, m)))
  = nesting_depth state - net_opens ops.
Proof.
  induction ops as [|op ops IH];
    intros base size state m Hbase Hsize Hwf Hon Htyped.
  - right. cbn. lia.
  - cbn [forallb] in Htyped. apply andb_true_iff in Htyped as [Hop Hops].
    rewrite run_ops_cons. cbn [net_opens].
    pose proof (run_op_wf op state m Hwf) as Hwf1.
    pose proof (run_op_frame op base size state m Hbase Hsize Hwf Hon Hop)
      as (Hon1 & _).
    pose proof (run_op_depth op base size state m Hbase Hsize Hwf Hon Hop)
      as Hd.
    destruct (run_op op (state, m)) as [state1 m1]. cbn [fst] in *.
    destruct Hd as [Hp | Hd].
    + left. apply run_ops_poisoned; assumption.
    + destruct (IH base size state1 m1 Hbase Hsize Hwf1 Hon1 Hops)
        as [Hp | Hd']; [left; exact Hp | right; lia].
Qed.

(** X3. Only balanced sessions succeed.  If [cbor_stop_writer] returns a
    non-[NULL] pointer after [cbor_init_writer] and a sequence of
    operations, then the sequence wraps exactly as many containers as it
    opens, and at every point of it the number of containers opened and
    not yet wrapped is between 0 and [CBOR_MAX_NESTING]. *)
Theorem successful_session_is_balanced state m buffer0 buffer_size0 ops :
  NULL < buffer0 ->
  0 <= buffer_size0 <= SIZE_MAX ->
  length (objects state) = Z.to_nat CBOR_MAX_NESTING ->
  Forall (fun c => 0 <= c <= SIZE_MAX) (objects state) ->
  forallb op_typed ops = true ->
  fst (cbor_stop_writer
         (fst (run_ops ops (cbor_init_writer state buffer0 buffer_size0, m))))
  <> NULL ->
  net_opens ops = 0 /\
  forall i, 0 <= net_opens (firstn i ops) <= CBOR_MAX_NESTING.
Proof.
  intros Hbase Hsize Hlen Hobj Htyped Hstop.
  set (state0 := cbor_init_writer state buffer0 buffer_size0) in *.
  pose proof (cbor_init_writer_wf state buffer0 buffer_size0 Hsize Hlen Hobj)
    as Hwf.
  assert (Hon : writer_on buffer0 buffer_size0 state0) by (right; cbn; lia).
  assert (Hlive : ~ poisoned (fst (run_ops ops (state0, m)))).
  { intros Hp. apply Hstop, cbor_stop_writer_poisoned, Hp. }
  split.
  - destruct (run_ops_depth ops buffer0 buffer_size0 state0 m Hbase Hsize Hwf
      Hon Htyped) as [Hp | Hd]; [contradiction |].
    unfold cbor_stop_writer in Hstop. cbn [fst] in Hstop.
    destruct (Z.eqb_spec (nesting_depth (fst (run_ops ops (state0, m))))
      CBOR_MAX_NESTING) as [Htop|]; [| contradiction].
    rewrite Htop in Hd. cbn in Hd. lia.
  - intros i.
    assert (Hsplit : forallb op_typed (firstn i ops) = true /\
                     forallb op_typed (skipn i ops) = true).
    { apply andb_true_iff. rewrite <- forallb_app, firstn_skipn.
      exact Htyped. }
    destruct Hsplit as [Htyped_i Htyped_rest].
    rewrite <- (firstn_skipn i ops), run_ops_app in Hlive.
    pose proof (run_ops_wf (firstn i ops) state0 m Hwf) as (_ & Hnd & _).
    destruct (run_ops_depth (firstn i ops) buffer0 buffer_size0 state0 m
      Hbase Hsize Hwf Hon Htyped_i) as [Hp | Hd].
    + exfalso. apply Hlive.
      destruct (run_ops (firstn i ops) (state0, m)) as [state1 m1].
      apply run_ops_poisoned; assumption.
    + rewrite Hd in Hnd. cbn in Hnd. lia.
Qed.

Lemma is_open_typed ops :
  forallb is_open ops = true -> forallb op_typed ops = true.
Proof.
  induction ops as [|op ops IH]; [reflexivity |]. cbn [forallb].
  intros [Hop Hops]%andb_true_iff. rewrite (IH Hops), andb_true_r.
  destruct op; try discriminate; reflexivity.
Qed.

Lemma run_op_open op state m :
  is_open op = true ->
  run_op op (state, m) = (snd (cbor_open_array state), m).
Proof. destruct op; try discriminate; reflexivity. Qed.

Lemma run_opens ops : forall state m,
  forallb is_open ops = true ->
  Z.of_nat (length ops) <= nesting_depth state <= CBOR_MAX_NESTING ->
  buffer (fst (run_ops ops (state, m))) = buffer state /\
  buffer_size (fst (run_ops ops (state, m))) = buffer_size state /\
  nesting_depth (fst (run_ops ops (state, m)))
  = nesting_depth state - Z.of_nat (length ops) /\
  snd (run_ops ops (state, m)) = m.
Proof.
  pose proof CBOR_MAX_NESTING_range as Hmaxn. unfold max_nesting_fits in Hmaxn.
  induction ops as [|op ops IH]; intros state m Hopen Hnd.
  - cbn. repeat split; lia.
  - cbn [forallb] in Hopen. apply andb_true_iff in Hopen as [Hop Hops].
    cbn [length] in Hnd.
    rewrite run_ops_cons, (run_op_open op state m Hop).
    unfold cbor_open_array.
    destruct (Z.eqb_spec (nesting_depth state) 0); [lia |]. cbn [snd].
    match goal with |- context [run_ops ops (?st, m)] =>
      destruct (IH st m Hops) as (Hb & Hs & Hn & Hm)
    end.
    { cbn [nesting_depth set_object set_nesting_depth].
      rewrite to_size_t_id by lia. lia. }
    rewrite Hb, Hs, Hn, Hm.
    cbn [buffer buffer_size nesting_depth set_object set_nesting_depth length].
    rewrite to_size_t_id by lia. repeat split; lia.
Qed.

Lemma run_opens_overflow ops : forall state m,
  forallb is_open ops = true ->
  0 <= nesting_depth state <= CBOR_MAX_NESTING ->
  nesting_depth state < Z.of_nat (length ops) ->
  poisoned (fst (run_ops ops (state, m))).
Proof.
  pose proof CBOR_MAX_NESTING_range as Hmaxn. unfold max_nesting_fits in Hmaxn.
  induction ops as [|op ops IH]; intros state m Hopen Hnd Hlen.
  - cbn in Hlen. lia.
  - cbn [forallb] in Hopen. apply andb_true_iff in Hopen as [Hop Hops].
    cbn [length] in Hlen.
    rewrite run_ops_cons, (run_op_open op state m Hop).
    unfold cbor_open_array.
    destruct (Z.eqb_spec (nesting_depth state) 0); cbn [snd].
    + apply run_ops_poisoned; [apply is_open_typed, Hops | apply poisoned_set].
    + apply IH; [exact Hops | |];
        cbn [nesting_depth set_object set_nesting_depth];
        rewrite to_size_t_id by lia; lia.
Qed.

(** X4. Nesting bound.  After [cbor_init_writer], up to [CBOR_MAX_NESTING]
    containers can be opened without wrapping: the writer is not poisoned,
    its cursor and free space are untouched, no byte is written, and the
    depth has dropped by the number of containers.  Opening more than
    [CBOR_MAX_NESTING] containers poisons the writer, and
    [cbor_stop_writer] returns [NULL]. *)
Theorem nesting_bound state m buffer0 buffer_size0 opens too_many :
  forallb is_open opens = true ->
  Z.of_nat (length opens) <= CBOR_MAX_NESTING ->
  forallb is_open too_many = true ->
  CBOR_MAX_NESTING < Z.of_nat (length too_many) ->
  let state0 := cbor_init_writer state buffer0 buffer_size0 in
  (let '(state', m') := run_ops opens (state0, m) in
   buffer state' = buffer0 + buffer_size0 /\
   buffer_size state' = buffer_size0 /\
   nesting_depth state' = CBOR_MAX_NESTING - Z.of_nat (length opens) /\
   m' = m) /\
  (let state' := fst (run_ops too_many (state0, m)) in
   poisoned state' /\ fst (cbor_stop_writer state') = NULL).
Proof.
  pose proof CBOR_MAX_NESTING_range as Hmaxn. unfold max_nesting_fits in Hmaxn.
  intros Hopens Hlen Hmany Hlen'. cbv zeta.
  split.
  - pose proof (run_opens opens (cbor_init_writer state buffer0 buffer_size0)
      m Hopens ltac:(cbn; lia)) as H.
    destruct (run_ops opens _) as [state' m']. cbn [fst snd] in H. exact H.
  - pose proof (run_opens_overflow too_many
      (cbor_init_writer state buffer0 buffer_size0) m Hmany
      ltac:(cbn; lia) ltac:(cbn; lia)) as Hp.
    split; [exact Hp | apply cbor_stop_writer_poisoned, Hp].
Qed.

(** ** The reader stays inside its input *)

Lemma moved_forward_refl state :
  0 <= cbor_size state -> moved_forward state state.
Proof. intros Hs. split; lia. Qed.

Lemma moved_forward_trans s1 s2 s3 :
  moved_forward s1 s2 -> moved_forward s2 s3 -> moved_forward s1 s3.
Proof. intros [H1 H1'] [H2 H2']. split; lia. Qed.

Lemma cbor_read_unsigned_moved state m value0 :
  0 <= cbor_size state <= SIZE_MAX ->
  moved_forward state (snd (fst (cbor_read_unsigned state m value0))).
Proof.
  intros Hs.
  destruct (Z.eq_dec (cbor_size state) 0) as [Hz|Hnz].
  - unfold cbor_read_unsigned. rewrite Hz. cbn. split; lia.
  - destruct (cbor_read_unsigned_advance state m value0 ltac:(lia))
      as (a & Ha & Hfit & Hc & Hcs).
    assert (0 <= a) by (cbn in Ha; lia).
    split; lia.
Qed.

Lemma to_uint64_range z : 0 <= to_uint64 z <= UINT64_MAX.
Proof.
  unfold to_uint64, UINT64_MAX.
  pose proof (Z.mod_pos_bound z (2 ^ 64) eq_refl) as H.
  change (2 ^ 64) with 18446744073709551616 in *. lia.
Qed.

Lemma cbor_read_unsigned_loop_range n : forall p acc m,
  (0 < n)%nat ->
  0 <= snd (cbor_read_unsigned_loop n p acc m) <= UINT64_MAX.
Proof.
  induction n as [|n IH]; intros p acc m Hn; [lia |].
  rewrite cbor_read_unsigned_loop_last.
  destruct (cbor_read_unsigned_loop n p acc m) as [q a]. cbn [snd].
  apply to_uint64_range.
Qed.

(** What [cbor_read_unsigned] stores is a value of [uint64_t]. *)
Lemma cbor_read_unsigned_value_range state m value0 :
  0 <= value0 <= UINT64_MAX ->
  0 <= snd (cbor_read_unsigned state m value0) <= UINT64_MAX.
Proof.
  intros Hv. unfold cbor_read_unsigned.
  destruct (cbor_size state =? 0); [exact Hv |].
  destruct (low_bits_of_byte _ (load8_range m (cbor state))) as [Hlow Hrange].
  rewrite Hlow.
  destruct (Z.land (load8 m (cbor state)) 31 <? CBOR_SIZE_1);
    [cbn [snd]; unfold UINT64_MAX; lia |].
  unfold bytes_to_read_of.
  repeat (match goal with
          | |- context [if ?b =? ?c then Some _ else _] => destruct (b =? c)
          end;
          [cbv beta iota;
           match goal with
           | |- context [if ?c <? ?k then _ else _] => destruct (c <? k)
           end; [exact Hv |];
           match goal with
           | |- context [cbor_read_unsigned_loop ?n ?p ?a ?mm] =>
               pose proof (cbor_read_unsigned_loop_range n p a mm
                 ltac:(cbn; lia)) as Hr;
               destruct (cbor_read_unsigned_loop n p a mm)
           end; exact Hr |]).
  exact Hv.
Qed.

Lemma read_byte_or_text_string_moved state m size0 :
  0 <= cbor_size state <= SIZE_MAX ->
  moved_forward state (snd (fst (read_byte_or_text_string state m size0))).
Proof.
  intros Hs. unfold read_byte_or_text_string.
  pose proof (cbor_read_unsigned_moved state m 0 Hs) as Hmoved.
  pose proof (cbor_read_unsigned_value_range state m 0
    ltac:(unfold UINT64_MAX; lia)) as Hvalue.
  destruct (cbor_read_unsigned state m 0) as [[r state1] value].
  cbn [fst snd] in *.
  destruct (CBOR_SIZE_NONE =? r); cbn [orb fst snd]; [exact Hmoved |].
  destruct (Z.ltb_spec SIZE_MAX value); cbn [orb fst snd]; [exact Hmoved |].
  destruct (Z.ltb_spec (cbor_size state1) value); cbn [fst snd];
    [exact Hmoved |].
  destruct Hmoved as [Hend Hle].
  unfold moved_forward, set_cbor, set_cbor_size. cbn [cbor cbor_size].
  rewrite (to_size_t_id value) by lia.
  rewrite to_size_t_id by lia. lia.
Qed.

Lemma cbor_read_next_same state m : snd (cbor_read_next state m) = state.
Proof. unfold cbor_read_next. destruct (cbor_size state =? 0); reflexivity. Qed.

Lemma read_string_moved mt state m size0 :
  0 <= cbor_size state <= SIZE_MAX ->
  moved_forward state (snd (fst (read_string mt state m size0))).
Proof.
  intros Hs. unfold read_string.
  pose proof (cbor_read_next_same state m) as Hsame.
  destruct (cbor_read_next state m) as [next state1]. cbn [snd] in Hsame.
  subst state1.
  destruct (negb _); cbn [fst snd]; [apply moved_forward_refl; lia |].
  apply read_byte_or_text_string_moved, Hs.
Qed.

Lemma read_array_or_map_moved state m :
  0 <= cbor_size state <= SIZE_MAX ->
  moved_forward state (snd (read_array_or_map state m)).
Proof.
  intros Hs. unfold read_array_or_map.
  pose proof (cbor_read_unsigned_moved state m 0 Hs) as Hmoved.
  destruct (cbor_read_unsigned state m 0) as [[r state1] value].
  destruct (_ || _); exact Hmoved.
Qed.

Lemma run_reader_op_moved op state m :
  0 <= cbor_size state <= SIZE_MAX ->
  moved_forward state (run_reader_op op state m).
Proof.
  intros Hs. destruct op; cbn [run_reader_op].
  - rewrite cbor_read_next_same. apply moved_forward_refl. lia.
  - apply cbor_read_unsigned_moved, Hs.
  - rewrite cbor_read_data_eq. apply read_string_moved, Hs.
  - rewrite cbor_read_text_eq. apply read_string_moved, Hs.
  - unfold cbor_read_array.
    pose proof (cbor_read_next_same state m) as Hsame.
    destruct (cbor_read_next state m) as [next state1]. cbn [snd] in Hsame.
    subst state1.
    destruct (negb _); cbn [fst snd]; [apply moved_forward_refl; lia |].
    apply read_array_or_map_moved, Hs.
  - unfold cbor_read_map.
    pose proof (cbor_read_next_same state m) as Hsame.
    destruct (cbor_read_next state m) as [next state1]. cbn [snd] in Hsame.
    subst state1.
    destruct (negb _); cbn [fst snd]; [apply moved_forward_refl; lia |].
    apply read_array_or_map_moved, Hs.
  - unfold cbor_read_simple.
    destruct (Z.eqb_spec (cbor_size state) 0); cbn [snd];
      [apply moved_forward_refl; lia |].
    unfold moved_forward, set_cbor, set_cbor_size. cbn [snd cbor cbor_size].
    rewrite to_size_t_id by lia. lia.
Qed.

(** X5. Bounds discipline of the reader.  Whatever the input holds, after
    any sequence of read calls the cursor has only moved forward, the
    remaining-byte count is between 0 and what it was, and cursor plus
    remaining count still is the end of the input: the reader never
    consumes a byte beyond the [cbor_size] bytes it was given. *)
Theorem reader_stays_in_input ops state m :
  0 <= cbor_size state <= SIZE_MAX ->
  let state' := run_reader_ops ops state m in
  cbor state' + cbor_size state' = cbor state + cbor_size state /\
  0 <= cbor_size state' <= cbor_size state /\
  cbor state <= cbor state' <= cbor state + cbor_size state.
Proof.
  intros Hs. cbv zeta.
  assert (Hmoved : moved_forward state (run_reader_ops ops state m)).
  { revert state Hs. induction ops as [|op ops IH]; intros state Hs.
    - cbn. apply moved_forward_refl. lia.
    - pose proof (run_reader_op_moved op state m Hs) as Hstep.
      apply (moved_forward_trans _ _ _ Hstep).
      apply (IH (run_reader_op op state m)).
      destruct Hstep as [_ Hle]. lia. }
  destruct Hmoved as [Hend Hle]. repeat split; lia.
Qed.

(** ** What the reader decodes *)

Lemma load_bytes_S m p n :
  load_bytes m p (S n) = load8 m p :: load_bytes m (p + 1) n.
Proof.
  unfold load_bytes. cbn [seq fmap list_fmap].
  rewrite Z.add_0_r. f_equal.
  rewrite <- fmap_S_seq, <- list_fmap_compose.
  apply list_fmap_ext. intros i x _. cbn. f_equal. lia.
Qed.

Lemma cbor_read_unsigned_loop_big_endian n : forall p acc m,
  (n <= 8)%nat ->
  0 <= acc < 2 ^ (8 * (8 - Z.of_nat n)) ->
  cbor_read_unsigned_loop n p acc m
  = (p + Z.of_nat n,
     fold_left (fun value byte => value * 256 + byte) (load_bytes m p n) acc).
Proof.
  induction n as [|n IH]; intros p acc m Hn Hacc.
  - cbn. f_equal. lia.
  - rewrite load_bytes_S. cbn [cbor_read_unsigned_loop fold_left].
    pose proof (load8_range m p) as Hb. unfold UINT8_MAX in Hb.
    assert (Hpow : 2 ^ (8 * (8 - Z.of_nat n))
                   = 256 * 2 ^ (8 * (8 - Z.of_nat (S n)))).
    { replace (8 * (8 - Z.of_nat n)) with (8 + 8 * (8 - Z.of_nat (S n)))
        by lia.
      rewrite Z.pow_add_r by lia. reflexivity. }
    assert (Hle : 2 ^ (8 * (8 - Z.of_nat n)) <= 2 ^ 64)
      by (apply Z.pow_le_mono_r; lia).
    assert (Hstep : to_uint64 (to_uint64 (Z.shiftl acc 8) + load8 m p)
                    = acc * 256 + load8 m p).
    { rewrite Z.shiftl_mul_pow2 by lia. change (2 ^ 8) with 256.
      change (2 ^ 64) with 18446744073709551616 in Hle.
      rewrite (to_uint64_id (acc * 256)) by (unfold UINT64_MAX; lia).
      apply to_uint64_id. unfold UINT64_MAX. lia. }
    rewrite Hstep, IH by lia. f_equal. lia.
Qed.

Lemma big_endian_range bytes :
  Forall (fun b => 0 <= b <= UINT8_MAX) bytes ->
  0 <= big_endian bytes < 2 ^ (8 * Z.of_nat (length bytes)).
Proof.
  unfold big_endian. intros Hbytes.
  assert (Hgen : forall acc k, 0 <= k -> 0 <= acc < 2 ^ k ->
    0 <= fold_left (fun value byte => value * 256 + byte) bytes acc
      < 2 ^ (k + 8 * Z.of_nat (length bytes))).
  { induction Hbytes as [|b bytes Hb _ IH]; intros acc k Hk Hacc.
    - cbn. rewrite Z.add_0_r. exact Hacc.
    - cbn [fold_left length].
      replace (k + 8 * Z.of_nat (S (length bytes)))
        with ((k + 8) + 8 * Z.of_nat (length bytes)) by lia.
      apply IH; [lia |]. rewrite Z.pow_add_r by lia.
      change (2 ^ 8) with 256. unfold UINT8_MAX in Hb. lia. }
  apply (Hgen 0 0); [lia | cbn; lia].
Qed.

Lemma Forall_load_bytes m p n :
  Forall (fun b => 0 <= b <= UINT8_MAX) (load_bytes m p n).
Proof.
  unfold load_bytes. apply Forall_fmap, Forall_forall.
  intros i _. cbn. apply load8_range.
Qed.

(** X6. The reader decodes every size class, shortest form or not, and
    whatever the major type bits are.  When the low five bits of the next
    byte are 24, 25, 26 or 27 and the 1, 2, 4 or 8 argument bytes are
    there, [cbor_read_unsigned] returns the field as the size class,
    stores the unsigned integer that the argument bytes denote in
    big-endian order (which is below [2 ^ (8 * n)]), and consumes the
    initial byte and the argument bytes. *)
Theorem read_unsigned_decodes_big_endian state m value0 size n :
  Z.land (load8 m (cbor state)) 0x1F = size ->
  bytes_to_read_of size = Some n ->
  1 + n <= cbor_size state <= SIZE_MAX ->
  let argument := load_bytes m (cbor state + 1) (Z.to_nat n) in
  cbor_read_unsigned state m value0
  = (size,
     {| cbor := cbor state + 1 + n; cbor_size := cbor_size state - 1 - n |},
     big_endian argument) /\
  0 <= big_endian argument < 2 ^ (8 * n) /\
  In (size, n) [(CBOR_SIZE_1, 1); (CBOR_SIZE_2, 2); (CBOR_SIZE_4, 4);
                (CBOR_SIZE_8, 8)].
Proof.
  intros Hfield Hswitch Hs. cbv zeta.
  destruct (low_bits_of_byte _ (load8_range m (cbor state))) as [Hlow _].
  assert (Hcases : In (size, n) [(CBOR_SIZE_1, 1); (CBOR_SIZE_2, 2);
                                 (CBOR_SIZE_4, 4); (CBOR_SIZE_8, 8)]).
  { unfold bytes_to_read_of in Hswitch.
    destruct (Z.eqb_spec size CBOR_SIZE_1) as [e|];
      [injection Hswitch as <-; rewrite e; left; reflexivity |].
    destruct (Z.eqb_spec size CBOR_SIZE_2) as [e|];
      [injection Hswitch as <-; rewrite e; right; left; reflexivity |].
    destruct (Z.eqb_spec size CBOR_SIZE_4) as [e|];
      [injection Hswitch as <-; rewrite e; do 2 right; left; reflexivity |].
    destruct (Z.eqb_spec size CBOR_SIZE_8) as [e|];
      [injection Hswitch as <-; rewrite e; do 3 right; left; reflexivity
      | discriminate]. }
  assert (Hn : 1 <= n <= 8 /\ CBOR_SIZE_1 <= size).
  { cbn in Hcases.
    destruct Hcases as [[= <- <-]|[[= <- <-]|[[= <- <-]|[[= <- <-]|[]]]]];
      vm_compute; repeat split; discriminate. }
  split; [| split; [| exact Hcases]].
  - unfold cbor_read_unsigned.
    destruct (Z.eqb_spec (cbor_size state) 0); [lia |].
    rewrite Hlow, Hfield.
    destruct (Z.ltb_spec size CBOR_SIZE_1); [lia |].
    rewrite Hswitch. unfold set_cbor, set_cbor_size. cbn [cbor cbor_size].
    rewrite to_size_t_id by lia.
    destruct (Z.ltb_spec (cbor_size state - 1) n); [lia |].
    rewrite to_size_t_id by lia.
    rewrite cbor_read_unsigned_loop_big_endian;
      [| lia | split; [lia | apply Z.pow_pos_nonneg; lia]].
    rewrite Z2Nat.id by lia. unfold big_endian.
    rewrite <- Z.add_assoc. reflexivity.
  - pose proof (big_endian_range _
      (Forall_load_bytes m (cbor state + 1) (Z.to_nat n))) as Hr.
    rewrite length_load_bytes, Z2Nat.id in Hr by lia. exact Hr.
Qed.

(** X7. Malformed and truncated headers.  When the low five bits of the
    next byte are a reserved value (28 to 31), or when they announce more
    argument bytes than remain after the initial byte,
    [cbor_read_unsigned] returns [CBOR_SIZE_NONE], leaves [*value] as it
    was, and has consumed exactly the initial byte. *)
Theorem read_unsigned_rejects_bad_header reserved truncated m value0 n :
  1 <= cbor_size reserved <= SIZE_MAX ->
  28 <= Z.land (load8 m (cbor reserved)) 0x1F <= 31 ->
  1 <= cbor_size truncated <= SIZE_MAX ->
  bytes_to_read_of (Z.land (load8 m (cbor truncated)) 0x1F) = Some n ->
  cbor_size truncated - 1 < n ->
  cbor_read_unsigned reserved m value0
  = (CBOR_SIZE_NONE,
     {| cbor := cbor reserved + 1; cbor_size := cbor_size reserved - 1 |},
     value0) /\
  cbor_read_unsigned truncated m value0
  = (CBOR_SIZE_NONE,
     {| cbor := cbor truncated + 1; cbor_size := cbor_size truncated - 1 |},
     value0).
Proof.
  intros Hs Hfield Hs' Hswitch Hshort.
  destruct (low_bits_of_byte _ (load8_range m (cbor reserved))) as [Hlow _].
  destruct (low_bits_of_byte _ (load8_range m (cbor truncated))) as [Hlow' _].
  split.
  - unfold cbor_read_unsigned.
    destruct (Z.eqb_spec (cbor_size reserved) 0); [lia |].
    rewrite Hlow. set (size := Z.land (load8 m (cbor reserved)) 31) in *.
    unfold set_cbor, set_cbor_size. cbn [cbor cbor_size].
    rewrite to_size_t_id by lia.
    destruct (Z.ltb_spec size CBOR_SIZE_1); [unfold CBOR_SIZE_1 in *; lia |].
    unfold bytes_to_read_of, CBOR_SIZE_1, CBOR_SIZE_2, CBOR_SIZE_4,
      CBOR_SIZE_8.
    destruct (Z.eqb_spec size 24); [lia |].
    destruct (Z.eqb_spec size 25); [lia |].
    destruct (Z.eqb_spec size 26); [lia |].
    destruct (Z.eqb_spec size 27); [lia |]. reflexivity.
  - unfold cbor_read_unsigned.
    destruct (Z.eqb_spec (cbor_size truncated) 0); [lia |].
    rewrite Hlow'. set (size := Z.land (load8 m (cbor truncated)) 31) in *.
    unfold set_cbor, set_cbor_size. cbn [cbor cbor_size].
    rewrite to_size_t_id by lia.
    assert (CBOR_SIZE_1 <= size).
    { unfold bytes_to_read_of in Hswitch.
      destruct (Z.eqb_spec size CBOR_SIZE_1) as [e|];
        [rewrite e; vm_compute; discriminate |].
      destruct (Z.eqb_spec size CBOR_SIZE_2) as [e|];
        [rewrite e; vm_compute; discriminate |].
      destruct (Z.eqb_spec size CBOR_SIZE_4) as [e|];
        [rewrite e; vm_compute; discriminate |].
      destruct (Z.eqb_spec size CBOR_SIZE_8) as [e|];
        [rewrite e; vm_compute; discriminate | discriminate]. }
    destruct (Z.ltb_spec size CBOR_SIZE_1); [lia |].
    rewrite Hswitch.
    destruct (Z.ltb_spec (cbor_size truncated - 1) n); [reflexivity | lia].
Qed.

Lemma read_string_success mt state m size0 :
  mt <> CBOR_MAJOR_TYPE_NONE ->
  NULL < cbor state ->
  0 <= cbor_size state <= SIZE_MAX ->
  fst (fst (read_string mt state m size0)) <> NULL ->
  let '(p, state', n) := read_string mt state m size0 in
  fst (cbor_read_next state m) = mt /\
  0 <= n /\
  In (p - cbor state) [1; 2; 3; 5; 9] /\
  cbor state' = p + n /\
  cbor state' + cbor_size state' = cbor state + cbor_size state /\
  0 <= cbor_size state'.
Proof.
  intros Hmt Hcbor Hs. unfold read_string.
  destruct (cbor_read_next state m) as [next state1] eqn:Hnext.
  assert (state1 = state) as ->.
  { pose proof (cbor_read_next_same state m) as H. rewrite Hnext in H.
    exact H. }
  cbn [fst].
  destruct (Z.eqb_spec next mt) as [->|Hne]; cbn [negb];
    [| cbn; intros Hnull; contradiction].
  assert (Hpos : 1 <= cbor_size state).
  { unfold cbor_read_next in Hnext.
    destruct (Z.eqb_spec (cbor_size state) 0); [congruence | lia]. }
  unfold read_byte_or_text_string.
  destruct (cbor_read_unsigned_advance state m 0 ltac:(lia))
    as (a & Ha & Hfit & Hc & Hcs).
  pose proof (cbor_read_unsigned_value_range state m 0
    ltac:(unfold UINT64_MAX; lia)) as Hvalue.
  destruct (cbor_read_unsigned state m 0) as [[r state2] value].
  cbn [fst snd] in *.
  destruct (CBOR_SIZE_NONE =? r); cbn [orb fst];
    [intros Hnull; contradiction |].
  destruct (Z.ltb_spec SIZE_MAX value); cbn [orb fst];
    [intros Hnull; contradiction |].
  destruct (Z.ltb_spec (cbor_size state2) value); cbn [fst];
    [intros Hnull; contradiction |].
  intros _. unfold set_cbor, set_cbor_size. cbn [cbor cbor_size].
  assert (0 <= a) by (cbn in Ha; lia).
  rewrite (to_size_t_id value) by lia. rewrite to_size_t_id by lia.
  split; [reflexivity |]. split; [lia |].
  split.
  { replace (cbor state2 - cbor state) with (1 + a) by lia.
    cbn in Ha. cbn.
    destruct Ha as [<-|[<-|[<-|[<-|[<-|[]]]]]]; tauto. }
  repeat split; lia.
Qed.

(** X8. The slice that a successful string read returns lies in the input.
    When [cbor_read_data] (respectively [cbor_read_text]) returns a
    non-[NULL] pointer, the next major type was byte string (respectively
    text string), the pointer is 1, 2, 3, 5 or 9 bytes past the old cursor
    (the header), the new cursor is the pointer plus the reported size, and
    the new cursor is not past the end of the input. *)
Theorem string_read_slice_in_input dstate tstate m data_size0 text_size0 :
  NULL < cbor dstate ->
  0 <= cbor_size dstate <= SIZE_MAX ->
  fst (fst (cbor_read_data dstate m data_size0)) <> NULL ->
  NULL < cbor tstate ->
  0 <= cbor_size tstate <= SIZE_MAX ->
  fst (fst (cbor_read_text tstate m text_size0)) <> NULL ->
  (let '(data, dstate', data_size) := cbor_read_data dstate m data_size0 in
   fst (cbor_read_next dstate m) = CBOR_MAJOR_TYPE_BYTE_STRING /\
   0 <= data_size /\
   In (data - cbor dstate) [1; 2; 3; 5; 9] /\
   cbor dstate' = data + data_size /\
   cbor dstate' + cbor_size dstate' = cbor dstate + cbor_size dstate /\
   0 <= cbor_size dstate') /\
  (let '(text, tstate', text_size) := cbor_read_text tstate m text_size0 in
   fst (cbor_read_next tstate m) = CBOR_MAJOR_TYPE_TEXT_STRING /\
   0 <= text_size /\
   In (text - cbor tstate) [1; 2; 3; 5; 9] /\
   cbor tstate' = text + text_size /\
   cbor tstate' + cbor_size tstate' = cbor tstate + cbor_size tstate /\
   0 <= cbor_size tstate').
Proof.
  intros Hd Hds Hdok Ht Hts Htok.
  rewrite cbor_read_data_eq in *. rewrite cbor_read_text_eq in *.
  split; apply read_string_success; try assumption; discriminate.
Qed.

(** ** More round trips *)

(** X9. Text-string round trip.  [cbor_prepend_text(text, n)] on a writer
    whose buffer holds at least [CBOR_BYTE_STRING_SIZE(n)] bytes, followed
    by [cbor_stop_writer], produces output on which [cbor_read_text]
    returns a non-[NULL] pointer to [n] bytes equal to the original ones
    and reports the size [n].  [cbor_read_data] on the same output returns
    [NULL] and leaves the reader and [*data_size] as they were. *)
Theorem text_string_round_trip state rstate m buffer0 buffer_size0 text n
    size0 :
  NULL < buffer0 ->
  0 <= n ->
  CBOR_BYTE_STRING_SIZE n <= buffer_size0 <= SIZE_MAX ->
  let '(state', m') :=
    cbor_prepend_text (cbor_init_writer state buffer0 buffer_size0) m text n in
  let cbor_start := fst (cbor_stop_writer state') in
  let reader := reader_on rstate buffer0 buffer_size0 cbor_start in
  let '(p, rstate', text_size) := cbor_read_text reader m' size0 in
  cbor_start <> NULL /\
  cbor_start = buffer0 + buffer_size0 - CBOR_BYTE_STRING_SIZE n /\
  p <> NULL /\
  text_size = n /\
  load_bytes m' p (Z.to_nat n) = load_bytes m text (Z.to_nat n) /\
  cbor rstate' = p + n /\
  cbor_size rstate' = 0 /\
  cbor_read_data reader m' size0 = (NULL, reader, size0).
Proof.
  intros Hbase Hn Hsize.
  pose proof (CBOR_UNSIGNED_SIZE_range n) as Hus.
  pose proof SIZE_MAX_bounds as Hmax.
  set (state0 := cbor_init_writer state buffer0 buffer_size0).
  rewrite cbor_prepend_text_eq.
  destruct (prepend_string_ok CBOR_MAJOR_TYPE_TEXT_STRING state0 m text n)
    as (m' & Heq & _ & Hhdr & Hpayload);
    [do 2 right; left; reflexivity | lia | cbn; lia | cbn; lia |].
  rewrite Heq. clear Heq. rewrite increment_top by reflexivity.
  unfold cbor_stop_writer, reader_on.
  cbn [nesting_depth buffer buffer_size fst state0 cbor_init_writer
    set_nesting_depth set_buffer_size set_buffer] in *.
  rewrite Z.eqb_refl.
  set (cbor_start := buffer0 + buffer_size0 - CBOR_BYTE_STRING_SIZE n) in *.
  set (rstate0 := cbor_init_reader rstate cbor_start
                    (buffer_size0 - (cbor_start - buffer0))).
  unfold CBOR_BYTE_STRING_SIZE in *.
  destruct (header_read m' cbor_start CBOR_MAJOR_TYPE_TEXT_STRING n rstate0 0)
    as [Hnext Hread];
    [do 2 right; left; reflexivity | lia | exact Hhdr | reflexivity
    | cbn; unfold cbor_start; lia |].
  cbv zeta. unfold cbor_read_data, cbor_read_text, read_byte_or_text_string.
  rewrite Hnext, Z.eqb_refl. cbn [negb]. rewrite Hread.
  cbn [cbor cbor_size rstate0 cbor_init_reader set_cbor set_cbor_size].
  pose proof (jump_byte_of_range n Hn) as Hjump.
  replace (CBOR_SIZE_NONE =? _) with false
    by (symmetry; apply Z.eqb_neq; unfold CBOR_SIZE_NONE, CBOR_SIZE_1;
        destruct (n <? 24); lia).
  destruct (Z.ltb_spec SIZE_MAX n); [lia |].
  match goal with |- context [?a <? n] =>
    destruct (Z.ltb_spec a n); [unfold cbor_start in *; lia |] end.
  cbn [orb]. rewrite !to_size_t_id by (unfold cbor_start; lia).
  cbn [cbor cbor_size set_cbor set_cbor_size].
  change (CBOR_MAJOR_TYPE_TEXT_STRING =? CBOR_MAJOR_TYPE_BYTE_STRING)
    with false. cbn [negb].
  repeat split; try (unfold cbor_start, NULL in *; lia).
  apply load_bytes_ext. intros i Hi. rewrite <- Hpayload by lia.
  f_equal. unfold cbor_start. lia.
Qed.

Lemma prepend_simple_round_trip state rstate m buffer0 buffer_size0 value :
  NULL < buffer0 ->
  1 <= buffer_size0 <= SIZE_MAX ->
  0xE0 <= value <= 0xFF ->
  let '(state', m') :=
    prepend_simple (cbor_init_writer state buffer0 buffer_size0) m value in
  let cbor_start := fst (cbor_stop_writer state') in
  let reader := reader_on rstate buffer0 buffer_size0 cbor_start in
  cbor_start = buffer0 + buffer_size0 - 1 /\
  fst (cbor_read_next reader m') = CBOR_MAJOR_TYPE_SIMPLE /\
  cbor_read_simple reader m'
  = (value, {| cbor := buffer0 + buffer_size0; cbor_size := 0 |}).
Proof.
  intros Hbase Hsize Hvalue.
  unfold prepend_simple, cbor_init_writer, set_nesting_depth, set_buffer_size,
    set_buffer.
  cbn [buffer buffer_size nesting_depth objects].
  destruct (Z.eqb_spec buffer_size0 0); [lia |].
  rewrite increment_top by reflexivity.
  unfold cbor_stop_writer, reader_on, cbor_read_next, cbor_read_simple,
    cbor_init_reader, set_cbor, set_cbor_size.
  cbn [fst snd buffer buffer_size nesting_depth objects cbor cbor_size].
  rewrite Z.eqb_refl, to_size_t_id by lia.
  replace (buffer_size0 - (buffer0 + buffer_size0 - 1 - buffer0)) with 1
    by lia.
  cbn [Z.eqb fst]. rewrite load8_store8_eq.
  assert (Hall : forallb (fun v => (to_uint8 v =? v)
                                   && (Z.land v 0xE0 =? 0xE0))
                   (seqZ 0xE0 32) = true) by (vm_compute; reflexivity).
  pose proof (forallb_seqZ _ _ _ value Hall ltac:(lia)) as Hc.
  apply andb_true_iff in Hc as [Hid%Z.eqb_eq Hmask%Z.eqb_eq].
  rewrite Hid, Hmask.
  split; [reflexivity |]. split; [reflexivity |].
  f_equal. f_equal; lia.
Qed.

(** X10. Round trip of the simple values.  On a buffer of at least one
    byte, [cbor_prepend_null], [cbor_prepend_undefined] and
    [cbor_prepend_bool] each produce exactly one byte, on which
    [cbor_read_next] reports [CBOR_MAJOR_TYPE_SIMPLE] and
    [cbor_read_simple] returns [CBOR_SIMPLE_VALUE_NULL],
    [CBOR_SIMPLE_VALUE_UNDEFINED], and [CBOR_SIMPLE_VALUE_TRUE] or
    [CBOR_SIMPLE_VALUE_FALSE] according to whether the argument of
    [cbor_prepend_bool] is different from 0, and consumes that byte. *)
Theorem simple_value_round_trip state rstate m buffer0 buffer_size0 boolean :
  NULL < buffer0 ->
  1 <= buffer_size0 <= SIZE_MAX ->
  let state0 := cbor_init_writer state buffer0 buffer_size0 in
  let read_back (w : cbor_writer_state_t * mem) :=
    let cbor_start := fst (cbor_stop_writer (fst w)) in
    let reader := reader_on rstate buffer0 buffer_size0 cbor_start in
    (cbor_start, fst (cbor_read_next reader (snd w)),
     cbor_read_simple reader (snd w)) in
  let consumed := {| cbor := buffer0 + buffer_size0; cbor_size := 0 |} in
  read_back (cbor_prepend_null state0 m)
  = (buffer0 + buffer_size0 - 1, CBOR_MAJOR_TYPE_SIMPLE,
     (CBOR_SIMPLE_VALUE_NULL, consumed)) /\
  read_back (cbor_prepend_undefined state0 m)
  = (buffer0 + buffer_size0 - 1, CBOR_MAJOR_TYPE_SIMPLE,
     (CBOR_SIMPLE_VALUE_UNDEFINED, consumed)) /\
  read_back (cbor_prepend_bool state0 m boolean)
  = (buffer0 + buffer_size0 - 1, CBOR_MAJOR_TYPE_SIMPLE,
     (if boolean =? 0 then CBOR_SIMPLE_VALUE_FALSE
      else CBOR_SIMPLE_VALUE_TRUE, consumed)).
Proof.
  intros Hbase Hsize. cbv zeta.
  assert (Hone : forall value, 0xE0 <= value <= 0xFF ->
    let w := prepend_simple (cbor_init_writer state buffer0 buffer_size0) m
               value in
    (fst (cbor_stop_writer (fst w)),
     fst (cbor_read_next
            (reader_on rstate buffer0 buffer_size0
               (fst (cbor_stop_writer (fst w)))) (snd w)),
     cbor_read_simple
       (reader_on rstate buffer0 buffer_size0
          (fst (cbor_stop_writer (fst w)))) (snd w))
    = (buffer0 + buffer_size0 - 1, CBOR_MAJOR_TYPE_SIMPLE,
       (value, {| cbor := buffer0 + buffer_size0; cbor_size := 0 |}))).
  { intros value Hvalue. cbv zeta.
    pose proof (prepend_simple_round_trip state rstate m buffer0 buffer_size0
      value Hbase Hsize Hvalue) as Hrt.
    destruct (prepend_simple _ m value) as [state' m'].
    cbn [fst snd] in *. destruct Hrt as (-> & -> & ->). reflexivity. }
  split; [apply Hone; vm_compute; split; discriminate |].
  split; [apply Hone; vm_compute; split; discriminate |].
  unfold cbor_prepend_bool.
  destruct (boolean =? 0); cbn [negb];
    apply Hone; vm_compute; split; discriminate.
Qed.

(** ** Items that do not fit *)

Lemma in_container_not_poisoned base nd c free state :
  NULL < base -> 0 <= free ->
  in_container base nd c free state -> ~ poisoned state.
Proof.
  intros Hbase Hfree (Hb & _) [Hpb _]. unfold NULL in *. lia.
Qed.

(** X11. An item fits or poisons.  In an open container of a writer in
    good standing with [free] bytes left, a call that prepends an item of
    [sz] bytes poisons the writer exactly when [free < sz]; when the item
    fits, the free space shrinks by [sz], the cursor stays in the buffer
    and the counter of the container goes up by one. *)
Theorem item_fits_or_poisons op sz base nd c free state m :
  item_size op = Some sz ->
  NULL < base ->
  0 <= nd < CBOR_MAX_NESTING ->
  0 <= c < SIZE_MAX ->
  0 <= free <= SIZE_MAX ->
  in_container base nd c free state ->
  let state' := fst (run_op op (state, m)) in
  (free < sz /\ poisoned state' /\ fst (cbor_stop_writer state') = NULL) \/
  (sz <= free /\ ~ poisoned state' /\
   in_container base nd (c + 1) (free - sz) state').
Proof.
  intros Hsz Hbase Hnd Hc Hfree Hin. cbv zeta.
  pose proof (item_size_pos op sz Hsz) as Hpos.
  destruct (Z.lt_ge_cases free sz) as [Hlt|Hge].
  - left. split; [exact Hlt |].
    pose proof Hin as (Hb & Hs & _).
    assert (Hp : poisoned (fst (run_op op (state, m)))).
    { destruct op; cbn [item_size] in Hsz; try discriminate; cbn [run_op].
      - destruct (0 <? object_size); cbn [andb] in Hsz; [| discriminate].
        destruct (_ <=? _); [| discriminate]. injection Hsz as <-.
        unfold cbor_prepend_object, prepend_object.
        destruct (Z.eqb_spec object_size 0); [lia |].
        destruct (Z.ltb_spec (buffer_size state) object_size); [| lia].
        apply poisoned_increment, poisoned_set.
      - destruct (Z.leb_spec 0 value); cbn [andb] in Hsz; [| discriminate].
        destruct (_ <=? _); [| discriminate]. injection Hsz as <-.
        unfold cbor_prepend_unsigned.
        rewrite prepend_unsigned_poison by lia.
        apply poisoned_increment, poisoned_set.
      - destruct (Z.leb_spec 0 data_size); cbn [andb] in Hsz; [| discriminate].
        destruct (_ <=? _); [| discriminate]. injection Hsz as <-.
        rewrite cbor_prepend_data_eq. apply prepend_string_poison; lia.
      - destruct (Z.leb_spec 0 text_size); cbn [andb] in Hsz; [| discriminate].
        destruct (_ <=? _); [| discriminate]. injection Hsz as <-.
        rewrite cbor_prepend_text_eq. apply prepend_string_poison; lia.
      - injection Hsz as <-. unfold cbor_prepend_null, prepend_simple.
        destruct (Z.eqb_spec (buffer_size state) 0) as [Hz|]; [| lia].
        split; [reflexivity | exact Hz].
      - injection Hsz as <-. unfold cbor_prepend_undefined, prepend_simple.
        destruct (Z.eqb_spec (buffer_size state) 0) as [Hz|]; [| lia].
        split; [reflexivity | exact Hz].
      - injection Hsz as <-. unfold cbor_prepend_bool, prepend_simple.
        destruct (Z.eqb_spec (buffer_size state) 0) as [Hz|]; [| lia].
        split; [reflexivity | exact Hz]. }
    split; [exact Hp | apply cbor_stop_writer_poisoned, Hp].
  - right. split; [lia |].
    pose proof (run_item op sz base nd c free state m Hsz Hbase Hnd Hc
      ltac:(lia) Hin) as Hin'.
    split; [| exact Hin'].
    apply (in_container_not_poisoned base nd (c + 1) (free - sz));
      solve [assumption | lia].
Qed.

(** ** [cbor_wrap_data] *)

Lemma prepend_unsigned_congr s t m v :
  buffer s = buffer t -> buffer_size s = buffer_size t ->
  snd (prepend_unsigned s m v) = snd (prepend_unsigned t m v) /\
  buffer (fst (prepend_unsigned s m v)) = buffer (fst (prepend_unsigned t m v)).
Proof.
  intros Hb Hs. unfold prepend_unsigned, set_buffer, set_buffer_size.
  cbn [buffer buffer_size]. rewrite Hb, Hs.
  destruct (if v <? CBOR_SIZE_1 then (0, to_uint8 v)
            else if v <=? UINT8_MAX then (1, CBOR_SIZE_1)
            else if v <=? UINT16_MAX then (2, CBOR_SIZE_2)
            else if v <=? UINT32_MAX then (4, CBOR_SIZE_4)
            else (8, CBOR_SIZE_8)) as [len jump].
  destruct (buffer_size t <=? len); [split; reflexivity |].
  destruct (prepend_unsigned_loop _ _ _ _) as [p m']. split; reflexivity.
Qed.

(** X12. [cbor_prepend_object] followed by [cbor_wrap_data] writes the
    bytes of [cbor_prepend_data] and counts two items.  In an open
    container with room for the byte string, wrapping a fragment of [n]
    bytes that was prepended with [cbor_prepend_object] leaves the same
    memory and the same cursor as [cbor_prepend_data] of these bytes, but
    the counter of the container has gone up by two instead of one: both
    calls end in [increment]. *)
Theorem object_then_wrap_data_counts_twice base nd c free state m object0 n :
  NULL < base ->
  0 <= nd < CBOR_MAX_NESTING ->
  0 <= c -> c + 2 <= SIZE_MAX ->
  0 < n ->
  CBOR_BYTE_STRING_SIZE n <= free <= SIZE_MAX ->
  in_container base nd c free state ->
  let '(state1, m1) := cbor_prepend_object state m object0 n in
  let '(wrapped, m2) := cbor_wrap_data state1 m1 n in
  let '(direct, m3) := cbor_prepend_data state m object0 n in
  m2 = m3 /\
  buffer wrapped = buffer direct /\
  buffer_size wrapped = buffer_size direct /\
  object direct nd = c + 1 /\
  object wrapped nd = c + 2.
Proof.
  intros Hbase Hnd Hc Hc2 Hn Hfree Hin.
  pose proof SIZE_MAX_bounds as Hmax.
  pose proof (CBOR_UNSIGNED_SIZE_range n) as Hus.
  unfold CBOR_BYTE_STRING_SIZE in Hfree.
  assert (Hobj_item : item_size (op_prepend_object object0 n) = Some n).
  { cbn [item_size]. destruct (Z.ltb_spec 0 n); [| lia].
    destruct (Z.leb_spec n SIZE_MAX); [reflexivity | lia]. }
  assert (Hhdr_item : item_size (op_prepend_unsigned n)
                      = Some (CBOR_UNSIGNED_SIZE n)).
  { cbn [item_size]. destruct (Z.leb_spec 0 n); [| lia].
    destruct (Z.leb_spec n UINT64_MAX); [reflexivity | lia]. }
  assert (Hdata_item : item_size (op_prepend_data object0 n)
                       = Some (CBOR_BYTE_STRING_SIZE n)).
  { cbn [item_size]. destruct (Z.leb_spec 0 n); [| lia].
    destruct (Z.leb_spec n SIZE_MAX); [reflexivity | lia]. }
  pose proof (run_item _ _ base nd c free state m Hobj_item Hbase Hnd
    ltac:(lia) ltac:(lia) Hin) as Hin1.
  pose proof (run_item _ _ base nd c free state m Hdata_item Hbase Hnd
    ltac:(lia) ltac:(unfold CBOR_BYTE_STRING_SIZE; lia) Hin) as Hin3.
  cbn [run_op] in Hin1, Hin3.
  rewrite cbor_prepend_data_eq in *.
  unfold cbor_prepend_object, prepend_string in *.
  destruct (prepend_object state m object0 n) as [state0 m1].
  cbn [fst] in Hin1.
  pose proof (run_item _ _ base nd (c + 1) (free - n) (increment state0) m1
    Hhdr_item Hbase Hnd ltac:(lia) ltac:(lia) Hin1) as Hin2.
  cbn [run_op] in Hin2.
  destruct (increment_fields state0) as (Hb0 & Hs0 & _).
  unfold cbor_wrap_data, cbor_prepend_unsigned in *.
  destruct (prepend_unsigned_congr (increment state0) state0 m1 n Hb0 Hs0)
    as [Hm Hb].
  destruct (prepend_unsigned (increment state0) m1 n) as [sw mw].
  destruct (prepend_unsigned state0 m1 n) as [sd md].
  cbn [fst snd] in *. subst mw.
  destruct (increment_fields sw) as (Hbw & _).
  destruct (increment_fields sd) as (Hbd & _).
  assert (Hin3' : in_container base nd (c + 1)
                    (free - CBOR_BYTE_STRING_SIZE n) (increment sd))
    by (destruct (buffer (increment sd) =? NULL); exact Hin3).
  clear Hin3. unfold or_major_type. rewrite Hbw, Hbd, Hb.
  destruct Hin2 as (Hb2 & Hs2 & _ & _ & Ho2).
  destruct Hin3' as (Hb3 & Hs3 & _ & _ & Ho3).
  unfold CBOR_BYTE_STRING_SIZE in *.
  destruct (buffer sd =? NULL); (split; [reflexivity |]); repeat split; lia.
Qed.

(** ** Nested containers *)

Lemma increment_objects_congr s t :
  nesting_depth s = nesting_depth t -> objects s = objects t ->
  objects (increment s) = objects (increment t).
Proof.
  intros Hn Ho. unfold increment, set_object, object. rewrite Hn, Ho.
  destruct (nesting_depth t =? CBOR_MAX_NESTING); cbn [objects];
    [exact Ho | reflexivity].
Qed.

Lemma increment_other_slot state j :
  j <> Z.to_nat (nesting_depth state) ->
  objects (increment state) !!! j = objects state !!! j.
Proof.
  intros Hj. unfold increment.
  destruct (nesting_depth state =? CBOR_MAX_NESTING); [reflexivity |].
  cbn [objects set_object]. apply list_lookup_total_insert_ne. congruence.
Qed.

(** The calls that neither open nor wrap change no counter but that of the
    innermost open container. *)
Lemma run_op_other_slot op state m j :
  opens_of op = 0 ->
  j <> Z.to_nat (nesting_depth state) ->
  objects (fst (run_op op (state, m))) !!! j = objects state !!! j.
Proof.
  intros Hop Hj.
  assert (Hinc : forall s, nesting_depth s = nesting_depth state ->
            objects s = objects state ->
            objects (increment s) !!! j = objects state !!! j).
  { intros s Hn Ho. rewrite increment_other_slot by congruence.
    rewrite Ho. reflexivity. }
  assert (Hpu : forall s m1 v, nesting_depth s = nesting_depth state ->
            objects s = objects state ->
            objects (fst (cbor_prepend_unsigned s m1 v)) !!! j
            = objects state !!! j).
  { intros s m1 v Hn Ho. unfold cbor_prepend_unsigned.
    destruct (prepend_unsigned_fields s m1 v) as [Hn' Ho'].
    destruct (prepend_unsigned s m1 v) as [s1 m2]. cbn [fst] in *.
    apply Hinc; congruence. }
  assert (Hstr : forall mt string0 n,
            objects (fst (prepend_string mt state m string0 n)) !!! j
            = objects state !!! j).
  { intros mt string0 n. unfold prepend_string.
    destruct (prepend_object_fields state m string0 n) as [Hn Ho].
    destruct (prepend_object state m string0 n) as [s1 m1]. cbn [fst] in *.
    pose proof (Hpu s1 m1 n Hn Ho) as H.
    destruct (cbor_prepend_unsigned s1 m1 n) as [s2 m2].
    destruct (buffer s2 =? NULL); exact H. }
  assert (Hsimple : forall value,
            objects (fst (prepend_simple state m value)) !!! j
            = objects state !!! j).
  { intros value. unfold prepend_simple.
    destruct (buffer_size state =? 0); [reflexivity |].
    cbn [fst]. apply Hinc; reflexivity. }
  destruct op; cbn [opens_of] in Hop; try discriminate; cbn [run_op].
  - unfold cbor_prepend_object.
    destruct (prepend_object_fields state m object0 object_size) as [Hn Ho].
    destruct (prepend_object state m object0 object_size) as [s1 m1].
    cbn [fst] in *. apply Hinc; assumption.
  - apply Hpu; reflexivity.
  - unfold cbor_wrap_data.
    pose proof (Hpu state m data_size eq_refl eq_refl) as H.
    destruct (cbor_prepend_unsigned state m data_size) as [s1 m1].
    destruct (buffer s1 =? NULL); exact H.
  - rewrite cbor_prepend_data_eq. apply Hstr.
  - rewrite cbor_prepend_text_eq. apply Hstr.
  - apply Hsimple.
  - apply Hsimple.
  - apply Hsimple.
Qed.

Lemma item_opens_nothing op sz : item_size op = Some sz -> opens_of op = 0.
Proof. destruct op; cbn; try discriminate; reflexivity. Qed.

Lemma run_items_other_slot ops : forall total state m j,
  items_size ops = Some total ->
  j <> Z.to_nat (nesting_depth state) ->
  objects (fst (run_ops ops (state, m))) !!! j = objects state !!! j.
Proof.
  induction ops as [|op ops IH]; intros total state m j Hsize Hj;
    [reflexivity |].
  cbn [items_size] in Hsize.
  destruct (item_size op) as [sz|] eqn:Hsz; [| discriminate].
  destruct (items_size ops) as [rest|] eqn:Hrest; [| discriminate].
  rewrite run_ops_cons.
  pose proof (item_opens_nothing op sz Hsz) as Hop.
  pose proof (run_op_same_depth op state m Hop) as Hn.
  pose proof (run_op_other_slot op state m j Hop Hj) as Hslot.
  destruct (run_op op (state, m)) as [state1 m1]. cbn [fst] in *.
  rewrite (IH rest state1 m1 j eq_refl) by congruence. exact Hslot.
Qed.

(** The counters after a successful wrap: the container that has become
    the innermost one, if any, has one item more. *)
Lemma wrap_container_objects mt argument state m :
  0 <= argument <= UINT64_MAX ->
  CBOR_UNSIGNED_SIZE argument <= buffer_size state <= SIZE_MAX ->
  NULL < buffer state - buffer_size state ->
  0 <= nesting_depth state < CBOR_MAX_NESTING ->
  objects (snd (fst (wrap_container mt argument state m)))
  = if nesting_depth state + 1 =? CBOR_MAX_NESTING then objects state
    else <[Z.to_nat (nesting_depth state + 1) :=
             to_size_t (object state (nesting_depth state + 1) + 1)]>
           (objects state).
Proof.
  pose proof CBOR_MAX_NESTING_range as Hmaxn. unfold max_nesting_fits in Hmaxn.
  intros Harg Hs Hbase Hnd.
  pose proof (CBOR_UNSIGNED_SIZE_range argument) as Hus.
  destruct (prepend_unsigned_ok state m argument Harg Hs)
    as (m1 & Heq & _).
  unfold wrap_container. rewrite Heq. clear Heq.
  cbn [buffer].
  destruct (Z.eqb_spec (buffer state - CBOR_UNSIGNED_SIZE argument) NULL);
    [unfold NULL in *; lia |].
  unfold set_nesting_depth, set_object, object.
  cbn [nesting_depth buffer buffer_size objects].
  rewrite !(to_size_t_id (nesting_depth state + 1)) by lia.
  destruct (nesting_depth state + 1 =? CBOR_MAX_NESTING); reflexivity.
Qed.

Lemma nested_container mt argument base nd c free state m items total :
  In mt header_major_types ->
  in_container base nd c free state ->
  NULL < base ->
  1 <= nd < CBOR_MAX_NESTING ->
  0 <= c < SIZE_MAX ->
  items_size items = Some total ->
  0 <= argument <= Z.of_nat (length items) ->
  CBOR_UNSIGNED_SIZE argument + total <= free ->
  free <= SIZE_MAX ->
  let '(r_open, state1) := cbor_open_array state in
  let '(state2, m2) := run_ops items (state1, m) in
  nesting_depth state2 = nd - 1 /\
  object state2 (nd - 1) = Z.of_nat (length items) /\
  let '(r_wrap, state3, m3) := wrap_container mt argument state2 m2 in
  r_open = buffer state /\
  r_wrap = buffer state3 /\
  r_open - r_wrap = CBOR_UNSIGNED_SIZE argument + total /\
  in_container base nd (c + 1)
    (free - total - CBOR_UNSIGNED_SIZE argument) state3 /\
  header_at m3 r_wrap mt argument.
Proof.
  pose proof CBOR_MAX_NESTING_range as Hmaxn. unfold max_nesting_fits in Hmaxn.
  pose proof SIZE_MAX_bounds as Hmax.
  intros Hmt Hin Hbase Hnd Hc Hitems Harg Hroom Hfree.
  pose proof Hin as (Hb & Hs & Hn & Hlen & Hobj).
  pose proof (items_size_length items total Hitems) as Hlen_items.
  pose proof (CBOR_UNSIGNED_SIZE_range argument) as Hus.
  unfold cbor_open_array. rewrite Hn.
  destruct (Z.eqb_spec nd 0); [lia |].
  rewrite to_size_t_id by lia.
  set (state1 := set_object (set_nesting_depth state (nd - 1))
                   (nesting_depth (set_nesting_depth state (nd - 1))) 0).
  assert (Hin1 : in_container base (nd - 1) 0 free state1).
  { unfold in_container, state1, object, set_object, set_nesting_depth.
    cbn [buffer buffer_size nesting_depth objects].
    rewrite length_insert, list_lookup_total_insert_eq by lia. auto. }
  assert (Hparent1 : objects state1 !!! Z.to_nat nd = c).
  { unfold state1, set_object, set_nesting_depth.
    cbn [nesting_depth objects].
    rewrite list_lookup_total_insert_ne by lia. exact Hobj. }
  pose proof (run_items items total base (nd - 1) 0 free state1 m Hitems
    Hbase ltac:(lia) ltac:(lia) ltac:(lia) ltac:(lia) Hin1) as Hin2.
  pose proof (run_items_other_slot items total state1 m (Z.to_nat nd) Hitems)
    as Hparent2.
  destruct (run_ops items (state1, m)) as [state2 m2]. cbn [fst] in *.
  rewrite Z.add_0_l in Hin2.
  pose proof Hin2 as (Hb2 & Hs2 & Hn2 & Hlen2 & Hobj2).
  split; [exact Hn2 |]. split; [exact Hobj2 |].
  rewrite Hparent1 in Hparent2.
  specialize (Hparent2 ltac:(unfold state1; cbn; lia)).
  destruct (wrap_container_ok mt argument state2 m2 Hmt ltac:(lia)
    ltac:(lia) ltac:(lia) ltac:(lia))
    as (state3 & m3 & Heq & Hb3 & Hs3 & Hn3 & Hhdr & _).
  pose proof (wrap_container_objects mt argument state2 m2 ltac:(lia)
    ltac:(lia) ltac:(lia) ltac:(lia)) as Hobjs.
  rewrite Heq in *. cbn [fst snd] in Hobjs.
  rewrite Hn2 in Hobjs. replace (nd - 1 + 1) with nd in Hobjs by lia.
  destruct (Z.eqb_spec nd CBOR_MAX_NESTING); [lia |].
  unfold object in Hobjs. rewrite Hparent2 in Hobjs.
  rewrite to_size_t_id in Hobjs by lia.
  split; [cbn; reflexivity |]. split; [congruence |].
  split; [cbn [buffer state1 set_object set_nesting_depth]; lia |].
  split; [| rewrite <- Hb3; exact Hhdr].
  unfold in_container, object. rewrite Hobjs.
  rewrite length_insert, list_lookup_total_insert_eq by lia.
  repeat split; lia.
Qed.

(** X13. A nested container is one item of its parent.  In a writer
    that is inside an open container with counter [c], with another
    nesting level left, opening an array or a map, prepending items of
    [total] bytes in all (an even number of them for a map) and wrapping
    it, with room for the items and the header, succeeds: the open call
    returns the cursor it found, which is the first byte after the
    container, the wrap call returns the new cursor, which
    is the first byte of the container, the two are the header and the
    items apart, the enclosing nesting level is restored with its counter
    at [c + 1], whatever the number of items written inside, and reading
    the header between the two returned pointers gives the number of
    items, halved for a map, and leaves exactly the items. *)
Theorem nested_container_is_one_item (as_map : bool) base nd c free
    state rstate m items total :
  in_container base nd c free state ->
  NULL < base ->
  1 <= nd < CBOR_MAX_NESTING ->
  0 <= c < SIZE_MAX ->
  items_size items = Some total ->
  (as_map = true -> Z.land (Z.of_nat (length items)) 1 = 0) ->
  free <= SIZE_MAX ->
  CBOR_UNSIGNED_SIZE (if as_map then Z.shiftr (Z.of_nat (length items)) 1
                      else Z.of_nat (length items)) + total <= free ->
  let count := if as_map then Z.shiftr (Z.of_nat (length items)) 1
               else Z.of_nat (length items) in
  let '(after, state1) :=
    if as_map then cbor_open_map state else cbor_open_array state in
  let '(state2, m2) := run_ops items (state1, m) in
  let '(first, state3, m3) :=
    if as_map then cbor_wrap_map state2 m2 else cbor_wrap_array state2 m2 in
  after = base + free /\
  first = buffer state3 /\
  after - first = CBOR_UNSIGNED_SIZE count + total /\
  in_container base nd (c + 1) (free - total - CBOR_UNSIGNED_SIZE count)
    state3 /\
  (let reader := cbor_init_reader rstate first (after - first) in
   if as_map then cbor_read_map reader m3 else cbor_read_array reader m3)
  = (count, {| cbor := first + CBOR_UNSIGNED_SIZE count; cbor_size := total |}).
Proof.
  pose proof SIZE_MAX_bounds as Hmax.
  intros Hin Hbase Hnd Hc Hitems Heven Hfree Hroom count.
  change (CBOR_UNSIGNED_SIZE count + total <= free) in Hroom.
  pose proof (items_size_length items total Hitems) as Hlen_items.
  pose proof (CBOR_UNSIGNED_SIZE_range count) as Hus.
  assert (Hcount : 0 <= count <= Z.of_nat (length items)).
  { unfold count. destruct as_map; [| lia].
    rewrite Z.shiftr_div_pow2 by lia. change (2 ^ 1) with 2.
    split; [apply Z.div_pos; lia |].
    apply Z.div_le_upper_bound; lia. }
  set (mt := if as_map then CBOR_MAJOR_TYPE_MAP else CBOR_MAJOR_TYPE_ARRAY).
  assert (Hmt : In mt header_major_types).
  { unfold mt, header_major_types. destruct as_map; cbn; tauto. }
  pose proof (nested_container mt count base nd c free state m items total
    Hmt Hin Hbase Hnd Hc Hitems Hcount Hroom Hfree) as H.
  assert (Hopen : (if as_map then cbor_open_map state
                   else cbor_open_array state) = cbor_open_array state)
    by (destruct as_map; reflexivity).
  rewrite Hopen. clear Hopen.
  destruct (cbor_open_array state) as [after state1].
  destruct (run_ops items (state1, m)) as [state2 m2].
  destruct H as (Hn2 & Hobj2 & H).
  assert (Hwrap : (if as_map then cbor_wrap_map state2 m2
                   else cbor_wrap_array state2 m2)
                  = wrap_container mt count state2 m2).
  { unfold mt, count. destruct as_map.
    - rewrite cbor_wrap_map_eq, Hn2, Hobj2, (Heven eq_refl).
      destruct (Z.eqb_spec (nd - 1) CBOR_MAX_NESTING); [lia |].
      reflexivity.
    - rewrite cbor_wrap_array_eq, Hn2, Hobj2.
      destruct (Z.eqb_spec (nd - 1) CBOR_MAX_NESTING); [lia |].
      reflexivity. }
  rewrite Hwrap. clear Hwrap.
  destruct (wrap_container mt count state2 m2) as [[first state3] m3].
  destruct H as (Hafter & Hfirst & Hdist & Hin3 & Hhdr).
  pose proof Hin as (Hb & _).
  split; [congruence |]. split; [exact Hfirst |]. split; [exact Hdist |].
  split; [exact Hin3 |].
  cbv zeta.
  assert (Hmt' : mt = CBOR_MAJOR_TYPE_ARRAY \/ mt = CBOR_MAJOR_TYPE_MAP)
    by (unfold mt; destruct as_map; tauto).
  pose proof (read_container_count mt m3 first count
    (cbor_init_reader rstate first (after - first)) Hmt' ltac:(lia) Hhdr
    eq_refl) as Hread.
  assert (Hsz : cbor_size (cbor_init_reader rstate first (after - first))
                = CBOR_UNSIGNED_SIZE count + total).
  { unfold cbor_init_reader, set_cbor_size, set_cbor. cbn [cbor_size].
    exact Hdist. }
  rewrite Hsz in Hread. specialize (Hread ltac:(lia)).
  unfold mt in Hread. destruct as_map; cbn [Z.eqb] in Hread.
  - change (CBOR_MAJOR_TYPE_MAP =? CBOR_MAJOR_TYPE_ARRAY) with false in Hread.
    rewrite Hread. f_equal. f_equal. lia.
  - change (CBOR_MAJOR_TYPE_ARRAY =? CBOR_MAJOR_TYPE_ARRAY) with true in Hread.
    rewrite Hread. f_equal. f_equal. lia.
Qed.

(** ** Arrays of unsigned integers *)

Lemma header_at_ext m m' p mt v :
  (forall a, p <= a < p + CBOR_UNSIGNED_SIZE v -> load8 m' a = load8 m a) ->
  header_at m p mt v -> header_at m' p mt v.
Proof.
  intros Hext [Hbyte Hloop].
  pose proof (CBOR_UNSIGNED_SIZE_range v) as Hus.
  split.
  - rewrite Hext by lia. exact Hbyte.
  - intros Hv. rewrite <- (Hloop Hv).
    apply cbor_read_unsigned_loop_ext. intros a Ha. apply Hext. lia.
Qed.

Lemma unsigneds_at_ext m m' values : forall p,
  (forall a, p <= a -> load8 m' a = load8 m a) ->
  unsigneds_at m p values -> unsigneds_at m' p values.
Proof.
  induction values as [|v values IH]; intros p Hext H; [exact I |].
  destruct H as [Hhdr Hrest].
  pose proof (CBOR_UNSIGNED_SIZE_range v) as Hus.
  split.
  - apply (header_at_ext m); [intros a Ha; apply Hext; lia | exact Hhdr].
  - apply IH; [intros a Ha; apply Hext; lia | exact Hrest].
Qed.

Lemma unsigneds_size_nonneg values : 0 <= unsigneds_size values.
Proof.
  induction values as [|v values IH]; cbn [unsigneds_size]; [lia |].
  pose proof (CBOR_UNSIGNED_SIZE_range v). lia.
Qed.

Lemma unsigneds_size_app l1 l2 :
  unsigneds_size (l1 ++ l2) = unsigneds_size l1 + unsigneds_size l2.
Proof.
  induction l1 as [|v l1 IH]; cbn [unsigneds_size app]; [lia |].
  rewrite IH. lia.
Qed.

Lemma unsigneds_size_rev values :
  unsigneds_size (rev values) = unsigneds_size values.
Proof.
  induction values as [|v values IH]; [reflexivity |].
  cbn [rev]. rewrite unsigneds_size_app, IH. cbn [unsigneds_size]. lia.
Qed.

Lemma items_size_unsigneds values :
  Forall (fun v => 0 <= v <= UINT64_MAX) values ->
  items_size (map op_prepend_unsigned values) = Some (unsigneds_size values).
Proof.
  induction 1 as [|v values Hv _ IH]; [reflexivity |].
  cbn [map items_size item_size unsigneds_size]. rewrite IH.
  destruct (Z.leb_spec 0 v); [| lia].
  destruct (Z.leb_spec v UINT64_MAX); [| lia].
  reflexivity.
Qed.

(** Reading back what [unsigneds_at] describes. *)
Lemma read_unsigneds_ok m values : forall state,
  Forall (fun v => 0 <= v <= UINT64_MAX) values ->
  unsigneds_at m (cbor state) values ->
  unsigneds_size values <= cbor_size state <= SIZE_MAX ->
  read_unsigneds (length values) state m
  = (Some values,
     {| cbor := cbor state + unsigneds_size values;
        cbor_size := cbor_size state - unsigneds_size values |}).
Proof.
  induction values as [|v values IH]; intros state Hrange Hat Hsize.
  - cbn. destruct state. cbn. do 2 f_equal; lia.
  - destruct Hat as [Hhdr Hrest].
    pose proof (Forall_inv Hrange) as Hv.
    cbv beta in Hv.
    pose proof (Forall_inv_tail Hrange) as Hvs.
    pose proof (CBOR_UNSIGNED_SIZE_range v) as Hus.
    pose proof (unsigneds_size_nonneg values) as Hnn.
    cbn [unsigneds_size] in Hsize.
    destruct (header_read m (cbor state) CBOR_MAJOR_TYPE_UNSIGNED v state 0)
      as [_ Hread];
      [cbn; tauto | exact Hv | exact Hhdr | reflexivity | lia |].
    cbn [length read_unsigneds]. rewrite Hread.
    assert (Hsz : ((if v <? CBOR_SIZE_1 then CBOR_SIZE_1 else jump_byte_of v)
                   =? CBOR_SIZE_NONE) = false).
    { pose proof (jump_byte_of_range v ltac:(lia)).
      apply Z.eqb_neq. unfold CBOR_SIZE_NONE, CBOR_SIZE_1.
      destruct (v <? 24); lia. }
    rewrite Hsz.
    rewrite (IH {| cbor := cbor state + CBOR_UNSIGNED_SIZE v;
                   cbor_size := cbor_size state - CBOR_UNSIGNED_SIZE v |}
               Hvs Hrest ltac:(cbn [cbor_size]; lia)).
    cbn [option_map cbor cbor_size unsigneds_size]. do 2 f_equal; lia.
Qed.

(** Prepending [values] one by one lays them out in reverse, in front of
    what the buffer holds already. *)
Lemma prepend_unsigneds values : forall acc base nd c free state m,
  Forall (fun v => 0 <= v <= UINT64_MAX) values ->
  NULL < base ->
  0 <= nd < CBOR_MAX_NESTING ->
  0 <= c -> c + Z.of_nat (length values) <= SIZE_MAX ->
  unsigneds_size values <= free <= SIZE_MAX ->
  in_container base nd c free state ->
  unsigneds_at m (buffer state) acc ->
  let '(state', m') := run_ops (map op_prepend_unsigned values) (state, m) in
  in_container base nd (c + Z.of_nat (length values))
    (free - unsigneds_size values) state' /\
  unsigneds_at m' (buffer state') (rev values ++ acc).
Proof.
  induction values as [|v values IH];
    intros acc base nd c free state m Hrange Hbase Hnd Hc Hcount Hfree Hin Hat.
  - cbn. rewrite Z.add_0_r, Z.sub_0_r. auto.
  - pose proof (Forall_inv Hrange) as Hv.
    cbv beta in Hv.
    pose proof (Forall_inv_tail Hrange) as Hvs.
    pose proof (CBOR_UNSIGNED_SIZE_range v) as Hus.
    pose proof (unsigneds_size_nonneg values) as Hnn.
    cbn [unsigneds_size] in Hfree.
    cbn [length] in Hcount.
    pose proof Hin as (Hb & Hs & _).
    assert (Hitem : item_size (op_prepend_unsigned v)
                    = Some (CBOR_UNSIGNED_SIZE v)).
    { cbn [item_size].
      destruct (Z.leb_spec 0 v); [| lia].
      destruct (Z.leb_spec v UINT64_MAX); [| lia]. reflexivity. }
    pose proof (run_item (op_prepend_unsigned v) (CBOR_UNSIGNED_SIZE v) base
      nd c free state m Hitem Hbase Hnd ltac:(lia) ltac:(lia) Hin) as Hin1.
    cbn [map]. rewrite run_ops_cons. cbn [run_op] in *.
    destruct (prepend_unsigned_ok state m v Hv ltac:(lia))
      as (m1 & Heq & Hout & Hhdr).
    unfold cbor_prepend_unsigned in *. rewrite Heq in *. cbn [fst] in Hin1.
    match type of Hin1 with
    | in_container _ _ _ _ ?s => set (state1 := s) in *
    end.
    assert (Hb1 : buffer state1 = buffer state - CBOR_UNSIGNED_SIZE v).
    { unfold state1.
      match goal with |- buffer (increment ?s) = _ =>
        destruct (increment_fields s) as (-> & _) end.
      reflexivity. }
    assert (Hat1 : unsigneds_at m1 (buffer state1) (v :: acc)).
    { rewrite Hb1. split; [exact Hhdr |].
      replace (buffer state - CBOR_UNSIGNED_SIZE v + CBOR_UNSIGNED_SIZE v)
        with (buffer state) by lia.
      apply (unsigneds_at_ext m); [| exact Hat].
      intros a Ha. unfold load8. rewrite Hout by lia. reflexivity. }
    pose proof (IH (v :: acc) base nd (c + 1) (free - CBOR_UNSIGNED_SIZE v)
      state1 m1 Hvs Hbase Hnd ltac:(lia) ltac:(lia) ltac:(lia) Hin1 Hat1)
      as Hfinal.
    destruct (run_ops (map op_prepend_unsigned values) (state1, m1))
      as [state' m'].
    destruct Hfinal as [Hin' Hat'].
    split.
    + replace (c + Z.of_nat (length (v :: values)))
        with (c + 1 + Z.of_nat (length values)) by (cbn [length]; lia).
      replace (free - unsigneds_size (v :: values))
        with (free - CBOR_UNSIGNED_SIZE v - unsigneds_size values)
        by (cbn [unsigneds_size]; lia).
      exact Hin'.
    + cbn [rev]. rewrite <- app_assoc. exact Hat'.
Qed.

(** X14. An array of unsigned integers, written and read back.  The
    session [cbor_init_writer], [cbor_open_array], one
    [cbor_prepend_unsigned] per element of [values], [cbor_wrap_array],
    [cbor_stop_writer], on a buffer with room for the array, succeeds;
    on its output [cbor_read_array] returns the number of elements, that
    many calls of [cbor_read_unsigned] all succeed and return the values
    in the reverse of the order in which they were prepended, and the
    reader then stands at the end of the buffer with nothing left. *)
Theorem unsigned_array_round_trip state rstate m buffer0 buffer_size0
    values :
  length (objects state) = Z.to_nat CBOR_MAX_NESTING ->
  NULL < buffer0 ->
  buffer_size0 <= SIZE_MAX ->
  Forall (fun v => 0 <= v <= UINT64_MAX) values ->
  CBOR_UNSIGNED_SIZE (Z.of_nat (length values)) + unsigneds_size values
  <= buffer_size0 ->
  let '(cbor_start, m') :=
    array_session state m buffer0 buffer_size0
      (map op_prepend_unsigned values) in
  cbor_start <> NULL /\
  let '(n, reader) :=
    cbor_read_array (reader_on rstate buffer0 buffer_size0 cbor_start) m' in
  n = Z.of_nat (length values) /\
  let '(result, reader) := read_unsigneds (Z.to_nat n) reader m' in
  result = Some (rev values) /\
  fst (cbor_stop_reader reader) = buffer0 + buffer_size0 /\
  cbor_size reader = 0.
Proof.
  pose proof CBOR_MAX_NESTING_range as Hmaxn. unfold max_nesting_fits in Hmaxn.
  pose proof SIZE_MAX_bounds as Hmax.
  intros Hlen Hbase Hsize Hrange Hroom.
  pose proof (open_container state buffer0 buffer_size0 Hlen) as Hopen.
  pose proof (items_size_unsigneds values Hrange) as Hitems.
  pose proof (items_size_length _ _ Hitems) as Hlen_items.
  rewrite length_map in Hlen_items.
  pose proof (unsigneds_size_nonneg values) as Hnn.
  set (k := Z.of_nat (length values)) in *.
  pose proof (CBOR_UNSIGNED_SIZE_range k) as Hus.
  unfold array_session.
  destruct (cbor_open_array (cbor_init_writer state buffer0 buffer_size0))
    as [r state1]. cbn [snd] in Hopen.
  pose proof (prepend_unsigneds values [] buffer0 (CBOR_MAX_NESTING - 1) 0
    buffer_size0 state1 m Hrange Hbase ltac:(lia) ltac:(lia)
    ltac:(fold k; lia) ltac:(lia) Hopen I) as Hrun.
  destruct (run_ops (map op_prepend_unsigned values) (state1, m))
    as [state2 m2].
  destruct Hrun as [Hin Hat]. fold k in Hin.
  rewrite Z.add_0_l in Hin. rewrite app_nil_r in Hat.
  pose proof Hin as (Hb2 & Hs2 & Hn2 & _ & Hc2).
  rewrite cbor_wrap_array_eq, Hn2, Hc2.
  destruct (Z.eqb_spec (CBOR_MAX_NESTING - 1) CBOR_MAX_NESTING); [lia |].
  destruct (wrap_container_ok CBOR_MAJOR_TYPE_ARRAY k state2 m2
    ltac:(cbn; tauto) ltac:(unfold k; lia) ltac:(lia) ltac:(lia) ltac:(lia))
    as (state3 & m3 & Heq & Hb3 & Hs3 & Hn3 & Hhdr & Hout).
  rewrite Heq.
  unfold cbor_stop_writer. cbn [fst].
  rewrite Hn3, Hn2.
  replace (CBOR_MAX_NESTING - 1 + 1) with CBOR_MAX_NESTING by lia.
  rewrite Z.eqb_refl.
  split; [unfold NULL in *; lia |].
  pose proof (read_container_count CBOR_MAJOR_TYPE_ARRAY m3 (buffer state3) k
    (reader_on rstate buffer0 buffer_size0 (buffer state3))
    ltac:(tauto) ltac:(unfold k; lia) Hhdr eq_refl) as Hread.
  assert (Hsz : cbor_size (reader_on rstate buffer0 buffer_size0
                             (buffer state3))
                = CBOR_UNSIGNED_SIZE k + unsigneds_size values).
  { unfold reader_on, cbor_init_reader, set_cbor_size, set_cbor.
    cbn [cbor_size]. lia. }
  rewrite Hsz in Hread. specialize (Hread ltac:(lia)).
  change (CBOR_MAJOR_TYPE_ARRAY =? CBOR_MAJOR_TYPE_ARRAY) with true in Hread.
  cbv iota in Hread. rewrite Hread.
  split; [reflexivity |].
  unfold k at 1. rewrite Nat2Z.id, <- length_rev.
  rewrite read_unsigneds_ok.
  - cbn [cbor cbor_size cbor_stop_reader fst].
    rewrite unsigneds_size_rev.
    split; [reflexivity |]. split; lia.
  - apply Forall_rev. exact Hrange.
  - cbn [cbor]. rewrite Hb3.
    replace (buffer state2 - CBOR_UNSIGNED_SIZE k + CBOR_UNSIGNED_SIZE k)
      with (buffer state2) by lia.
    apply (unsigneds_at_ext m2); [| exact Hat].
    intros a Ha. apply Hout. lia.
  - cbn [cbor_size]. rewrite unsigneds_size_rev. lia.
Qed.

(** ** Successful reads of array and map headers *)

Lemma read_array_or_map_success state m :
  0 <= cbor_size state <= SIZE_MAX ->
  fst (read_array_or_map state m) <> SIZE_MAX ->
  let '(count, state') := read_array_or_map state m in
  0 <= count < SIZE_MAX /\
  In (cbor state' - cbor state) [1; 2; 3; 5; 9] /\
  cbor state' + cbor_size state' = cbor state + cbor_size state /\
  0 <= cbor_size state'.
Proof.
  intros Hsize Hok.
  pose proof SIZE_MAX_bounds as Hmax.
  assert (Hpos : 1 <= cbor_size state).
  { destruct (Z.eq_dec (cbor_size state) 0) as [Hz|]; [| lia].
    exfalso. apply Hok. unfold read_array_or_map, cbor_read_unsigned.
    rewrite Hz. reflexivity. }
  pose proof (cbor_read_unsigned_advance state m 0 ltac:(lia))
    as (a & Ha & Hfit & Hcur & Hrem).
  pose proof (cbor_read_unsigned_value_range state m 0
    ltac:(unfold UINT64_MAX; lia)) as Hval.
  unfold read_array_or_map in *.
  destruct (cbor_read_unsigned state m 0) as [[r state'] value].
  cbn [fst snd] in *.
  destruct (CBOR_SIZE_NONE =? r); cbn [orb] in *;
    [exfalso; apply Hok; reflexivity |].
  destruct (Z.leb_spec SIZE_MAX value);
    [exfalso; apply Hok; reflexivity |].
  rewrite to_size_t_id by lia.
  split; [lia |]. split; [| lia].
  replace (cbor state' - cbor state) with (1 + a) by lia.
  cbn in Ha. cbn.
  destruct Ha as [<- | [<- | [<- | [<- | [<- | []]]]]]; tauto.
Qed.

(** X15. What a successful read of an array or map header means.  When
    [cbor_read_array] (respectively [cbor_read_map]) returns something
    else than [SIZE_MAX], the next major type was array (respectively
    map), the count is below [SIZE_MAX], and the reader has consumed the
    header only, 1, 2, 3, 5 or 9 bytes, all of them inside the input: the
    elements are left for the calls that follow. *)
Theorem container_read_consumes_header astate mstate m :
  0 <= cbor_size astate <= SIZE_MAX ->
  fst (cbor_read_array astate m) <> SIZE_MAX ->
  0 <= cbor_size mstate <= SIZE_MAX ->
  fst (cbor_read_map mstate m) <> SIZE_MAX ->
  (let '(count, astate') := cbor_read_array astate m in
   fst (cbor_read_next astate m) = CBOR_MAJOR_TYPE_ARRAY /\
   0 <= count < SIZE_MAX /\
   In (cbor astate' - cbor astate) [1; 2; 3; 5; 9] /\
   cbor astate' + cbor_size astate' = cbor astate + cbor_size astate /\
   0 <= cbor_size astate') /\
  (let '(count, mstate') := cbor_read_map mstate m in
   fst (cbor_read_next mstate m) = CBOR_MAJOR_TYPE_MAP /\
   0 <= count < SIZE_MAX /\
   In (cbor mstate' - cbor mstate) [1; 2; 3; 5; 9] /\
   cbor mstate' + cbor_size mstate' = cbor mstate + cbor_size mstate /\
   0 <= cbor_size mstate').
Proof.
  intros Has Haok Hms Hmok.
  split.
  - unfold cbor_read_array in *.
    pose proof (cbor_read_next_same astate m) as Hsame.
    destruct (cbor_read_next astate m) as [next state1].
    cbn [fst snd] in *. subst state1.
    destruct (Z.eqb_spec next CBOR_MAJOR_TYPE_ARRAY) as [Hnext | Hnext];
      cbn [negb] in *; [| exfalso; apply Haok; reflexivity].
    pose proof (read_array_or_map_success astate m Has Haok) as H.
    destruct (read_array_or_map astate m) as [count astate'].
    split; [exact Hnext | exact H].
  - unfold cbor_read_map in *.
    pose proof (cbor_read_next_same mstate m) as Hsame.
    destruct (cbor_read_next mstate m) as [next state1].
    cbn [fst snd] in *. subst state1.
    destruct (Z.eqb_spec next CBOR_MAJOR_TYPE_MAP) as [Hnext | Hnext];
      cbn [negb] in *; [| exfalso; apply Hmok; reflexivity].
    pose proof (read_array_or_map_success mstate m Hms Hmok) as H.
    destruct (read_array_or_map mstate m) as [count mstate'].
    split; [exact Hnext | exact H].
Qed.

End Cbor.

(** * Instances *)

Lemma native_size_t_fits : size_t_fits native_size_bits.
Proof. unfold size_t_fits, native_size_bits. lia. Defined.

Lemma default_max_nesting_fits :
  max_nesting_fits native_size_bits default_max_nesting.
Proof.
  unfold max_nesting_fits, SIZE_MAX, native_size_bits, default_max_nesting.
  lia.
Defined.

(** The test of tests/08-native-runs/16-cbor/test-cbor.c: the array
    [[123, h'0A0B0C']] written into a buffer of 128 bytes and read back. *)
Example test_write_read :
  let '(cbor_start, m) :=
    array_session native_size_bits default_max_nesting blank_writer
      foo_memory 1000 128 [op_prepend_unsigned 123; op_prepend_data 5000 3] in
  let reader := reader_on blank_reader 1000 128 cbor_start in
  let '(count, reader) := cbor_read_array native_size_bits reader m in
  let '(data, reader, data_size) :=
    cbor_read_data native_size_bits reader m 0 in
  let '(r, reader, value) := cbor_read_unsigned native_size_bits reader m 0 in
  load_bytes m cbor_start 7 = [0x82; 0x43; 0x0A; 0x0B; 0x0C; 0x18; 0x7B] /\
  count = 2 /\
  data_size = 3 /\ load_bytes m data 3 = [0x0A; 0x0B; 0x0C] /\
  r <> CBOR_SIZE_NONE /\ value = 123 /\ cbor_size reader = 0.
Proof. vm_compute. repeat split; discriminate. Qed.

(** With a 2-byte buffer the same array of one unsigned 123 does not fit:
    [cbor_stop_writer] returns [NULL]. *)
Example test_buffer_too_small :
  fst (array_session native_size_bits default_max_nesting blank_writer
         foo_memory 1000 2 [op_prepend_unsigned 123]) = NULL.
Proof. vm_compute. reflexivity. Qed.

(** The map [{1: true}]: the writer emits 0xA1 0x01 0xF5, and the reader
    finds one pair, the key 1 and the simple value [true]. *)
Example test_map_true :
  let '(cbor_start, m) :=
    map_session native_size_bits default_max_nesting blank_writer
      foo_memory 1000 128 [op_prepend_bool 1; op_prepend_unsigned 1] in
  let reader := reader_on blank_reader 1000 128 cbor_start in
  let '(count, reader) := cbor_read_map native_size_bits reader m in
  let '(r, reader, key) := cbor_read_unsigned native_size_bits reader m 0 in
  let '(value, reader) := cbor_read_simple native_size_bits reader m in
  load_bytes m cbor_start 3 = [0xA1; 0x01; 0xF5] /\
  count = 1 /\ key = 1 /\ value = CBOR_SIMPLE_VALUE_TRUE /\
  fst (cbor_stop_reader reader) = 1000 + 128.
Proof. vm_compute. repeat split. Qed.

(** The empty array is the single byte 0x80, the empty map 0xA0. *)
Example test_empty_containers :
  let '(array_start, m) :=
    array_session native_size_bits default_max_nesting blank_writer
      foo_memory 1000 1 [] in
  let '(map_start, m') :=
    map_session native_size_bits default_max_nesting blank_writer
      foo_memory 1000 1 [] in
  load_bytes m array_start 1 = [0x80] /\
  load_bytes m' map_start 1 = [0xA0] /\
  fst (cbor_read_array native_size_bits
         (reader_on blank_reader 1000 1 array_start) m) = 0 /\
  fst (cbor_read_map native_size_bits
         (reader_on blank_reader 1000 1 map_start) m') = 0.
Proof. vm_compute. repeat split. Qed.

(** ** The theorems at concrete inputs *)

(** The value 1000 written into a 16-byte buffer at address 4096. *)
Lemma unsigned_round_trip_witness :
  (0 <= 1000 < 2 ^ 64 /\ NULL < 4096 /\
   9 <= 16 <= SIZE_MAX native_size_bits) /\
  (let '(state', m') :=
     cbor_prepend_unsigned native_size_bits default_max_nesting
       (cbor_init_writer default_max_nesting blank_writer 4096 16)
       foo_memory 1000 in
   let cbor_start := fst (cbor_stop_writer default_max_nesting state') in
   let produced := 16 - (cbor_start - 4096) in
   let '(r, rstate', value) :=
     cbor_read_unsigned native_size_bits
       (cbor_init_reader blank_reader cbor_start produced) m' 0 in
   cbor_start <> NULL /\
   r <> CBOR_SIZE_NONE /\
   value = 1000 /\
   produced = shortest_form_size 1000 /\
   cbor_size rstate' = 0).
Proof.
  assert (Hhyp : 0 <= 1000 < 2 ^ 64 /\ NULL < 4096 /\
                 9 <= 16 <= SIZE_MAX native_size_bits)
    by (unfold NULL, SIZE_MAX, native_size_bits; lia).
  split; [exact Hhyp |].
  destruct Hhyp as (Hv & Hbase & Hsize).
  exact (unsigned_round_trip native_size_bits default_max_nesting
           blank_writer blank_reader foo_memory 4096 16 1000 0
           Hv Hbase Hsize).
Defined.

(** The array [[123, h'0A0B0C']] and the map [{1: true}] in 128 bytes. *)
Lemma container_item_count_witness :
  (length (objects blank_writer) = Z.to_nat default_max_nesting /\
   NULL < 1000 /\
   128 <= SIZE_MAX native_size_bits /\
   items_size native_size_bits
     [op_prepend_unsigned 123; op_prepend_data 5000 3] = Some 6 /\
   CBOR_UNSIGNED_SIZE
     (Z.of_nat (length [op_prepend_unsigned 123; op_prepend_data 5000 3]))
   + 6 <= 128 /\
   items_size native_size_bits [op_prepend_bool 1; op_prepend_unsigned 1]
   = Some 2 /\
   length [op_prepend_bool 1; op_prepend_unsigned 1] = (2 * 1)%nat /\
   CBOR_UNSIGNED_SIZE (Z.of_nat 1) + 2 <= 128) /\
  ((let '(cbor_start, m') :=
      array_session native_size_bits default_max_nesting blank_writer
        foo_memory 1000 128
        [op_prepend_unsigned 123; op_prepend_data 5000 3] in
    cbor_start <> NULL /\
    fst (cbor_read_array native_size_bits
           (reader_on blank_reader 1000 128 cbor_start) m')
    = Z.of_nat (length [op_prepend_unsigned 123; op_prepend_data 5000 3])) /\
   (let '(cbor_start, m') :=
      map_session native_size_bits default_max_nesting blank_writer
        foo_memory 1000 128 [op_prepend_bool 1; op_prepend_unsigned 1] in
    cbor_start <> NULL /\
    fst (cbor_read_map native_size_bits
           (reader_on blank_reader 1000 128 cbor_start) m')
    = Z.of_nat 1)).
Proof.
  assert (H1 : length (objects blank_writer) = Z.to_nat default_max_nesting)
    by reflexivity.
  assert (H2 : NULL < 1000) by (unfold NULL; lia).
  assert (H3 : 128 <= SIZE_MAX native_size_bits)
    by (unfold SIZE_MAX, native_size_bits; lia).
  assert (H4 : items_size native_size_bits
                 [op_prepend_unsigned 123; op_prepend_data 5000 3] = Some 6)
    by (vm_compute; reflexivity).
  assert (H5 : CBOR_UNSIGNED_SIZE
                 (Z.of_nat (length [op_prepend_unsigned 123;
                                    op_prepend_data 5000 3])) + 6 <= 128)
    by (vm_compute; discriminate).
  assert (H6 : items_size native_size_bits
                 [op_prepend_bool 1; op_prepend_unsigned 1] = Some 2)
    by (vm_compute; reflexivity).
  assert (H7 : length [op_prepend_bool 1; op_prepend_unsigned 1]
               = (2 * 1)%nat) by reflexivity.
  assert (H8 : CBOR_UNSIGNED_SIZE (Z.of_nat 1) + 2 <= 128)
    by (vm_compute; discriminate).
  split; [repeat split; assumption |].
  exact (container_item_count native_size_bits default_max_nesting
           native_size_t_fits default_max_nesting_fits
           blank_writer blank_reader foo_memory 1000 128
           [op_prepend_unsigned 123; op_prepend_data 5000 3] 6
           [op_prepend_bool 1; op_prepend_unsigned 1] 2 1%nat
           H1 H2 H3 H4 H5 H6 H7 H8).
Defined.

(** C3 as stated fails.  On the single byte 0x58 (a byte-string header
    whose length byte is missing) [cbor_read_data] returns [NULL] with the
    cursor moved from 16 to 17 and the remaining count from 1 to 0; on the
    two bytes 0x63 0x00 (a text string of 3 bytes with one byte of payload)
    [cbor_read_text] returns [NULL] with the cursor moved from 32 to 33 and
    the remaining count from 2 to 1. *)
Lemma string_read_error_advances :
  cbor_read_data native_size_bits {| cbor := 16; cbor_size := 1 |}
    truncated_memory 0
  = (NULL, {| cbor := 17; cbor_size := 0 |}, 0) /\
  cbor_read_text native_size_bits {| cbor := 32; cbor_size := 2 |}
    truncated_memory 0
  = (NULL, {| cbor := 33; cbor_size := 1 |}, 0) /\
  {| cbor := 17; cbor_size := 0 |} <> {| cbor := 16; cbor_size := 1 |} /\
  {| cbor := 33; cbor_size := 1 |} <> {| cbor := 32; cbor_size := 2 |}.
Proof.
  split; [vm_compute; reflexivity |].
  split; [vm_compute; reflexivity |].
  split; discriminate.
Qed.

Lemma string_read_error_state_witness :
  (NULL < cbor {| cbor := 16; cbor_size := 1 |} /\
   0 <= cbor_size {| cbor := 16; cbor_size := 1 |}
     <= SIZE_MAX native_size_bits /\
   fst (fst (cbor_read_data native_size_bits
               {| cbor := 16; cbor_size := 1 |} truncated_memory 0)) = NULL /\
   NULL < cbor {| cbor := 32; cbor_size := 2 |} /\
   0 <= cbor_size {| cbor := 32; cbor_size := 2 |}
     <= SIZE_MAX native_size_bits /\
   fst (fst (cbor_read_text native_size_bits
               {| cbor := 32; cbor_size := 2 |} truncated_memory 0)) = NULL) /\
  ((string_read_error_outcome CBOR_MAJOR_TYPE_BYTE_STRING
      {| cbor := 16; cbor_size := 1 |}
      (snd (fst (cbor_read_data native_size_bits
                   {| cbor := 16; cbor_size := 1 |} truncated_memory 0)))
      truncated_memory /\
    snd (cbor_read_data native_size_bits
           {| cbor := 16; cbor_size := 1 |} truncated_memory 0) = 0) /\
   (string_read_error_outcome CBOR_MAJOR_TYPE_TEXT_STRING
      {| cbor := 32; cbor_size := 2 |}
      (snd (fst (cbor_read_text native_size_bits
                   {| cbor := 32; cbor_size := 2 |} truncated_memory 0)))
      truncated_memory /\
    snd (cbor_read_text native_size_bits
           {| cbor := 32; cbor_size := 2 |} truncated_memory 0) = 0)).
Proof.
  assert (H1 : NULL < cbor {| cbor := 16; cbor_size := 1 |})
    by (vm_compute; reflexivity).
  assert (H2 : 0 <= cbor_size {| cbor := 16; cbor_size := 1 |}
               <= SIZE_MAX native_size_bits)
    by (vm_compute; split; discriminate).
  assert (H3 : fst (fst (cbor_read_data native_size_bits
                 {| cbor := 16; cbor_size := 1 |} truncated_memory 0)) = NULL)
    by (vm_compute; reflexivity).
  assert (H4 : NULL < cbor {| cbor := 32; cbor_size := 2 |})
    by (vm_compute; reflexivity).
  assert (H5 : 0 <= cbor_size {| cbor := 32; cbor_size := 2 |}
               <= SIZE_MAX native_size_bits)
    by (vm_compute; split; discriminate).
  assert (H6 : fst (fst (cbor_read_text native_size_bits
                 {| cbor := 32; cbor_size := 2 |} truncated_memory 0)) = NULL)
    by (vm_compute; reflexivity).
  split; [exact (conj H1 (conj H2 (conj H3 (conj H4 (conj H5 H6))))) |].
  exact (string_read_error_state native_size_bits
           {| cbor := 16; cbor_size := 1 |} {| cbor := 32; cbor_size := 2 |}
           truncated_memory 0 0 H1 H2 H3 H4 H5 H6).
Defined.

Lemma poison_monotonicity_witness :
  (poisoned poisoned_writer /\
   forallb (op_typed native_size_bits)
     [op_open_array; op_prepend_unsigned 5; op_prepend_data 5000 3;
      op_wrap_array; op_prepend_null] = true) /\
  (poisoned (fst (run_ops native_size_bits default_max_nesting
       [op_open_array; op_prepend_unsigned 5; op_prepend_data 5000 3;
        op_wrap_array; op_prepend_null] (poisoned_writer, foo_memory))) /\
   fst (cbor_stop_writer default_max_nesting
     (fst (run_ops native_size_bits default_max_nesting
        [op_open_array; op_prepend_unsigned 5; op_prepend_data 5000 3;
         op_wrap_array; op_prepend_null] (poisoned_writer, foo_memory))))
   = NULL).
Proof.
  assert (H1 : poisoned poisoned_writer) by (split; reflexivity).
  assert (H2 : forallb (op_typed native_size_bits)
     [op_open_array; op_prepend_unsigned 5; op_prepend_data 5000 3;
      op_wrap_array; op_prepend_null] = true) by (vm_compute; reflexivity).
  split; [exact (conj H1 H2) |].
  exact (poison_monotonicity native_size_bits default_max_nesting
           poisoned_writer foo_memory _ H1 H2).
Defined.

(** The three bytes at address 5000 written into a 128-byte buffer. *)
Lemma byte_string_round_trip_witness :
  (NULL < 1000 /\ 0 <= 3 /\
   CBOR_BYTE_STRING_SIZE 3 <= 128 <= SIZE_MAX native_size_bits) /\
  (let '(state', m') :=
     cbor_prepend_data native_size_bits default_max_nesting
       (cbor_init_writer default_max_nesting blank_writer 1000 128)
       foo_memory 5000 3 in
   let cbor_start := fst (cbor_stop_writer default_max_nesting state') in
   let '(p, rstate', data_size) :=
     cbor_read_data native_size_bits
       (reader_on blank_reader 1000 128 cbor_start) m' 0 in
   cbor_start <> NULL /\
   p <> NULL /\
   data_size = 3 /\
   length (load_bytes m' p (Z.to_nat 3)) = Z.to_nat 3 /\
   load_bytes m' p (Z.to_nat 3) = load_bytes foo_memory 5000 (Z.to_nat 3) /\
   cbor rstate' = p + 3 /\
   cbor_size rstate' = 0).
Proof.
  assert (H1 : NULL < 1000) by (unfold NULL; lia).
  assert (H2 : 0 <= 3) by lia.
  assert (H3 : CBOR_BYTE_STRING_SIZE 3 <= 128 <= SIZE_MAX native_size_bits)
    by (vm_compute; split; discriminate).
  split; [exact (conj H1 (conj H2 H3)) |].
  exact (byte_string_round_trip native_size_bits default_max_nesting
           native_size_t_fits blank_writer blank_reader foo_memory 1000 128
           5000 3 0 H1 H2 H3).
Defined.

Lemma exact_fit_and_off_by_one_witness :
  (NULL < 1000 /\ 0 <= 123 <= UINT64_MAX /\ 0 <= 3 /\
   CBOR_BYTE_STRING_SIZE 3 <= SIZE_MAX native_size_bits) /\
  (let unsigned_into size :=
     fst (cbor_prepend_unsigned native_size_bits default_max_nesting
            (cbor_init_writer default_max_nesting blank_writer 1000 size)
            foo_memory 123) in
   let data_into size :=
     fst (cbor_prepend_data native_size_bits default_max_nesting
            (cbor_init_writer default_max_nesting blank_writer 1000 size)
            foo_memory 5000 3) in
   fst (cbor_stop_writer default_max_nesting
          (unsigned_into (CBOR_UNSIGNED_SIZE 123))) = 1000 /\
   poisoned (unsigned_into (CBOR_UNSIGNED_SIZE 123 - 1)) /\
   fst (cbor_stop_writer default_max_nesting
          (unsigned_into (CBOR_UNSIGNED_SIZE 123 - 1))) = NULL /\
   fst (cbor_stop_writer default_max_nesting
          (data_into (CBOR_BYTE_STRING_SIZE 3))) = 1000 /\
   poisoned (data_into (CBOR_BYTE_STRING_SIZE 3 - 1)) /\
   fst (cbor_stop_writer default_max_nesting
          (data_into (CBOR_BYTE_STRING_SIZE 3 - 1))) = NULL).
Proof.
  assert (H1 : NULL < 1000) by (unfold NULL; lia).
  assert (H2 : 0 <= 123 <= UINT64_MAX) by (unfold UINT64_MAX; lia).
  assert (H3 : 0 <= 3) by lia.
  assert (H4 : CBOR_BYTE_STRING_SIZE 3 <= SIZE_MAX native_size_bits)
    by (vm_compute; discriminate).
  split; [exact (conj H1 (conj H2 (conj H3 H4))) |].
  exact (exact_fit_and_off_by_one native_size_bits default_max_nesting
           native_size_t_fits blank_writer foo_memory 1000 123 5000 3
           H1 H2 H3 H4).
Defined.

Lemma map_parity_enforcement_witness :
  (0 <= nesting_depth odd_map_writer < default_max_nesting /\
   Z.odd (object odd_map_writer (nesting_depth odd_map_writer)) = true /\
   forallb (op_typed native_size_bits) [op_prepend_null; op_wrap_array]
   = true /\
   writer_wf native_size_bits default_max_nesting even_map_writer /\
   NULL < buffer even_map_writer - buffer_size even_map_writer /\
   0 <= nesting_depth even_map_writer < default_max_nesting /\
   object even_map_writer (nesting_depth even_map_writer) = 2 * 1 /\
   CBOR_UNSIGNED_SIZE 1 <= buffer_size even_map_writer) /\
  ((let '(r, odd', m') :=
      cbor_wrap_map native_size_bits default_max_nesting odd_map_writer
        foo_memory in
    r = NULL /\ poisoned odd' /\
    fst (cbor_stop_writer default_max_nesting odd') = NULL /\
    fst (cbor_stop_writer default_max_nesting
           (fst (run_ops native_size_bits default_max_nesting
                   [op_prepend_null; op_wrap_array] (odd', m')))) = NULL) /\
   (let '(r, even', m') :=
      cbor_wrap_map native_size_bits default_max_nesting even_map_writer
        foo_memory in
    r <> NULL /\
    r = buffer even_map_writer - CBOR_UNSIGNED_SIZE 1 /\
    buffer even' = r /\
    buffer_size even' = buffer_size even_map_writer - CBOR_UNSIGNED_SIZE 1 /\
    nesting_depth even' = nesting_depth even_map_writer + 1 /\
    header_at m' r CBOR_MAJOR_TYPE_MAP 1 /\
    cbor_read_map native_size_bits
      {| cbor := r; cbor_size := CBOR_UNSIGNED_SIZE 1 |} m'
    = (1, {| cbor := r + CBOR_UNSIGNED_SIZE 1; cbor_size := 0 |}))).
Proof.
  assert (H1 : 0 <= nesting_depth odd_map_writer < default_max_nesting)
    by (vm_compute; split; [discriminate | reflexivity]).
  assert (H2 : Z.odd (object odd_map_writer (nesting_depth odd_map_writer))
               = true) by (vm_compute; reflexivity).
  assert (H3 : forallb (op_typed native_size_bits)
                 [op_prepend_null; op_wrap_array] = true)
    by (vm_compute; reflexivity).
  assert (H4 : writer_wf native_size_bits default_max_nesting even_map_writer).
  { unfold writer_wf, SIZE_MAX, native_size_bits, default_max_nesting,
      even_map_writer. cbn [buffer_size nesting_depth objects].
    split; [lia |]. split; [lia |]. split; [reflexivity |].
    repeat (constructor; [lia |]). constructor. }
  assert (H5 : NULL < buffer even_map_writer - buffer_size even_map_writer)
    by (vm_compute; reflexivity).
  assert (H6 : 0 <= nesting_depth even_map_writer < default_max_nesting)
    by (vm_compute; split; [discriminate | reflexivity]).
  assert (H7 : object even_map_writer (nesting_depth even_map_writer) = 2 * 1)
    by (vm_compute; reflexivity).
  assert (H8 : CBOR_UNSIGNED_SIZE 1 <= buffer_size even_map_writer)
    by (vm_compute; discriminate).
  split;
    [exact (conj H1 (conj H2 (conj H3 (conj H4 (conj H5
              (conj H6 (conj H7 H8))))))) |].
  exact (map_parity_enforcement native_size_bits default_max_nesting
           native_size_t_fits default_max_nesting_fits
           odd_map_writer even_map_writer foo_memory
           [op_prepend_null; op_wrap_array] 1 H1 H2 H3 H4 H5 H6 H7 H8).
Defined.

(** C8 as stated fails.  On the tag initial byte 0xC0, with one byte
    remaining, [cbor_read_next] returns 0xC0 (192), not
    [CBOR_MAJOR_TYPE_NONE] (-1). *)
Lemma read_next_on_tag_is_not_none :
  1 <= cbor_size {| cbor := 17; cbor_size := 1 |} /\
  0xC0 <= load8 peek_memory (cbor {| cbor := 17; cbor_size := 1 |}) <= 0xDF /\
  cbor_read_next {| cbor := 17; cbor_size := 1 |} peek_memory
  = (0xC0, {| cbor := 17; cbor_size := 1 |}) /\
  fst (cbor_read_next {| cbor := 17; cbor_size := 1 |} peek_memory)
  <> CBOR_MAJOR_TYPE_NONE.
Proof.
  split; [vm_compute; discriminate |].
  split; [vm_compute; split; discriminate |].
  split; [vm_compute; reflexivity |].
  vm_compute. discriminate.
Qed.

Lemma read_next_on_unsupported_witness :
  (cbor_size {| cbor := 16; cbor_size := 0 |} = 0 /\
   cbor_size {| cbor := 16; cbor_size := 1 |} <> 0 /\
   In (load8 peek_memory (cbor {| cbor := 16; cbor_size := 1 |}))
     [0xF9; 0xFA; 0xFB] /\
   cbor_size {| cbor := 17; cbor_size := 1 |} <> 0 /\
   0xC0 <= load8 peek_memory (cbor {| cbor := 17; cbor_size := 1 |}) <= 0xDF)
  /\
  ((forall state, snd (cbor_read_next state peek_memory) = state) /\
   fst (cbor_read_next {| cbor := 16; cbor_size := 0 |} peek_memory)
   = CBOR_MAJOR_TYPE_NONE /\
   fst (cbor_read_next {| cbor := 16; cbor_size := 1 |} peek_memory)
   = CBOR_MAJOR_TYPE_SIMPLE /\
   fst (cbor_read_next {| cbor := 17; cbor_size := 1 |} peek_memory) = 0xC0 /\
   fst (cbor_read_next {| cbor := 17; cbor_size := 1 |} peek_memory)
   <> CBOR_MAJOR_TYPE_NONE /\
   ~ In (fst (cbor_read_next {| cbor := 17; cbor_size := 1 |} peek_memory))
       [CBOR_MAJOR_TYPE_UNSIGNED; CBOR_MAJOR_TYPE_BYTE_STRING;
        CBOR_MAJOR_TYPE_TEXT_STRING; CBOR_MAJOR_TYPE_ARRAY;
        CBOR_MAJOR_TYPE_MAP; CBOR_MAJOR_TYPE_SIMPLE]).
Proof.
  assert (H1 : cbor_size {| cbor := 16; cbor_size := 0 |} = 0) by reflexivity.
  assert (H2 : cbor_size {| cbor := 16; cbor_size := 1 |} <> 0)
    by (cbn; discriminate).
  assert (H3 : In (load8 peek_memory (cbor {| cbor := 16; cbor_size := 1 |}))
                 [0xF9; 0xFA; 0xFB]) by (left; vm_compute; reflexivity).
  assert (H4 : cbor_size {| cbor := 17; cbor_size := 1 |} <> 0)
    by (cbn; discriminate).
  assert (H5 : 0xC0 <= load8 peek_memory
                         (cbor {| cbor := 17; cbor_size := 1 |}) <= 0xDF)
    by (vm_compute; split; discriminate).
  split; [exact (conj H1 (conj H2 (conj H3 (conj H4 H5)))) |].
  exact (read_next_on_unsupported _ _ _ peek_memory H1 H2 H3 H4 H5).
Defined.

Lemma immediate_reads_as_size_1_witness :
  (1 <= cbor_size {| cbor := 18; cbor_size := 1 |}
     <= SIZE_MAX native_size_bits /\
   Z.land (load8 peek_memory (cbor {| cbor := 18; cbor_size := 1 |})) 0x1F
   < 24 /\
   2 <= cbor_size {| cbor := 32; cbor_size := 2 |}
     <= SIZE_MAX native_size_bits /\
   Z.land (load8 peek_memory (cbor {| cbor := 32; cbor_size := 2 |})) 0x1F
   = 24) /\
  (cbor_read_unsigned native_size_bits {| cbor := 18; cbor_size := 1 |}
     peek_memory 0
   = (CBOR_SIZE_1,
      {| cbor := cbor {| cbor := 18; cbor_size := 1 |} + 1;
         cbor_size := cbor_size {| cbor := 18; cbor_size := 1 |} - 1 |},
      Z.land (load8 peek_memory (cbor {| cbor := 18; cbor_size := 1 |}))
        0x1F) /\
   cbor_read_unsigned native_size_bits {| cbor := 32; cbor_size := 2 |}
     peek_memory 0
   = (CBOR_SIZE_1,
      {| cbor := cbor {| cbor := 32; cbor_size := 2 |} + 2;
         cbor_size := cbor_size {| cbor := 32; cbor_size := 2 |} - 2 |},
      load8 peek_memory (cbor {| cbor := 32; cbor_size := 2 |} + 1)) /\
   fst (fst (cbor_read_unsigned native_size_bits
               {| cbor := 18; cbor_size := 1 |} peek_memory 0))
   = fst (fst (cbor_read_unsigned native_size_bits
                 {| cbor := 32; cbor_size := 2 |} peek_memory 0))).
Proof.
  assert (H1 : 1 <= cbor_size {| cbor := 18; cbor_size := 1 |}
               <= SIZE_MAX native_size_bits)
    by (vm_compute; split; discriminate).
  assert (H2 : Z.land (load8 peek_memory
                         (cbor {| cbor := 18; cbor_size := 1 |})) 0x1F < 24)
    by (vm_compute; reflexivity).
  assert (H3 : 2 <= cbor_size {| cbor := 32; cbor_size := 2 |}
               <= SIZE_MAX native_size_bits)
    by (vm_compute; split; discriminate).
  assert (H4 : Z.land (load8 peek_memory
                         (cbor {| cbor := 32; cbor_size := 2 |})) 0x1F = 24)
    by (vm_compute; reflexivity).
  split; [exact (conj H1 (conj H2 (conj H3 H4))) |].
  exact (immediate_reads_as_size_1 native_size_bits
           {| cbor := 18; cbor_size := 1 |} peek_memory 0
           {| cbor := 32; cbor_size := 2 |} peek_memory 0 H1 H2 H3 H4).
Defined.

(** A zero-length fragment on a writer with no free byte and an open
    container that holds 3 items. *)
Lemma zero_length_object_counts_witness :
  writer_wf native_size_bits default_max_nesting full_writer /\
  (let '(state', m') :=
     cbor_prepend_object native_size_bits default_max_nesting full_writer
       foo_memory 5000 0 in
   buffer state' = buffer full_writer /\
   buffer_size state' = buffer_size full_writer /\
   m' = foo_memory /\
   nesting_depth state' = nesting_depth full_writer /\
   ((nesting_depth full_writer = default_max_nesting /\
     objects state' = objects full_writer)
    \/
    (nesting_depth full_writer < default_max_nesting /\
     object state' (nesting_depth full_writer)
     = (if object full_writer (nesting_depth full_writer)
           =? SIZE_MAX native_size_bits then 0
        else object full_writer (nesting_depth full_writer) + 1) /\
     objects state'
     = <[Z.to_nat (nesting_depth full_writer) :=
           object state' (nesting_depth full_writer)]>
         (objects full_writer)))).
Proof.
  assert (H1 : writer_wf native_size_bits default_max_nesting full_writer).
  { unfold writer_wf, SIZE_MAX, native_size_bits, default_max_nesting,
      full_writer. cbn [buffer_size nesting_depth objects].
    split; [lia |]. split; [lia |]. split; [reflexivity |].
    repeat (constructor; [lia |]). constructor. }
  split; [exact H1 |].
  exact (zero_length_object_counts native_size_bits default_max_nesting
           full_writer foo_memory 5000 H1).
Defined.

(** An unsigned integer, a byte string and the wrap of the map, in a writer
    with an open map and 100 free bytes above address 1000. *)
Lemma writer_writes_only_free_space_witness :
  (NULL < 1000 /\
   writer_wf native_size_bits default_max_nesting even_map_writer /\
   buffer even_map_writer = 1000 + buffer_size even_map_writer /\
   forallb (op_typed native_size_bits) [op_prepend_unsigned 123;
     op_prepend_data 5000 3; op_wrap_map] = true) /\
  (let
   '(state', m') :=
    run_ops native_size_bits default_max_nesting
      [op_prepend_unsigned 123; op_prepend_data 5000 3; op_wrap_map]
      (even_map_writer, foo_memory)
    in
    (forall a : Z,
     a < 1000 \/ buffer even_map_writer <= a ->
     load8 m' a = load8 foo_memory a) /\
    buffer_size state' <= buffer_size even_map_writer).
Proof.
  assert (H1 : NULL < 1000)
    by (reflexivity).
  assert (H2 : writer_wf native_size_bits default_max_nesting
    even_map_writer)
    by (unfold writer_wf, SIZE_MAX, native_size_bits, default_max_nesting,
          even_map_writer; cbn [buffer_size nesting_depth objects];
        split; [lia |]; split; [lia |]; split; [reflexivity |];
        repeat (constructor; [lia |]); constructor).
  assert (H3 : buffer even_map_writer = 1000 + buffer_size even_map_writer)
    by (reflexivity).
  assert (H4 : forallb (op_typed native_size_bits) [op_prepend_unsigned 123;
    op_prepend_data 5000 3; op_wrap_map] = true)
    by (vm_compute; reflexivity).
  split; [exact (conj H1 (conj H2 (conj H3 H4))) |].
  exact (writer_writes_only_free_space native_size_bits default_max_nesting
           native_size_t_fits default_max_nesting_fits 1000 even_map_writer
           foo_memory [op_prepend_unsigned 123; op_prepend_data 5000 3;
           op_wrap_map] H1 H2 H3 H4).
Defined.

(** The session of the unit test, on 128 bytes at address 1000. *)
Lemma writer_session_invariant_witness :
  (NULL < 1000 /\
   0 <= 128 <= SIZE_MAX native_size_bits /\
   length (objects blank_writer) = Z.to_nat default_max_nesting /\
   Forall (fun c : Z => 0 <= c <= SIZE_MAX native_size_bits) (objects
     blank_writer) /\
   forallb (op_typed native_size_bits) [op_open_array; op_prepend_unsigned
     123; op_prepend_data 5000 3; op_wrap_array] = true) /\
  (let state' :=
     fst
       (run_ops native_size_bits default_max_nesting
          [op_open_array; op_prepend_unsigned 123;
           op_prepend_data 5000 3; op_wrap_array]
          (cbor_init_writer default_max_nesting blank_writer 1000 128,
           foo_memory))
     in
   writer_wf native_size_bits default_max_nesting state' /\
   (poisoned state' \/
    buffer state' = 1000 + buffer_size state' /\
    0 <= buffer_size state' <= 128) /\
   (fst (cbor_stop_writer default_max_nesting state') = NULL \/
    1000 <= fst (cbor_stop_writer default_max_nesting state') <=
    1000 + 128)).
Proof.
  assert (H1 : NULL < 1000)
    by (reflexivity).
  assert (H2 : 0 <= 128 <= SIZE_MAX native_size_bits)
    by (vm_compute; split; discriminate).
  assert (H3 : length (objects blank_writer) = Z.to_nat default_max_nesting)
    by (reflexivity).
  assert (H4 : Forall (fun c : Z => 0 <= c <= SIZE_MAX native_size_bits)
    (objects blank_writer))
    by (unfold SIZE_MAX, native_size_bits, blank_writer;
        cbn [objects replicate];
        repeat (constructor; [lia |]); constructor).
  assert (H5 : forallb (op_typed native_size_bits) [op_open_array;
    op_prepend_unsigned 123; op_prepend_data 5000 3; op_wrap_array] = true)
    by (vm_compute; reflexivity).
  split; [exact (conj H1 (conj H2 (conj H3 (conj H4 H5)))) |].
  exact (writer_session_invariant native_size_bits default_max_nesting
           native_size_t_fits default_max_nesting_fits blank_writer foo_memory
           1000 128 [op_open_array; op_prepend_unsigned 123; op_prepend_data
           5000 3; op_wrap_array] H1 H2 H3 H4 H5).
Defined.

(** The session of the unit test: one array opened, one wrapped. *)
Lemma successful_session_is_balanced_witness :
  (NULL < 1000 /\
   0 <= 128 <= SIZE_MAX native_size_bits /\
   length (objects blank_writer) = Z.to_nat default_max_nesting /\
   Forall (fun c : Z => 0 <= c <= SIZE_MAX native_size_bits) (objects
     blank_writer) /\
   forallb (op_typed native_size_bits) [op_open_array; op_prepend_unsigned
     123; op_prepend_data 5000 3; op_wrap_array] = true /\
   fst (cbor_stop_writer default_max_nesting (fst (run_ops native_size_bits
     default_max_nesting [op_open_array; op_prepend_unsigned 123;
     op_prepend_data 5000 3; op_wrap_array] (cbor_init_writer
     default_max_nesting blank_writer 1000 128, foo_memory)))) <> NULL) /\
  (net_opens
     [op_open_array; op_prepend_unsigned 123;
      op_prepend_data 5000 3; op_wrap_array] =
   0 /\
   (forall i : nat,
    0 <=
    net_opens
      (firstn i
         [op_open_array; op_prepend_unsigned 123;
          op_prepend_data 5000 3; op_wrap_array]) <=
    default_max_nesting)).
Proof.
  assert (H1 : NULL < 1000)
    by (reflexivity).
  assert (H2 : 0 <= 128 <= SIZE_MAX native_size_bits)
    by (vm_compute; split; discriminate).
  assert (H3 : length (objects blank_writer) = Z.to_nat default_max_nesting)
    by (reflexivity).
  assert (H4 : Forall (fun c : Z => 0 <= c <= SIZE_MAX native_size_bits)
    (objects blank_writer))
    by (unfold SIZE_MAX, native_size_bits, blank_writer;
        cbn [objects replicate];
        repeat (constructor; [lia |]); constructor).
  assert (H5 : forallb (op_typed native_size_bits) [op_open_array;
    op_prepend_unsigned 123; op_prepend_data 5000 3; op_wrap_array] = true)
    by (vm_compute; reflexivity).
  assert (H6 : fst (cbor_stop_writer default_max_nesting (fst (run_ops
    native_size_bits default_max_nesting [op_open_array; op_prepend_unsigned
    123; op_prepend_data 5000 3; op_wrap_array] (cbor_init_writer
    default_max_nesting blank_writer 1000 128, foo_memory)))) <> NULL)
    by (vm_compute; discriminate).
  split; [exact (conj H1 (conj H2 (conj H3 (conj H4 (conj H5 H6))))) |].
  exact (successful_session_is_balanced native_size_bits default_max_nesting
           native_size_t_fits default_max_nesting_fits blank_writer foo_memory
           1000 128 [op_open_array; op_prepend_unsigned 123; op_prepend_data
           5000 3; op_wrap_array] H1 H2 H3 H4 H5 H6).
Defined.

(** Two containers opened, and nine, with the default bound of 8. *)
Lemma nesting_bound_witness :
  (forallb is_open [op_open_array; op_open_map] = true /\
   Z.of_nat (length [op_open_array; op_open_map]) <= default_max_nesting /\
   forallb is_open [op_open_array; op_open_array; op_open_array;
     op_open_array; op_open_array; op_open_array; op_open_array;
     op_open_array; op_open_array] = true /\
   default_max_nesting < Z.of_nat (length [op_open_array; op_open_array;
     op_open_array; op_open_array; op_open_array; op_open_array;
     op_open_array; op_open_array; op_open_array])) /\
  (let state0 :=
     cbor_init_writer default_max_nesting blank_writer 1000 128 in
   (let
    '(state', m') :=
     run_ops native_size_bits default_max_nesting
       [op_open_array; op_open_map] (state0, foo_memory)
     in
     buffer state' = 1000 + 128 /\
     buffer_size state' = 128 /\
     nesting_depth state' =
     default_max_nesting - Z.of_nat (length [op_open_array; op_open_map]) /\
     m' = foo_memory) /\
   (let state' :=
      fst
        (run_ops native_size_bits default_max_nesting
           [op_open_array; op_open_array; op_open_array; op_open_array;
            op_open_array; op_open_array; op_open_array; op_open_array;
            op_open_array]
           (state0, foo_memory))
      in
    poisoned state' /\
    fst (cbor_stop_writer default_max_nesting state') = NULL)).
Proof.
  assert (H1 : forallb is_open [op_open_array; op_open_map] = true)
    by (reflexivity).
  assert (H2 : Z.of_nat (length [op_open_array; op_open_map]) <=
    default_max_nesting)
    by (vm_compute; discriminate).
  assert (H3 : forallb is_open [op_open_array; op_open_array; op_open_array;
    op_open_array; op_open_array; op_open_array; op_open_array;
    op_open_array; op_open_array] = true)
    by (reflexivity).
  assert (H4 : default_max_nesting < Z.of_nat (length [op_open_array;
    op_open_array; op_open_array; op_open_array; op_open_array;
    op_open_array; op_open_array; op_open_array; op_open_array]))
    by (reflexivity).
  split; [exact (conj H1 (conj H2 (conj H3 H4))) |].
  exact (nesting_bound native_size_bits default_max_nesting
           default_max_nesting_fits blank_writer foo_memory 1000 128
           [op_open_array; op_open_map] [op_open_array; op_open_array;
           op_open_array; op_open_array; op_open_array; op_open_array;
           op_open_array; op_open_array; op_open_array] H1 H2 H3 H4).
Defined.

(** Five read calls on three bytes that hold a half-precision float. *)
Lemma reader_stays_in_input_witness :
  (0 <= cbor_size {| cbor := 16; cbor_size := 3 |} <= SIZE_MAX
     native_size_bits) /\
  (let state' :=
     run_reader_ops native_size_bits
       [rop_array; rop_data; rop_unsigned; rop_simple; rop_next]
       {| cbor := 16; cbor_size := 3 |} peek_memory
     in
   cbor state' + cbor_size state' =
   cbor {| cbor := 16; cbor_size := 3 |} +
   cbor_size {| cbor := 16; cbor_size := 3 |} /\
   0 <= cbor_size state' <= cbor_size {| cbor := 16; cbor_size := 3 |} /\
   cbor {| cbor := 16; cbor_size := 3 |} <= cbor state' <=
   cbor {| cbor := 16; cbor_size := 3 |} +
   cbor_size {| cbor := 16; cbor_size := 3 |}).
Proof.
  assert (H1 : 0 <= cbor_size {| cbor := 16; cbor_size := 3 |} <= SIZE_MAX
    native_size_bits)
    by (vm_compute; split; discriminate).
  split; [exact H1 |].
  exact (reader_stays_in_input native_size_bits [rop_array; rop_data;
           rop_unsigned; rop_simple; rop_next] {| cbor := 16; cbor_size := 3
           |} peek_memory H1).
Defined.

(** The two bytes 0x18 0x05: the value 5 in the one-byte size class. *)
Lemma read_unsigned_decodes_big_endian_witness :
  (Z.land (load8 peek_memory (cbor {| cbor := 32; cbor_size := 2 |})) 31 =
     24 /\
   bytes_to_read_of 24 = Some 1 /\
   1 + 1 <= cbor_size {| cbor := 32; cbor_size := 2 |} <= SIZE_MAX
     native_size_bits) /\
  (let argument :=
     load_bytes peek_memory (cbor {| cbor := 32; cbor_size := 2 |} + 1)
       (Z.to_nat 1)
     in
   cbor_read_unsigned native_size_bits {| cbor := 32; cbor_size := 2 |}
     peek_memory 0 =
   (24,
    {|
      cbor := cbor {| cbor := 32; cbor_size := 2 |} + 1 + 1;
      cbor_size := cbor_size {| cbor := 32; cbor_size := 2 |} - 1 - 1
    |}, big_endian argument) /\
   0 <= big_endian argument < 2 ^ (8 * 1) /\
   In (24, 1)
     [(CBOR_SIZE_1, 1); (CBOR_SIZE_2, 2); (CBOR_SIZE_4, 4);
      (CBOR_SIZE_8, 8)]).
Proof.
  assert (H1 : Z.land (load8 peek_memory (cbor {| cbor := 32; cbor_size := 2
    |})) 31 = 24)
    by (reflexivity).
  assert (H2 : bytes_to_read_of 24 = Some 1)
    by (reflexivity).
  assert (H3 : 1 + 1 <= cbor_size {| cbor := 32; cbor_size := 2 |} <=
    SIZE_MAX native_size_bits)
    by (vm_compute; split; discriminate).
  split; [exact (conj H1 (conj H2 H3)) |].
  exact (read_unsigned_decodes_big_endian native_size_bits {| cbor := 32;
           cbor_size := 2 |} peek_memory 0 24 1 H1 H2 H3).
Defined.

(** The byte 0xFF, and the header 0x19 with one byte after it instead of
    two. *)
Lemma read_unsigned_rejects_bad_header_witness :
  (1 <= cbor_size {| cbor := 16; cbor_size := 1 |} <= SIZE_MAX
     native_size_bits /\
   28 <= Z.land (load8 malformed_memory (cbor {| cbor := 16; cbor_size := 1
     |})) 31 <= 31 /\
   1 <= cbor_size {| cbor := 32; cbor_size := 2 |} <= SIZE_MAX
     native_size_bits /\
   bytes_to_read_of (Z.land (load8 malformed_memory (cbor {| cbor := 32;
     cbor_size := 2 |})) 31) = Some 2 /\
   cbor_size {| cbor := 32; cbor_size := 2 |} - 1 < 2) /\
  (cbor_read_unsigned native_size_bits {| cbor := 16; cbor_size := 1 |}
     malformed_memory 7 =
   (CBOR_SIZE_NONE,
    {|
      cbor := cbor {| cbor := 16; cbor_size := 1 |} + 1;
      cbor_size := cbor_size {| cbor := 16; cbor_size := 1 |} - 1
    |}, 7) /\
   cbor_read_unsigned native_size_bits {| cbor := 32; cbor_size := 2 |}
     malformed_memory 7 =
   (CBOR_SIZE_NONE,
    {|
      cbor := cbor {| cbor := 32; cbor_size := 2 |} + 1;
      cbor_size := cbor_size {| cbor := 32; cbor_size := 2 |} - 1
    |}, 7)).
Proof.
  assert (H1 : 1 <= cbor_size {| cbor := 16; cbor_size := 1 |} <= SIZE_MAX
    native_size_bits)
    by (vm_compute; split; discriminate).
  assert (H2 : 28 <= Z.land (load8 malformed_memory (cbor {| cbor := 16;
    cbor_size := 1 |})) 31 <= 31)
    by (vm_compute; split; discriminate).
  assert (H3 : 1 <= cbor_size {| cbor := 32; cbor_size := 2 |} <= SIZE_MAX
    native_size_bits)
    by (vm_compute; split; discriminate).
  assert (H4 : bytes_to_read_of (Z.land (load8 malformed_memory (cbor {|
    cbor := 32; cbor_size := 2 |})) 31) = Some 2)
    by (reflexivity).
  assert (H5 : cbor_size {| cbor := 32; cbor_size := 2 |} - 1 < 2)
    by (reflexivity).
  split; [exact (conj H1 (conj H2 (conj H3 (conj H4 H5)))) |].
  exact (read_unsigned_rejects_bad_header native_size_bits {| cbor := 16;
           cbor_size := 1 |} {| cbor := 32; cbor_size := 2 |} malformed_memory
           7 2 H1 H2 H3 H4 H5).
Defined.

(** The byte string h'0A0B0C' and the text string of the characters
    0x61 0x62 0x63, four bytes each. *)
Lemma string_read_slice_in_input_witness :
  (NULL < cbor {| cbor := 16; cbor_size := 4 |} /\
   0 <= cbor_size {| cbor := 16; cbor_size := 4 |} <= SIZE_MAX
     native_size_bits /\
   fst (fst (cbor_read_data native_size_bits {| cbor := 16; cbor_size := 4
     |} strings_memory 0)) <> NULL /\
   NULL < cbor {| cbor := 32; cbor_size := 4 |} /\
   0 <= cbor_size {| cbor := 32; cbor_size := 4 |} <= SIZE_MAX
     native_size_bits /\
   fst (fst (cbor_read_text native_size_bits {| cbor := 32; cbor_size := 4
     |} strings_memory 0)) <> NULL) /\
  ((let
    '(data, dstate', data_size) :=
     cbor_read_data native_size_bits {| cbor := 16; cbor_size := 4 |}
       strings_memory 0
     in
     fst (cbor_read_next {| cbor := 16; cbor_size := 4 |} strings_memory) =
     CBOR_MAJOR_TYPE_BYTE_STRING /\
     0 <= data_size /\
     In (data - cbor {| cbor := 16; cbor_size := 4 |}) [1; 2; 3; 5; 9] /\
     cbor dstate' = data + data_size /\
     cbor dstate' + cbor_size dstate' =
     cbor {| cbor := 16; cbor_size := 4 |} +
     cbor_size {| cbor := 16; cbor_size := 4 |} /\
     0 <= cbor_size dstate') /\
   (let
    '(text, tstate', text_size) :=
     cbor_read_text native_size_bits {| cbor := 32; cbor_size := 4 |}
       strings_memory 0
     in
     fst (cbor_read_next {| cbor := 32; cbor_size := 4 |} strings_memory) =
     CBOR_MAJOR_TYPE_TEXT_STRING /\
     0 <= text_size /\
     In (text - cbor {| cbor := 32; cbor_size := 4 |}) [1; 2; 3; 5; 9] /\
     cbor tstate' = text + text_size /\
     cbor tstate' + cbor_size tstate' =
     cbor {| cbor := 32; cbor_size := 4 |} +
     cbor_size {| cbor := 32; cbor_size := 4 |} /\
     0 <= cbor_size tstate')).
Proof.
  assert (H1 : NULL < cbor {| cbor := 16; cbor_size := 4 |})
    by (reflexivity).
  assert (H2 : 0 <= cbor_size {| cbor := 16; cbor_size := 4 |} <= SIZE_MAX
    native_size_bits)
    by (vm_compute; split; discriminate).
  assert (H3 : fst (fst (cbor_read_data native_size_bits {| cbor := 16;
    cbor_size := 4 |} strings_memory 0)) <> NULL)
    by (vm_compute; discriminate).
  assert (H4 : NULL < cbor {| cbor := 32; cbor_size := 4 |})
    by (reflexivity).
  assert (H5 : 0 <= cbor_size {| cbor := 32; cbor_size := 4 |} <= SIZE_MAX
    native_size_bits)
    by (vm_compute; split; discriminate).
  assert (H6 : fst (fst (cbor_read_text native_size_bits {| cbor := 32;
    cbor_size := 4 |} strings_memory 0)) <> NULL)
    by (vm_compute; discriminate).
  split; [exact (conj H1 (conj H2 (conj H3 (conj H4 (conj H5 H6))))) |].
  exact (string_read_slice_in_input native_size_bits {| cbor := 16; cbor_size
           := 4 |} {| cbor := 32; cbor_size := 4 |} strings_memory 0 0 H1 H2
           H3 H4 H5 H6).
Defined.

(** The three bytes at address 5000 written as a text string into a
    128-byte buffer. *)
Lemma text_string_round_trip_witness :
  (NULL < 1000 /\
   0 <= 3 /\
   CBOR_BYTE_STRING_SIZE 3 <= 128 <= SIZE_MAX native_size_bits) /\
  (let
   '(state', m') :=
    cbor_prepend_text native_size_bits default_max_nesting
      (cbor_init_writer default_max_nesting blank_writer 1000 128)
      foo_memory 5000 3
    in
    let cbor_start := fst (cbor_stop_writer default_max_nesting state')
      in
    let reader := reader_on blank_reader 1000 128 cbor_start in
    let
    '(p, rstate', text_size) :=
     cbor_read_text native_size_bits reader m' 0 in
     cbor_start <> NULL /\
     cbor_start = 1000 + 128 - CBOR_BYTE_STRING_SIZE 3 /\
     p <> NULL /\
     text_size = 3 /\
     load_bytes m' p (Z.to_nat 3) =
     load_bytes foo_memory 5000 (Z.to_nat 3) /\
     cbor rstate' = p + 3 /\
     cbor_size rstate' = 0 /\
     cbor_read_data native_size_bits reader m' 0 = (NULL, reader, 0)).
Proof.
  assert (H1 : NULL < 1000)
    by (reflexivity).
  assert (H2 : 0 <= 3)
    by (vm_compute; discriminate).
  assert (H3 : CBOR_BYTE_STRING_SIZE 3 <= 128 <= SIZE_MAX native_size_bits)
    by (vm_compute; split; discriminate).
  split; [exact (conj H1 (conj H2 H3)) |].
  exact (text_string_round_trip native_size_bits default_max_nesting
           native_size_t_fits blank_writer blank_reader foo_memory 1000 128
           5000 3 0 H1 H2 H3).
Defined.

(** The three calls on a 128-byte buffer, with [true] as the boolean. *)
Lemma simple_value_round_trip_witness :
  (NULL < 1000 /\
   1 <= 128 <= SIZE_MAX native_size_bits) /\
  (let state0 :=
     cbor_init_writer default_max_nesting blank_writer 1000 128 in
   let read_back :=
     fun w : cbor_writer_state_t * mem =>
     let cbor_start := fst (cbor_stop_writer default_max_nesting (fst w))
       in
     let reader := reader_on blank_reader 1000 128 cbor_start in
     (cbor_start, fst (cbor_read_next reader (snd w)),
      cbor_read_simple native_size_bits reader (snd w))
     in
   let consumed := {| cbor := 1000 + 128; cbor_size := 0 |} in
   read_back
     (cbor_prepend_null native_size_bits default_max_nesting state0
        foo_memory) =
   (1000 + 128 - 1, CBOR_MAJOR_TYPE_SIMPLE,
    (CBOR_SIMPLE_VALUE_NULL, consumed)) /\
   read_back
     (cbor_prepend_undefined native_size_bits default_max_nesting state0
        foo_memory) =
   (1000 + 128 - 1, CBOR_MAJOR_TYPE_SIMPLE,
    (CBOR_SIMPLE_VALUE_UNDEFINED, consumed)) /\
   read_back
     (cbor_prepend_bool native_size_bits default_max_nesting state0
        foo_memory 1) =
   (1000 + 128 - 1, CBOR_MAJOR_TYPE_SIMPLE,
    (if 1 =? 0 then CBOR_SIMPLE_VALUE_FALSE else CBOR_SIMPLE_VALUE_TRUE,
     consumed))).
Proof.
  assert (H1 : NULL < 1000)
    by (reflexivity).
  assert (H2 : 1 <= 128 <= SIZE_MAX native_size_bits)
    by (vm_compute; split; discriminate).
  split; [exact (conj H1 H2) |].
  exact (simple_value_round_trip native_size_bits default_max_nesting
           blank_writer blank_reader foo_memory 1000 128 1 H1 H2).
Defined.

(** The unsigned integer 1000, of three bytes, with 100 bytes free. *)
Lemma item_fits_or_poisons_witness :
  (item_size native_size_bits (op_prepend_unsigned 1000) = Some 3 /\
   NULL < 1000 /\
   0 <= 7 < default_max_nesting /\
   0 <= 2 < SIZE_MAX native_size_bits /\
   0 <= 100 <= SIZE_MAX native_size_bits /\
   in_container default_max_nesting 1000 7 2 100 even_map_writer) /\
  (let state' :=
     fst
       (run_op native_size_bits default_max_nesting
          (op_prepend_unsigned 1000) (even_map_writer, foo_memory))
     in
   100 < 3 /\
   poisoned state' /\
   fst (cbor_stop_writer default_max_nesting state') = NULL \/
   3 <= 100 /\
   ~ poisoned state' /\
   in_container default_max_nesting 1000 7 (2 + 1) (100 - 3) state').
Proof.
  assert (H1 : item_size native_size_bits (op_prepend_unsigned 1000) = Some
    3)
    by (reflexivity).
  assert (H2 : NULL < 1000)
    by (reflexivity).
  assert (H3 : 0 <= 7 < default_max_nesting)
    by (vm_compute; split; [discriminate | reflexivity]).
  assert (H4 : 0 <= 2 < SIZE_MAX native_size_bits)
    by (vm_compute; split; [discriminate | reflexivity]).
  assert (H5 : 0 <= 100 <= SIZE_MAX native_size_bits)
    by (vm_compute; split; discriminate).
  assert (H6 : in_container default_max_nesting 1000 7 2 100
    even_map_writer)
    by (vm_compute; repeat split).
  split; [exact (conj H1 (conj H2 (conj H3 (conj H4 (conj H5 H6))))) |].
  exact (item_fits_or_poisons native_size_bits default_max_nesting
           native_size_t_fits (op_prepend_unsigned 1000) 3 1000 7 2 100
           even_map_writer foo_memory H1 H2 H3 H4 H5 H6).
Defined.

(** The three bytes at address 5000, in a container that holds two
    items. *)
Lemma object_then_wrap_data_counts_twice_witness :
  (NULL < 1000 /\
   0 <= 7 < default_max_nesting /\
   0 <= 2 /\
   2 + 2 <= SIZE_MAX native_size_bits /\
   0 < 3 /\
   CBOR_BYTE_STRING_SIZE 3 <= 100 <= SIZE_MAX native_size_bits /\
   in_container default_max_nesting 1000 7 2 100 even_map_writer) /\
  (let
   '(state1, m1) :=
    cbor_prepend_object native_size_bits default_max_nesting
      even_map_writer foo_memory 5000 3
    in
    let
    '(wrapped, m2) :=
     cbor_wrap_data native_size_bits default_max_nesting state1 m1 3 in
     let
     '(direct, m3) :=
      cbor_prepend_data native_size_bits default_max_nesting
        even_map_writer foo_memory 5000 3
      in
      m2 = m3 /\
      buffer wrapped = buffer direct /\
      buffer_size wrapped = buffer_size direct /\
      object direct 7 = 2 + 1 /\ object wrapped 7 = 2 + 2).
Proof.
  assert (H1 : NULL < 1000)
    by (reflexivity).
  assert (H2 : 0 <= 7 < default_max_nesting)
    by (vm_compute; split; [discriminate | reflexivity]).
  assert (H3 : 0 <= 2)
    by (vm_compute; discriminate).
  assert (H4 : 2 + 2 <= SIZE_MAX native_size_bits)
    by (vm_compute; discriminate).
  assert (H5 : 0 < 3)
    by (reflexivity).
  assert (H6 : CBOR_BYTE_STRING_SIZE 3 <= 100 <= SIZE_MAX native_size_bits)
    by (vm_compute; split; discriminate).
  assert (H7 : in_container default_max_nesting 1000 7 2 100
    even_map_writer)
    by (vm_compute; repeat split).
  split;
    [exact (conj H1 (conj H2 (conj H3 (conj H4 (conj H5 (conj H6 H7)))))) |].
  exact (object_then_wrap_data_counts_twice native_size_bits
           default_max_nesting native_size_t_fits 1000 7 2 100 even_map_writer
           foo_memory 5000 3 H1 H2 H3 H4 H5 H6 H7).
Defined.

(** The map [{1: true}] nested in a container that holds two items. *)
Lemma nested_container_is_one_item_witness :
  (in_container default_max_nesting 1000 7 2 100 even_map_writer /\
   NULL < 1000 /\
   1 <= 7 < default_max_nesting /\
   0 <= 2 < SIZE_MAX native_size_bits /\
   items_size native_size_bits [op_prepend_bool 1; op_prepend_unsigned 1] =
     Some 2 /\
   (true = true -> Z.land (Z.of_nat (length [op_prepend_bool 1;
     op_prepend_unsigned 1])) 1 = 0) /\
   100 <= SIZE_MAX native_size_bits /\
   CBOR_UNSIGNED_SIZE (Z.shiftr (Z.of_nat (length [op_prepend_bool 1;
     op_prepend_unsigned 1])) 1) + 2 <= 100) /\
  (let count :=
     Z.shiftr
       (Z.of_nat (length [op_prepend_bool 1; op_prepend_unsigned 1])) 1
     in
   let
   '(after, state1) := cbor_open_map native_size_bits even_map_writer in
    let
    '(state2, m2) :=
     run_ops native_size_bits default_max_nesting
       [op_prepend_bool 1; op_prepend_unsigned 1] (
       state1, foo_memory)
     in
     let
     '(first, state3, m3) :=
      cbor_wrap_map native_size_bits default_max_nesting state2 m2 in
      after = 1000 + 100 /\
      first = buffer state3 /\
      after - first = CBOR_UNSIGNED_SIZE count + 2 /\
      in_container default_max_nesting 1000 7
        (2 + 1) (100 - 2 - CBOR_UNSIGNED_SIZE count) state3 /\
      (let reader := cbor_init_reader blank_reader first (after - first)
         in
       cbor_read_map native_size_bits reader m3) =
      (count,
       {| cbor := first + CBOR_UNSIGNED_SIZE count; cbor_size := 2 |})).
Proof.
  assert (H1 : in_container default_max_nesting 1000 7 2 100
    even_map_writer)
    by (vm_compute; repeat split).
  assert (H2 : NULL < 1000)
    by (reflexivity).
  assert (H3 : 1 <= 7 < default_max_nesting)
    by (vm_compute; split; [discriminate | reflexivity]).
  assert (H4 : 0 <= 2 < SIZE_MAX native_size_bits)
    by (vm_compute; split; [discriminate | reflexivity]).
  assert (H5 : items_size native_size_bits [op_prepend_bool 1;
    op_prepend_unsigned 1] = Some 2)
    by (reflexivity).
  assert (H6 : (true = true -> Z.land (Z.of_nat (length [op_prepend_bool 1;
    op_prepend_unsigned 1])) 1 = 0))
    by (intros _; reflexivity).
  assert (H7 : 100 <= SIZE_MAX native_size_bits)
    by (vm_compute; discriminate).
  assert (H8 : CBOR_UNSIGNED_SIZE (Z.shiftr (Z.of_nat (length
    [op_prepend_bool 1; op_prepend_unsigned 1])) 1) + 2 <= 100)
    by (vm_compute; discriminate).
  split;
    [exact (conj H1 (conj H2 (conj H3 (conj H4 (conj H5 (conj H6
              (conj H7 H8))))))) |].
  exact (nested_container_is_one_item native_size_bits default_max_nesting
           native_size_t_fits default_max_nesting_fits true 1000 7 2 100
           even_map_writer blank_reader foo_memory [op_prepend_bool 1;
           op_prepend_unsigned 1] 2 H1 H2 H3 H4 H5 H6 H7 H8).
Defined.

(** The array [[1, 1000, 100000]] is read back as 100000, 1000, 1. *)
Lemma unsigned_array_round_trip_witness :
  (length (objects blank_writer) = Z.to_nat default_max_nesting /\
   NULL < 1000 /\
   128 <= SIZE_MAX native_size_bits /\
   Forall (fun v : Z => 0 <= v <= UINT64_MAX) [1; 1000; 100000] /\
   CBOR_UNSIGNED_SIZE (Z.of_nat (length [1; 1000; 100000])) + unsigneds_size
     [1; 1000; 100000] <= 128) /\
  (let
   '(cbor_start, m') :=
    array_session native_size_bits default_max_nesting blank_writer
      foo_memory 1000 128 (map op_prepend_unsigned [1; 1000; 100000])
    in
    cbor_start <> NULL /\
    (let
     '(n, reader) :=
      cbor_read_array native_size_bits
        (reader_on blank_reader 1000 128 cbor_start) m'
      in
      n = Z.of_nat (length [1; 1000; 100000]) /\
      (let
       '(result, reader0) :=
        read_unsigneds native_size_bits (Z.to_nat n) reader m' in
        result = Some (rev [1; 1000; 100000]) /\
        fst (cbor_stop_reader reader0) = 1000 + 128 /\
        cbor_size reader0 = 0))).
Proof.
  assert (H1 : length (objects blank_writer) = Z.to_nat default_max_nesting)
    by (reflexivity).
  assert (H2 : NULL < 1000)
    by (reflexivity).
  assert (H3 : 128 <= SIZE_MAX native_size_bits)
    by (vm_compute; discriminate).
  assert (H4 : Forall (fun v : Z => 0 <= v <= UINT64_MAX) [1; 1000; 100000])
    by (unfold UINT64_MAX; repeat (constructor; [lia |]); constructor).
  assert (H5 : CBOR_UNSIGNED_SIZE (Z.of_nat (length [1; 1000; 100000])) +
    unsigneds_size [1; 1000; 100000] <= 128)
    by (vm_compute; discriminate).
  split; [exact (conj H1 (conj H2 (conj H3 (conj H4 H5)))) |].
  exact (unsigned_array_round_trip native_size_bits default_max_nesting
           native_size_t_fits default_max_nesting_fits blank_writer
           blank_reader foo_memory 1000 128 [1; 1000; 100000] H1 H2 H3 H4 H5).
Defined.

(** The two-byte header of an array of 25 elements and the one-byte header
    of a map of one pair, with nothing after them. *)
Lemma container_read_consumes_header_witness :
  (0 <= cbor_size {| cbor := 16; cbor_size := 2 |} <= SIZE_MAX
     native_size_bits /\
   fst (cbor_read_array native_size_bits {| cbor := 16; cbor_size := 2 |}
     headers_memory) <> SIZE_MAX native_size_bits /\
   0 <= cbor_size {| cbor := 32; cbor_size := 1 |} <= SIZE_MAX
     native_size_bits /\
   fst (cbor_read_map native_size_bits {| cbor := 32; cbor_size := 1 |}
     headers_memory) <> SIZE_MAX native_size_bits) /\
  ((let
    '(count, astate') :=
     cbor_read_array native_size_bits {| cbor := 16; cbor_size := 2 |}
       headers_memory
     in
     fst (cbor_read_next {| cbor := 16; cbor_size := 2 |} headers_memory) =
     CBOR_MAJOR_TYPE_ARRAY /\
     0 <= count < SIZE_MAX native_size_bits /\
     In (cbor astate' - cbor {| cbor := 16; cbor_size := 2 |})
       [1; 2; 3; 5; 9] /\
     cbor astate' + cbor_size astate' =
     cbor {| cbor := 16; cbor_size := 2 |} +
     cbor_size {| cbor := 16; cbor_size := 2 |} /\
     0 <= cbor_size astate') /\
   (let
    '(count, mstate') :=
     cbor_read_map native_size_bits {| cbor := 32; cbor_size := 1 |}
       headers_memory
     in
     fst (cbor_read_next {| cbor := 32; cbor_size := 1 |} headers_memory) =
     CBOR_MAJOR_TYPE_MAP /\
     0 <= count < SIZE_MAX native_size_bits /\
     In (cbor mstate' - cbor {| cbor := 32; cbor_size := 1 |})
       [1; 2; 3; 5; 9] /\
     cbor mstate' + cbor_size mstate' =
     cbor {| cbor := 32; cbor_size := 1 |} +
     cbor_size {| cbor := 32; cbor_size := 1 |} /\
     0 <= cbor_size mstate')).
Proof.
  assert (H1 : 0 <= cbor_size {| cbor := 16; cbor_size := 2 |} <= SIZE_MAX
    native_size_bits)
    by (vm_compute; split; discriminate).
  assert (H2 : fst (cbor_read_array native_size_bits {| cbor := 16;
    cbor_size := 2 |} headers_memory) <> SIZE_MAX native_size_bits)
    by (vm_compute; discriminate).
  assert (H3 : 0 <= cbor_size {| cbor := 32; cbor_size := 1 |} <= SIZE_MAX
    native_size_bits)
    by (vm_compute; split; discriminate).
  assert (H4 : fst (cbor_read_map native_size_bits {| cbor := 32; cbor_size
    := 1 |} headers_memory) <> SIZE_MAX native_size_bits)
    by (vm_compute; discriminate).
  split; [exact (conj H1 (conj H2 (conj H3 H4))) |].
  exact (container_read_consumes_header native_size_bits native_size_t_fits
           {| cbor := 16; cbor_size := 2 |} {| cbor := 32; cbor_size := 1 |}
           headers_memory H1 H2 H3 H4).
Defined.
